(** * gpu_monitor_nvml: a shallow embedding of the NVML sampling monitor

  The monitor ([src/gpu_benchmark/gpu_monitor_nvml.cpp]) is one [main]
  function: it forks the benchmark, samples five NVML metrics while the
  child runs, averages them, writes a key=value report and returns the
  child's exit status.  The embedding below keeps that shape: the
  operating system, NVML and the C++ runtime are an environment of
  answers ([Env]), the observable effects are a log of calls plus a file
  system ([World]), and [main] is a computation in a small state monad
  whose only source of non-termination, the [while (true)] loop, is
  bounded by fuel. *)

From Stdlib Require Import ZArith Floats.PrimFloat Floats.SpecFloat Floats.FloatOps.
From Stdlib Require Import Numbers.Cyclic.Int63.Uint63.
From Stdlib Require Import Ascii String.
From Stdlib Require Import Floats.FloatAxioms.
From stdpp Require Import base option list strings pretty gmap.

Local Open Scope Z_scope.

(** ** Machine integers and doubles *)

Module Machine.

(** [unsigned int]: a 32-bit value, stored modulo 2^32. *)
Definition u32 (z : Z) : Z := z mod 2 ^ 32.

(** [int]: conversion to a 32-bit signed value wraps around. *)
Definition int32 (z : Z) : Z := (z + 2 ^ 31) mod 2 ^ 32 - 2 ^ 31.

(** [long] on LP64: arithmetic wraps around 64 bits, two's complement. *)
Definition long (z : Z) : Z := (z + 2 ^ 63) mod 2 ^ 64 - 2 ^ 63.

Definition LONG_MAX : Z := 2 ^ 63 - 1.
Definition LONG_MIN : Z := - 2 ^ 63.

(** [(signed char) z]. *)
Definition signed_char (z : Z) : Z := (z + 128) mod 256 - 128.

(** [double] is IEEE-754 binary64, the kernel's primitive [float]. *)
Abbreviation double := float.

(** Conversion of a non-negative integer below 2^63 to [double]
    (round to nearest, exact below 2^53). *)
Definition nonneg_to_double (z : Z) : double := PrimFloat.of_uint63 (Uint63.of_Z z).

(** [(double) x] for [x : unsigned int]. *)
Definition u32_to_double (z : Z) : double := nonneg_to_double z.

(** [(double) x] for [x : long]. *)
Definition long_to_double (z : Z) : double :=
  if z =? LONG_MIN then (- (nonneg_to_double (2 ^ 62) * 2))%float
  else if z <? 0 then (- nonneg_to_double (- z))%float
  else nonneg_to_double z.

(** [(double) n] for [n : size_t], the size of a vector (below 2^63:
    [std::vector<double>::max_size()] is far smaller). *)
Definition size_to_double (n : nat) : double := nonneg_to_double (Z.of_nat n).

End Machine.
Import Machine.

(** ** Wait statuses: <sys/wait.h> *)

Module WaitStatus.

(** Modelled from the spec: the macros of the system header <sys/wait.h>
    are not part of the repository.  The spec's ChildOutcome is a normal
    exit with a code or a termination by a signal; the decoding below is
    the Linux one (glibc bits/waitstatus.h), under which the low seven
    bits hold the terminating signal and bits 8..15 the exit code. *)
Definition WTERMSIG (status : Z) : Z := Z.land status 127.

(** [((status) & 0xff00) >> 8] *)
Definition WEXITSTATUS (status : Z) : Z := Z.shiftr (Z.land status 65280) 8.

(** [WTERMSIG (status) == 0] *)
Definition WIFEXITED (status : Z) : bool := WTERMSIG status =? 0.

(** [((signed char) (((status) & 0x7f) + 1) >> 1) > 0] *)
Definition WIFSIGNALED (status : Z) : bool :=
  0 <? Z.shiftr (signed_char (Z.land status 127 + 1)) 1.

(** What the parent of a process learns about its end. *)
Inductive ChildOutcome :=
| ExitedNormally (exit_code : Z)
| KilledBySignal (terminating_signal : Z) (core_dumped : bool)
| Stopped (stop_signal : Z).

(** The status word the kernel hands to [waitpid] for an outcome. *)
Definition wstatus (o : ChildOutcome) : Z :=
  match o with
  | ExitedNormally c => Z.shiftl (Z.land c 255) 8
  | KilledBySignal s core => Z.lor s (if core then 128 else 0)
  | Stopped s => Z.lor (Z.shiftl s 8) 127
  end.

End WaitStatus.
Import WaitStatus.

(** ** [atoi] *)

Module Atoi.

(** Modelled from the spec: [std::atoi] is the C library's.  It skips
    white space, reads an optional sign and the longest run of decimal
    digits, and yields 0 when there is none; glibc computes
    [(int) strtol (s, NULL, 10)], so the value saturates at the bounds
    of [long] and is then cut to 32 bits. *)
Definition isspace (c : ascii) : bool :=
  let n := Z.of_nat (nat_of_ascii c) in
  (n =? 32) || ((9 <=? n) && (n <=? 13)).

Definition digit_value (c : ascii) : option Z :=
  let n := Z.of_nat (nat_of_ascii c) in
  if (48 <=? n) && (n <=? 57) then Some (n - 48) else None.

Fixpoint skip_spaces (s : string) : string :=
  match s with
  | String c r => if isspace c then skip_spaces r else s
  | EmptyString => s
  end.

(** The value of the leading digits of [s], accumulated from [acc]. *)
Fixpoint digits (s : string) (acc : Z) : Z :=
  match s with
  | String c r =>
      match digit_value c with
      | Some d => digits r (10 * acc + d)
      | None => acc
      end
  | EmptyString => acc
  end.

Definition strtol10 (s : string) : Z :=
  let s1 := skip_spaces s in
  let '(neg, s2) :=
    match s1 with
    | String "-" r => (true, r)
    | String "+" r => (false, r)
    | _ => (false, s1)
    end in
  let v := digits s2 0 in
  let v := if neg then - v else v in
  Z.max LONG_MIN (Z.min LONG_MAX v).

Definition atoi (s : string) : Z := int32 (strtol10 s).

End Atoi.
Import Atoi.

(** ** The environment: operating system, NVML and the C++ runtime *)

(** The five quantities sampled in every iteration. *)
Inductive metric := Power | CoreClock | MemClock | Utilization | Temperature.

Global Instance metric_eq_dec : EqDecision metric.
Proof. solve_decision. Defined.

(** The calls [main] makes to the outside, in the order it makes them. *)
Inductive event :=
| Fork
| Execvp (cmd : list string)
| Perror (what : string)
| Cerr (text : string)
| NvmlInit
| NvmlDeviceGetHandleByIndex (index : Z)
| NvmlShutdown
| Waitpid (pid : Z) (nohang : bool)
| NvmlQuery (m : metric)
| SteadyNow
| SleepFor (ms : Z)
| OpenTrunc (path : string)
| SystemNow
| CloseFile (path : string).

(** [nvmlReturn_t]; [NVML_SUCCESS] is 0 in nvml.h. *)
Definition NVML_SUCCESS : Z := 0.

(** The answers of the outside world.  A call that is made repeatedly is
    answered by its call number: the k-th [waitpid (.., WNOHANG)], the
    k-th query of a metric, the k-th reading of the steady clock. *)
Record Env := {
  (** [fork ()]: -1, 0 in the child, the child's pid in the parent *)
  env_fork : Z;
  (** whether [execvp] finds and starts the program *)
  env_execvp_ok : list string -> bool;
  env_nvmlInit : Z;
  env_nvmlDeviceGetHandleByIndex : Z;
  env_nvmlErrorString : Z -> string;
  (** k-th non-blocking [waitpid]: its return value and the status it
      stores, if it stores one *)
  env_waitpid_nohang : nat -> Z * option Z;
  (** the blocking [waitpid]: likewise, once the child has ended *)
  env_waitpid_blocking : Z * option Z;
  (** k-th query of a metric: the return code and the content of the
      output variable after the call *)
  env_nvml_query : metric -> nat -> Z * Z;
  (** k-th reading of [steady_clock::now ()], in nanoseconds *)
  env_steady_clock : nat -> Z;
  (** whether the output file can be opened for writing *)
  env_open_ok : string -> bool;
  (** [strftime ("%FT%T%z")] of the local time at the end of the run *)
  env_timestamp : string;
  (** [operator<<] of a [double]: the text for a value under the stream's
      floatfield ([true] is [std::fixed]) and precision *)
  env_put_double : bool -> nat -> double -> string
}.

(** What [main] leaves behind: the calls it made and the files. *)
Record World := {
  trace : list event;
  fs : gmap string string
}.

Definition initial_world (files : gmap string string) : World :=
  {| trace := []; fs := files |}.

Definition is_poll (e : event) : bool :=
  match e with Waitpid _ true => true | _ => false end.

Definition is_query (m : metric) (e : event) : bool :=
  match e with NvmlQuery m' => bool_decide (m = m') | _ => false end.

Definition is_steady (e : event) : bool :=
  match e with SteadyNow => true | _ => false end.

(** How many events of a kind the log holds. *)
Fixpoint calls (p : event -> bool) (l : list event) : nat :=
  match l with
  | [] => O
  | e :: l' => if p e then S (calls p l') else calls p l'
  end.

(** ** The monad of [main] *)

(** A computation ends with a value and a world, is still inside the
    sampling loop when its fuel is spent, or has undefined behaviour (an
    index outside a vector). *)
Inductive outcome (A : Type) :=
| Done (a : A) (w : World)
| OutOfFuel
| Undefined.
Arguments Done {A} a w.
Arguments OutOfFuel {A}.
Arguments Undefined {A}.

Definition M (A : Type) : Type := World -> outcome A.

Definition ret {A} (a : A) : M A := fun w => Done a w.

Definition bind {A B} (m : M A) (k : A -> M B) : M B :=
  fun w => match m w with
           | Done a w' => k a w'
           | OutOfFuel => OutOfFuel
           | Undefined => Undefined
           end.

Declare Scope monitor_scope.
Delimit Scope monitor_scope with mon.
Notation "'let*' x := m 'in' k" := (bind m (fun x => k))
  (at level 10, x pattern, m at level 100, k at level 200) : monitor_scope.
Notation "m ;;; k" := (bind m (fun _ => k))
  (at level 100, k at level 200, right associativity) : monitor_scope.
Local Open Scope monitor_scope.

Definition emit (e : event) : M unit :=
  fun w => Done tt {| trace := trace w ++ [e]; fs := fs w |}.

Definition count (p : event -> bool) : M nat :=
  fun w => Done (calls p (trace w)) w.

Definition undefined {A} : M A := fun _ => Undefined.

Definition out_of_fuel {A} : M A := fun _ => OutOfFuel.

Definition lift_option {A} (o : option A) : M A :=
  match o with Some a => ret a | None => undefined end.

(** How the process running [main] ends. *)
Inductive finish :=
| Return (code : Z)          (* [return code;] from [main] *)
| Exit (code : Z)            (* [_exit (code)] *)
| Exec (cmd : list string).  (* [execvp] replaced the process image *)

(** ** System calls and library calls *)

Section Calls.
Variable env : Env.

Definition fork : M Z :=
  emit Fork ;;; ret (env_fork env).

(** [execvp (cmd[0], cmd)]: [true] when the image is replaced, in which
    case the call does not return. *)
Definition execvp (cmd : list string) : M bool :=
  emit (Execvp cmd) ;;; ret (env_execvp_ok env cmd).

Definition perror (what : string) : M unit := emit (Perror what).

Definition cerr (text : string) : M unit := emit (Cerr text).

Definition nvmlInit : M Z := emit NvmlInit ;;; ret (env_nvmlInit env).

Definition nvmlDeviceGetHandleByIndex (index : Z) : M Z :=
  emit (NvmlDeviceGetHandleByIndex index) ;;;
  ret (env_nvmlDeviceGetHandleByIndex env).

Definition nvmlShutdown : M unit := emit NvmlShutdown.

(** [waitpid (pid, &status, WNOHANG)]: the return value and the new
    content of [status]. *)
Definition waitpid_nohang (pid status : Z) : M (Z * Z) :=
  let* k := count is_poll in
  emit (Waitpid pid true) ;;;
  let '(r, stored) := env_waitpid_nohang env k in
  ret (r, default status stored).

(** [waitpid (pid, &status, 0)]: returns once the child has ended. *)
Definition waitpid_blocking (pid status : Z) : M (Z * Z) :=
  emit (Waitpid pid false) ;;;
  let '(r, stored) := env_waitpid_blocking env in
  ret (r, default status stored).

(** One NVML query into an [unsigned int]. *)
Definition nvml_query (m : metric) : M (Z * Z) :=
  let* k := count (is_query m) in
  emit (NvmlQuery m) ;;;
  let '(r, v) := env_nvml_query env m k in
  ret (r, u32 v).

Definition steady_clock_now : M Z :=
  let* k := count is_steady in
  emit SteadyNow ;;;
  ret (env_steady_clock env k).

Definition sleep_for (ms : Z) : M unit := emit (SleepFor ms).

End Calls.

(** ** The sampling loop (lines 66-111) *)

(** The five vectors filled by the loop. *)
Record Series := {
  powers : list double;      (* watts *)
  core_clocks : list Z;
  mem_clocks : list Z;
  utils : list Z;            (* percent *)
  temps : list Z             (* C *)
}.

Definition empty_series : Series :=
  {| powers := []; core_clocks := []; mem_clocks := []; utils := []; temps := [] |}.

(** The values of one iteration, before they are pushed. *)
Record Sample := {
  power_w : double;
  core_mhz_val : Z;
  mem_mhz_val : Z;
  gpu_util : Z;
  tval : Z
}.

(** The five [push_back]s of lines 102-106. *)
Definition push_back (v : Series) (s : Sample) : Series :=
  {| powers := powers v ++ [power_w s];
     core_clocks := core_clocks v ++ [core_mhz_val s];
     mem_clocks := mem_clocks v ++ [mem_mhz_val s];
     utils := utils v ++ [gpu_util s];
     temps := temps v ++ [tval s] |}.

Section Monitor.
Variable env : Env.

(** Lines 82-100: the five queries, each replaced by zero when it fails. *)
Definition take_sample : M Sample :=
  let* (r, power_mw) := nvml_query env Power in
  let power_w := if r =? NVML_SUCCESS then (u32_to_double power_mw / 1000)%float else 0%float in
  let* (r, core_mhz) := nvml_query env CoreClock in
  let core_mhz_val := if r =? NVML_SUCCESS then core_mhz else 0 in
  let* (r, mem_mhz) := nvml_query env MemClock in
  let mem_mhz_val := if r =? NVML_SUCCESS then mem_mhz else 0 in
  let* (r, util_gpu) := nvml_query env Utilization in
  let gpu_util := if r =? NVML_SUCCESS then util_gpu else 0 in
  let* (r, temp) := nvml_query env Temperature in
  let tval := if r =? NVML_SUCCESS then temp else 0 in
  ret {| power_w := power_w; core_mhz_val := core_mhz_val;
         mem_mhz_val := mem_mhz_val; gpu_util := gpu_util; tval := tval |}.

(** Lines 76-111.  One unit of fuel is one iteration of [while (true)]. *)
Fixpoint sampling_loop (fuel : nat) (pid sample_ms status : Z) (v : Series)
  : M (Z * Series) :=
  match fuel with
  | O => out_of_fuel
  | S fuel' =>
      let* (r, status) := waitpid_nohang env pid status in
      let child_done := r =? pid in
      let* s := take_sample in
      let v := push_back v s in
      if child_done then ret (status, v)
      else sleep_for sample_ms ;;; sampling_loop fuel' pid sample_ms status v
  end.

(** ** Aggregation (lines 113-135) *)

Record Sums := {
  sum_p : double;
  sum_core : Z;
  sum_mem : Z;
  sum_util : Z;
  sum_temp : Z
}.

Definition zero_sums : Sums :=
  {| sum_p := 0%float; sum_core := 0; sum_mem := 0; sum_util := 0; sum_temp := 0 |}.

(** The [for] loop of lines 121-127 from index [i], [steps] iterations
    to go.  Reading a vector past its end is undefined: [None]. *)
Fixpoint sum_from (steps i : nat) (v : Series) (s : Sums) : option Sums :=
  match steps with
  | O => Some s
  | S steps' =>
      p ← powers v !! i;
      c ← core_clocks v !! i;
      m ← mem_clocks v !! i;
      u ← utils v !! i;
      t ← temps v !! i;
      sum_from steps' (S i) v
        {| sum_p := (sum_p s + p)%float;
           sum_core := long (sum_core s + c);
           sum_mem := long (sum_mem s + m);
           sum_util := long (sum_util s + u);
           sum_temp := long (sum_temp s + t) |}
  end.

Record Summary := {
  avg_p : double;
  avg_core : double;
  avg_mem : double;
  avg_util : double;
  avg_temp : double;
  n : nat;
  duration_s : double;
  energy_j : double
}.

(** Lines 113-115: [duration<double>] of a difference of steady-clock
    readings, whose count is a 64-bit number of nanoseconds. *)
Definition duration_seconds (t_start t_end : Z) : double :=
  (long_to_double (long (t_end - t_start)) / 1000000000)%float.

(** Lines 117-135. *)
Definition aggregate (v : Series) (duration_s : double) : option Summary :=
  let n := length (powers v) in
  s ← sum_from n 0 v zero_sums;
  let avg_p := if (0 <? n)%nat then (sum_p s / size_to_double n)%float else 0%float in
  let avg_core := if (0 <? n)%nat then (long_to_double (sum_core s) / size_to_double n)%float else 0%float in
  let avg_mem := if (0 <? n)%nat then (long_to_double (sum_mem s) / size_to_double n)%float else 0%float in
  let avg_util := if (0 <? n)%nat then (long_to_double (sum_util s) / size_to_double n)%float else 0%float in
  let avg_temp := if (0 <? n)%nat then (long_to_double (sum_temp s) / size_to_double n)%float else 0%float in
  let energy_j := (avg_p * duration_s)%float in
  Some {| avg_p := avg_p; avg_core := avg_core; avg_mem := avg_mem;
          avg_util := avg_util; avg_temp := avg_temp; n := n;
          duration_s := duration_s; energy_j := energy_j |}.

(** ** The report (lines 137-160) *)

(** An output stream: the text written so far and the two format
    settings that [operator<<] of a [double] reads.  A fresh stream has
    no floatfield set and precision 6. *)
Record ofstream := {
  os_text : string;
  os_fixed : bool;
  os_precision : nat
}.

Definition fresh_stream : ofstream :=
  {| os_text := ""; os_fixed := false; os_precision := 6 |}.

Definition put_string (s : string) (os : ofstream) : ofstream :=
  {| os_text := os_text os +:+ s; os_fixed := os_fixed os; os_precision := os_precision os |}.

Definition put_double (x : double) (os : ofstream) : ofstream :=
  put_string (env_put_double env (os_fixed os) (os_precision os) x) os.

(** [operator<<] of a [size_t]: the decimal digits. *)
Definition put_size (k : nat) (os : ofstream) : ofstream :=
  put_string (pretty k) os.

Definition set_fixed (os : ofstream) : ofstream :=
  {| os_text := os_text os; os_fixed := true; os_precision := os_precision os |}.

Definition setprecision (p : nat) (os : ofstream) : ofstream :=
  {| os_text := os_text os; os_fixed := os_fixed os; os_precision := p |}.

Definition newline : string := String (ascii_of_nat 10) "".

(** Lines 150-159, statement by statement. *)
Definition report_stream (timestamp : string) (r : Summary) : ofstream :=
  let ofs := fresh_stream in
  let ofs := put_string newline (put_string timestamp (put_string "timestamp=" ofs)) in
  let ofs := setprecision 3 (set_fixed ofs) in
  let ofs := put_string newline (put_double (avg_p r) (put_string "power_avg_w=" ofs)) in
  let ofs := put_string newline (put_double (avg_core r) (put_string "gpu_core_clock_MHz=" ofs)) in
  let ofs := put_string newline (put_double (avg_mem r) (put_string "gpu_mem_clock_MHz=" ofs)) in
  let ofs := put_string newline (put_double (avg_util r) (put_string "gpu_utilization_pct=" ofs)) in
  let ofs := put_string newline (put_double (avg_temp r) (put_string "gpu_temp_c=" ofs)) in
  let ofs := put_string newline (put_size (n r) (put_string "samples=" ofs)) in
  let ofs := put_string newline (put_double (duration_s r) (put_string "duration_s=" ofs)) in
  let ofs := put_string newline (put_double (energy_j r) (put_string "energy_j=" ofs)) in
  ofs.

(** Bytes written from position 0 of a file that holds [old]: they replace
    the bytes of [old] they cover, and what of [old] lies beyond them
    stays. *)
Fixpoint write_over (text old : string) : string :=
  match text with
  | EmptyString => old
  | String c text' =>
      String c (write_over text' (match old with
                                  | EmptyString => EmptyString
                                  | String _ old' => old'
                                  end))
  end.

(** [std::ofstream ofs (out_file, std::ios::out | std::ios::trunc)]: when
    the file opens, whatever it held is gone. *)
Definition open_trunc (path : string) : M bool :=
  emit (OpenTrunc path) ;;;
  if env_open_ok env path
  then fun w => Done true {| trace := trace w; fs := <[path := ""]> (fs w) |}
  else ret false.

(** Lines 145-148. *)
Definition local_timestamp : M string :=
  emit SystemNow ;;; ret (env_timestamp env).

(** [ofs.close ()] flushes what was written since the open.  The stream
    was opened at the start of the file and never sought, so its text lies
    over the first bytes of what the open left there; a path the open did
    not leave a file at gets the text alone. *)
Definition close (path : string) (os : ofstream) : M unit :=
  emit (CloseFile path) ;;;
  fun w => Done tt {| trace := trace w;
                      fs := <[path := write_over (os_text os) (default "" (fs w !! path))]>
                              (fs w) |}.

(** Lines 164-167. *)
Definition exit_status (status : Z) : Z :=
  if WIFEXITED status then WEXITSTATUS status
  else if WIFSIGNALED status then 128 + WTERMSIG status
  else 0.

(** ** [main] *)

Definition usage (argv0 : string) : string :=
  "Usage: " +:+ argv0 +:+ " <sample_ms> <output_file> <command> [args...]" +:+ newline.

(** Lines 66-167: the parent once NVML and the device are ready. *)
Definition monitor (fuel : nat) (pid sample_ms : Z) (out_file : string) : M finish :=
  let* t_start := steady_clock_now env in
  let* (status, v) := sampling_loop fuel pid sample_ms 0 empty_series in
  let* t_end := steady_clock_now env in
  let duration_s := duration_seconds t_start t_end in
  let* r := lift_option (aggregate v duration_s) in
  let* opened := open_trunc out_file in
  if negb opened then
    cerr ("Failed to open output file: " +:+ out_file +:+ newline) ;;;
    nvmlShutdown ;;;
    ret (Return 6)
  else
    let* buf := local_timestamp in
    close out_file (report_stream buf r) ;;;
    nvmlShutdown ;;;
    ret (Return (exit_status status)).

(** Lines 19-64, then [monitor].  [argv] holds [argc] strings. *)
Definition main (fuel : nat) (argv : list string) : M finish :=
  if Z.of_nat (length argv) <? 4 then
    cerr (usage (nth 0 argv "")) ;;;
    ret (Return 2)
  else
    let sample_ms := atoi (nth 1 argv "") in
    let out_file := nth 2 argv "" in
    let cmd := drop 3 argv in
    let* pid := fork env in
    if pid =? -1 then
      perror "fork" ;;;
      ret (Return 3)
    else if pid =? 0 then
      let* replaced := execvp env cmd in
      if replaced then ret (Exec cmd)
      else perror "execvp" ;;; ret (Exit 127)
    else
      let* r := nvmlInit env in
      if negb (r =? NVML_SUCCESS) then
        cerr ("NVML init failed: " +:+ env_nvmlErrorString env r +:+ newline) ;;;
        (* still wait for child to finish *)
        let* _ := waitpid_blocking env pid 0 in
        ret (Return 4)
      else
        let* r := nvmlDeviceGetHandleByIndex env 0 in
        if negb (r =? NVML_SUCCESS) then
          cerr ("NVML get device failed: " +:+ env_nvmlErrorString env r +:+ newline) ;;;
          nvmlShutdown ;;;
          let* _ := waitpid_blocking env pid 0 in
          ret (Return 5)
        else
          monitor fuel pid sample_ms out_file.

End Monitor.

(** ** A concrete environment *)

Module Sample.

(** [printf ("%.*f")], which [operator<<] uses under [std::fixed]: the
    exact value of the double, rounded to [prec] decimals, ties to even.
    The sign of a NaN cannot be told from a [float], so NaN prints as
    "nan". *)
Definition fixed_text (prec : nat) (x : double) : string :=
  let sign (s : bool) : string := if s then "-" else "" in
  let unit := 10 ^ Z.of_nat prec in
  let text (q : Z) : string :=
    pretty (q / unit) +:+
    (if prec is O then "" else "." +:+ String.substring 1 prec (pretty (unit + q mod unit))) in
  match Prim2SF x with
  | S754_zero s => sign s +:+ text 0
  | S754_infinity s => sign s +:+ "inf"
  | S754_nan => "nan"
  | S754_finite s m e =>
      let num := Z.pos m * unit * 2 ^ Z.max e 0 in
      let den := 2 ^ Z.max (- e) 0 in
      let q := num / den in
      let r := num mod den in
      let q := if (den <? 2 * r) || ((den =? 2 * r) && Z.odd q) then q + 1 else q in
      sign s +:+ text q
  end.

(** Only [std::fixed] is rendered; [main] prints no double before it sets
    it, and the general notation is left as a mark. *)
Definition put_double (fixed : bool) (prec : nat) (x : double) : string :=
  if fixed then fixed_text prec x else "%g".

(** The parent of a child with pid 4242 that is still running at the
    first [alive] polls and has ended with [o] at the next; NVML starts
    with codes [init] and [device], and the memory clock query fails
    once.  [found] tells whether the command exists. *)
Definition process (found : bool) (alive : nat) (o : ChildOutcome) (init device : Z) : Env :=
  {| env_fork := 4242;
     env_execvp_ok := fun _ => found;
     env_nvmlInit := init;
     env_nvmlDeviceGetHandleByIndex := device;
     env_nvmlErrorString := fun _ => "Unknown Error";
     env_waitpid_nohang := fun k =>
       if (k <? alive)%nat then (0, None) else (4242, Some (wstatus o));
     env_waitpid_blocking := (4242, Some (wstatus o));
     env_nvml_query := fun m k =>
       match m with
       | Power => (NVML_SUCCESS, 150000 + 1500 * Z.of_nat k)
       | CoreClock => (NVML_SUCCESS, 1500)
       | MemClock => (if (k =? 1)%nat then 999 else NVML_SUCCESS, 5001)
       | Utilization => (NVML_SUCCESS, 97)
       | Temperature => (NVML_SUCCESS, 65)
       end;
     env_steady_clock := fun k => 5000000000 + 250000000 * Z.of_nat k;
     env_open_ok := fun _ => true;
     env_timestamp := "2025-03-01T12:00:00+0100";
     env_put_double := put_double |}.

Definition parent : nat -> ChildOutcome -> Z -> Z -> Env := process true.

(** Two polls find the benchmark running; it then exits with code 7. *)
Definition env : Env := parent 2 (ExitedNormally 7) NVML_SUCCESS NVML_SUCCESS.

(** The forked child, whose [execvp] finds no such program. *)
Definition child : Env :=
  {| env_fork := 0;
     env_execvp_ok := fun _ => false;
     env_nvmlInit := NVML_SUCCESS;
     env_nvmlDeviceGetHandleByIndex := NVML_SUCCESS;
     env_nvmlErrorString := fun _ => "Unknown Error";
     env_waitpid_nohang := fun _ => (-1, None);
     env_waitpid_blocking := (-1, None);
     env_nvml_query := fun _ _ => (NVML_SUCCESS, 0);
     env_steady_clock := fun _ => 0;
     env_open_ok := fun _ => true;
     env_timestamp := "2025-03-01T12:00:00+0100";
     env_put_double := put_double |}.

(** The benchmark is gone before the first poll. *)
Definition exited_already : Env := parent 0 (ExitedNormally 0) NVML_SUCCESS NVML_SUCCESS.

(** The benchmark is killed by signal 9. *)
Definition killed : Env := parent 2 (KilledBySignal 9 false) NVML_SUCCESS NVML_SUCCESS.

(** [nvmlInit] fails with code 999 (NVML_ERROR_UNKNOWN); the benchmark
    exits with code 7. *)
Definition no_nvml : Env := parent 2 (ExitedNormally 7) 999 NVML_SUCCESS.

(** There is no device 0: code 2 (NVML_ERROR_INVALID_ARGUMENT). *)
Definition no_device : Env := parent 2 (ExitedNormally 7) NVML_SUCCESS 2.

(** The parent of [child]: the first poll already finds it gone, with the
    status of [_exit (127)]. *)
Definition parent_of_child : Env :=
  process false 0 (ExitedNormally 127) NVML_SUCCESS NVML_SUCCESS.

Definition argv : list string := ["gpu_monitor"; "100"; "out.txt"; "./dot"; "1024"].

Definition files : gmap string string := {["out.txt" := "stale"]}.

End Sample.

(** ** Describing a run *)

Section Runs.
Variable env : Env.

(** The answer to the query of metric [m] in the [i]-th iteration of a
    loop entered in world [w]. *)
Definition answer (w : World) (m : metric) (i : nat) : Z * Z :=
  env_nvml_query env m (calls (is_query m) (trace w) + i).

(** The content of an [unsigned int] field after absorption. *)
Definition absorbed (a : Z * Z) : Z :=
  if a.1 =? NVML_SUCCESS then u32 a.2 else 0.

Definition sample_at (w : World) (i : nat) : Sample :=
  {| power_w :=
       if (answer w Power i).1 =? NVML_SUCCESS
       then (u32_to_double (u32 (answer w Power i).2) / 1000)%float
       else 0%float;
     core_mhz_val := absorbed (answer w CoreClock i);
     mem_mhz_val := absorbed (answer w MemClock i);
     gpu_util := absorbed (answer w Utilization i);
     tval := absorbed (answer w Temperature i) |}.

(** The calls of one iteration up to the test of [child_done]. *)
Definition iteration (pid : Z) : list event :=
  [Waitpid pid true; NvmlQuery Power; NvmlQuery CoreClock; NvmlQuery MemClock;
   NvmlQuery Utilization; NvmlQuery Temperature].

(** The calls of a loop that sleeps [k] times: [k] iterations that find
    the child running, then the one that reaps it. *)
Fixpoint iterations (pid sample_ms : Z) (k : nat) : list event :=
  match k with
  | O => iteration pid
  | S k' => iteration pid ++ SleepFor sample_ms :: iterations pid sample_ms k'
  end.

(** The series after the samples [from], ..., [from + count - 1] of a
    loop entered in [w] have been pushed onto [v]. *)
Fixpoint pushed (w : World) (from count : nat) (v : Series) : Series :=
  match count with
  | O => v
  | S count' => pushed w (S from) count' (push_back v (sample_at w from))
  end.

(** The status word after the [waitpid]s of [k + 1] iterations. *)
Fixpoint status_after (w : World) (from k : nat) (status : Z) : Z :=
  let status := default status (env_waitpid_nohang env (calls is_poll (trace w) + from)).2 in
  match k with
  | O => status
  | S k' => status_after w (S from) k' status
  end.

(** The loop entered in [w] finds the child running [k] times and reaps
    it at the next poll. *)
Definition reaped_at (w : World) (pid : Z) (k : nat) : Prop :=
  (forall i, (i < k)%nat -> (env_waitpid_nohang env (calls is_poll (trace w) + i)).1 <> pid) /\
  (env_waitpid_nohang env (calls is_poll (trace w) + k)).1 = pid.

End Runs.

(** The five vectors have one length. *)
Definition aligned (v : Series) : Prop :=
  length (core_clocks v) = length (powers v) /\
  length (mem_clocks v) = length (powers v) /\
  length (utils v) = length (powers v) /\
  length (temps v) = length (powers v).

(** Sums as the loop of lines 121-127 forms them, left to right. *)
Definition total_power (l : list double) : double :=
  fold_left (fun a x => (a + x)%float) l 0%float.

Definition long_sum (l : list Z) : Z :=
  fold_left (fun a x => long (a + x)) l 0.

(** The mean of an integer vector as lines 130-133 compute it. *)
Definition mean_of (l : list Z) : double :=
  (long_to_double (long_sum l) / size_to_double (length l))%float.

(** A run of the parent that reaches the sampling loop and reaps the
    child, with wait status [status], at the poll of iteration [k]. *)
Record SamplingRun (env : Env) (argv : list string) (k : nat) (status : Z) : Prop := {
  run_argc : (4 <= length argv)%nat;
  run_forked : env_fork env <> -1 /\ env_fork env <> 0;
  run_init : env_nvmlInit env = NVML_SUCCESS;
  run_device : env_nvmlDeviceGetHandleByIndex env = NVML_SUCCESS;
  run_alive : forall i, (i < k)%nat -> (env_waitpid_nohang env i).1 <> env_fork env;
  run_reaped : env_waitpid_nohang env k = (env_fork env, Some status)
}.

(** The series such a run collects, its duration and the calls it makes
    before and after the loop. *)
Definition run_series (env : Env) (k : nat) : Series :=
  pushed env (initial_world ∅) 0 (S k) empty_series.

Definition run_duration (env : Env) : double :=
  duration_seconds (env_steady_clock env 0) (env_steady_clock env 1).

Definition prologue : list event :=
  [Fork; NvmlInit; NvmlDeviceGetHandleByIndex 0; SteadyNow].

Definition epilogue (out_file : string) : list event :=
  [SteadyNow; OpenTrunc out_file; SystemNow; CloseFile out_file; NvmlShutdown].

(** The text of [key=value] lines. *)
Fixpoint key_value_lines (kvs : list (string * string)) : string :=
  match kvs with
  | [] => ""
  | (k, v) :: kvs' => k +:+ "=" +:+ v +:+ newline +:+ key_value_lines kvs'
  end.

(** Reading a report back: the lines of a text, each ended by a newline,
    and the key of a line, what stands before its first '='. *)
Fixpoint lines_from (cur s : string) : list string :=
  match s with
  | EmptyString => if cur is EmptyString then [] else [cur]
  | String c r =>
      if Ascii.eqb c (ascii_of_nat 10) then cur :: lines_from "" r
      else lines_from (cur +:+ String c "") r
  end.

Fixpoint key_from (cur s : string) : string :=
  match s with
  | EmptyString => cur
  | String c r => if Ascii.eqb c "=" then cur else key_from (cur +:+ String c "") r
  end.

Definition keys_of (text : string) : list string :=
  key_from "" <$> lines_from "" text.

(** An earlier and longer report, and a file the monitor has no business
    with. *)
Definition earlier_report : string :=
  key_value_lines
    [("timestamp", "2025-02-28T09:30:00+0100");
     ("power_avg_w", "1250.125");
     ("gpu_core_clock_MHz", "2100.000");
     ("gpu_mem_clock_MHz", "10501.000");
     ("gpu_utilization_pct", "100.000");
     ("gpu_temp_c", "81.250");
     ("samples", "123456");
     ("duration_s", "12345.678");
     ("energy_j", "15432640.801")].

Definition files_with_earlier_report : gmap string string :=
  {["out.txt" := earlier_report; "notes.txt" := "kept"]}.

(** The character [c] does not occur in [s]. *)
Fixpoint free_of (c : ascii) (s : string) : bool :=
  match s with
  | EmptyString => true
  | String d r => negb (Ascii.eqb d c) && free_of c r
  end.

(** The log with the argument of every [sleep_for] forgotten. *)
Definition forget_sleep (e : event) : event :=
  match e with SleepFor _ => SleepFor 0 | _ => e end.

Definition forget_interval {A} (o : outcome A) : outcome A :=
  match o with
  | Done a w => Done a {| trace := forget_sleep <$> trace w; fs := fs w |}
  | OutOfFuel => OutOfFuel
  | Undefined => Undefined
  end.

(** Two worlds that differ at most in how long the sleeps were. *)
Definition same_but_sleep (w w' : World) : Prop :=
  forget_sleep <$> trace w = forget_sleep <$> trace w' /\ fs w = fs w'.

(** Two computations that, from such worlds, end alike up to the
    lengths of the sleeps. *)
Definition alike {A} (m m' : M A) : Prop :=
  forall w w', same_but_sleep w w' -> forget_interval (m w) = forget_interval (m' w').

(** ** The ways [main] ends *)

Definition is_init (e : event) : bool :=
  match e with NvmlInit => true | _ => false end.

Definition is_shutdown (e : event) : bool :=
  match e with NvmlShutdown => true | _ => false end.

Definition is_open (e : event) : bool :=
  match e with OpenTrunc _ => true | _ => false end.

Definition is_sleep (e : event) : bool :=
  match e with SleepFor _ => true | _ => false end.

(** The calls of a run whose output file does not open. *)
Definition epilogue_unopened (out_file : string) : list event :=
  [SteadyNow; OpenTrunc out_file;
   Cerr ("Failed to open output file: " +:+ out_file +:+ newline);
   NvmlShutdown].

(** The eight ends of the process that runs [main] on [argv], with the
    files [files]: how it finishes, and the calls and files it leaves. *)
Inductive ends (env : Env) (argv : list string) (files : gmap string string)
  : finish -> World -> Prop :=
| ends_usage :
    (length argv < 4)%nat ->
    ends env argv files (Return 2)
      {| trace := [Cerr (usage (nth 0 argv ""))]; fs := files |}
| ends_fork_failed :
    (4 <= length argv)%nat -> env_fork env = -1 ->
    ends env argv files (Return 3) {| trace := [Fork; Perror "fork"]; fs := files |}
| ends_exec :
    (4 <= length argv)%nat -> env_fork env = 0 ->
    env_execvp_ok env (drop 3 argv) = true ->
    ends env argv files (Exec (drop 3 argv))
      {| trace := [Fork; Execvp (drop 3 argv)]; fs := files |}
| ends_exec_failed :
    (4 <= length argv)%nat -> env_fork env = 0 ->
    env_execvp_ok env (drop 3 argv) = false ->
    ends env argv files (Exit 127)
      {| trace := [Fork; Execvp (drop 3 argv); Perror "execvp"]; fs := files |}
| ends_no_nvml :
    (4 <= length argv)%nat -> env_fork env <> -1 -> env_fork env <> 0 ->
    env_nvmlInit env <> NVML_SUCCESS ->
    ends env argv files (Return 4)
      {| trace := [Fork; NvmlInit;
                   Cerr ("NVML init failed: " +:+
                         env_nvmlErrorString env (env_nvmlInit env) +:+ newline);
                   Waitpid (env_fork env) false];
         fs := files |}
| ends_no_device :
    (4 <= length argv)%nat -> env_fork env <> -1 -> env_fork env <> 0 ->
    env_nvmlInit env = NVML_SUCCESS ->
    env_nvmlDeviceGetHandleByIndex env <> NVML_SUCCESS ->
    ends env argv files (Return 5)
      {| trace := [Fork; NvmlInit; NvmlDeviceGetHandleByIndex 0;
                   Cerr ("NVML get device failed: " +:+
                         env_nvmlErrorString env (env_nvmlDeviceGetHandleByIndex env) +:+
                         newline);
                   NvmlShutdown; Waitpid (env_fork env) false];
         fs := files |}
| ends_report k r :
    (4 <= length argv)%nat -> env_fork env <> -1 -> env_fork env <> 0 ->
    env_nvmlInit env = NVML_SUCCESS ->
    env_nvmlDeviceGetHandleByIndex env = NVML_SUCCESS ->
    reaped_at env (initial_world ∅) (env_fork env) k ->
    aggregate (run_series env k) (run_duration env) = Some r ->
    env_open_ok env (nth 2 argv "") = true ->
    ends env argv files
      (Return (exit_status (status_after env (initial_world ∅) 0 k 0)))
      {| trace := prologue ++ iterations (env_fork env) (atoi (nth 1 argv "")) k ++
                  epilogue (nth 2 argv "");
         fs := <[nth 2 argv "" := os_text (report_stream env (env_timestamp env) r)]> files |}
| ends_no_report k :
    (4 <= length argv)%nat -> env_fork env <> -1 -> env_fork env <> 0 ->
    env_nvmlInit env = NVML_SUCCESS ->
    env_nvmlDeviceGetHandleByIndex env = NVML_SUCCESS ->
    reaped_at env (initial_world ∅) (env_fork env) k ->
    env_open_ok env (nth 2 argv "") = false ->
    ends env argv files (Return 6)
      {| trace := prologue ++ iterations (env_fork env) (atoi (nth 1 argv "")) k ++
                  epilogue_unopened (nth 2 argv "");
         fs := files |}.

(** The parent has waited for its child: by the blocking [waitpid], or
    by a poll that returned the child's pid. *)
Definition waited (env : Env) (l : list event) : Prop :=
  In (Waitpid (env_fork env) false) l \/
  exists k, (k < calls is_poll l)%nat /\ (env_waitpid_nohang env k).1 = env_fork env.

(** ** Environments in which something goes wrong *)

Module Faulty.

(** As [Sample.env], but the output file cannot be opened. *)
Definition unwritable : Env :=
  {| env_fork := env_fork Sample.env;
     env_execvp_ok := env_execvp_ok Sample.env;
     env_nvmlInit := env_nvmlInit Sample.env;
     env_nvmlDeviceGetHandleByIndex := env_nvmlDeviceGetHandleByIndex Sample.env;
     env_nvmlErrorString := env_nvmlErrorString Sample.env;
     env_waitpid_nohang := env_waitpid_nohang Sample.env;
     env_waitpid_blocking := env_waitpid_blocking Sample.env;
     env_nvml_query := env_nvml_query Sample.env;
     env_steady_clock := env_steady_clock Sample.env;
     env_open_ok := fun _ => false;
     env_timestamp := env_timestamp Sample.env;
     env_put_double := env_put_double Sample.env |}.

(** As [Sample.env], but every non-blocking [waitpid] fails with -1, as
    it does when the child is not there to be waited for. *)
Definition unreapable : Env :=
  {| env_fork := env_fork Sample.env;
     env_execvp_ok := env_execvp_ok Sample.env;
     env_nvmlInit := env_nvmlInit Sample.env;
     env_nvmlDeviceGetHandleByIndex := env_nvmlDeviceGetHandleByIndex Sample.env;
     env_nvmlErrorString := env_nvmlErrorString Sample.env;
     env_waitpid_nohang := fun _ => (-1, None);
     env_waitpid_blocking := (-1, None);
     env_nvml_query := env_nvml_query Sample.env;
     env_steady_clock := env_steady_clock Sample.env;
     env_open_ok := env_open_ok Sample.env;
     env_timestamp := env_timestamp Sample.env;
     env_put_double := env_put_double Sample.env |}.

End Faulty.

(** * The CPU benchmarks

    [src/benchmarks/cpu/dot.c] and [src/benchmarks/cpu/memcpy.c] are the
    workloads the monitor is run on.  Each is a [main] over the C
    library: the library's answers are an environment, the calls made are
    a log, and an access outside an allocated block, or a read of a cell
    never written, is undefined behaviour. *)

Module Bench.

Inductive call :=
| Stdout (text : string)
| Stderr (text : string)
| Malloc (size : Z)
| Free
| Srand (seed : Z)
| Rand
| Gettimeofday.

Record Env := {
  (** whether the k-th [malloc], of the given size, returns a block *)
  env_malloc : nat -> Z -> bool;
  (** the k-th value of [rand ()] after [srand (42)] *)
  env_rand : nat -> Z;
  (** the k-th [gettimeofday]: [tv_sec] and [tv_usec] *)
  env_gettimeofday : nat -> Z * Z;
  (** [printf ("%.Nf")]: the text of a double with N decimals *)
  env_printf_f : nat -> double -> string
}.

Inductive outcome (A : Type) :=
| Done (a : A) (log : list call)
| Undefined.
Arguments Done {A} a log.
Arguments Undefined {A}.

Definition M (A : Type) : Type := list call -> outcome A.

Definition ret {A} (a : A) : M A := fun l => Done a l.

Definition bind {A B} (m : M A) (k : A -> M B) : M B :=
  fun l => match m l with
           | Done a l' => k a l'
           | Undefined => Undefined
           end.

Declare Scope bench_scope.
Delimit Scope bench_scope with bench.
Notation "'let*' x := m 'in' k" := (bind m (fun x => k))
  (at level 10, x pattern, m at level 100, k at level 200) : bench_scope.
Notation "m ;;; k" := (bind m (fun _ => k))
  (at level 100, k at level 200, right associativity) : bench_scope.
#[local] Open Scope bench_scope.

Definition emit (c : call) : M unit := fun l => Done tt (l ++ [c]).

Definition lift {A} (o : option A) : M A :=
  match o with Some a => ret a | None => fun _ => Undefined end.

Fixpoint count (p : call -> bool) (l : list call) : nat :=
  match l with
  | [] => O
  | c :: l' => if p c then S (count p l') else count p l'
  end.

Definition is_malloc (c : call) : bool := match c with Malloc _ => true | _ => false end.
Definition is_rand (c : call) : bool := match c with Rand => true | _ => false end.
Definition is_time (c : call) : bool := match c with Gettimeofday => true | _ => false end.
Definition is_stderr (c : call) : bool := match c with Stderr _ => true | _ => false end.
Definition is_free (c : call) : bool := match c with Free => true | _ => false end.

Section Libc.
Variable env : Env.

Definition printf (text : string) : M unit := emit (Stdout text).

Definition fprintf_stderr (text : string) : M unit := emit (Stderr text).

(** [malloc (size)]: whether the pointer returned is not NULL. *)
Definition malloc (size : Z) : M bool :=
  fun l => Done (env_malloc env (count is_malloc l) size) (l ++ [Malloc size]).

Definition free : M unit := emit Free.

Definition srand (seed : Z) : M unit := emit (Srand seed).

Definition rand : M Z :=
  fun l => Done (env_rand env (count is_rand l)) (l ++ [Rand]).

Definition gettimeofday : M (Z * Z) :=
  fun l => Done (env_gettimeofday env (count is_time l)) (l ++ [Gettimeofday]).

(** [get_time], the same in both files (dot.c lines 14-18, memcpy.c
    lines 14-18): [tv.tv_sec + tv.tv_usec * 1e-6].  The literal is the
    double nearest to 1e-6. *)
Definition get_time : M double :=
  let* tv := gettimeofday in
  ret (long_to_double tv.1 + long_to_double tv.2 * 0x1.0c6f7a0b5ed8dp-20)%float.

End Libc.

(** The value [get_time] returns at its k-th call. *)
Definition time_at (env : Env) (k : nat) : double :=
  (long_to_double (env_gettimeofday env k).1 +
   long_to_double (env_gettimeofday env k).2 * 0x1.0c6f7a0b5ed8dp-20)%float.

(** [atoll]: the C library's [strtoll (s, NULL, 10)]; [long long] is
    [long] on LP64. *)
Definition atoll (s : string) : Z := strtol10 s.

(** Conversion of a [long long] to [size_t]. *)
Definition size_t (z : Z) : Z := z mod 2 ^ 64.

(** [(double) n] for [n : size_t], rounded to nearest: above 2^63 the
    value is halved, keeping its lowest bit, converted and doubled. *)
Definition u64_to_double (n : Z) : double :=
  if n <? 2 ^ 63 then nonneg_to_double n
  else (nonneg_to_double (Z.lor (Z.shiftr n 1) (Z.land n 1)) * 2)%float.

(** Memory: the cells of an allocated block, [None] for a cell that was
    never written. *)
Definition load {A} (b : list (option A)) (i : nat) : option A := mjoin (b !! i).

Definition store {A} (b : list (option A)) (i : nat) (x : A) : option (list (option A)) :=
  if (i <? length b)%nat then Some (<[i := Some x]> b) else None.

End Bench.

(** ** dot.c *)

Module Dot.
Import Bench.
#[local] Open Scope bench_scope.

(** Lines 20-26, from index [i] with [steps] iterations to go. *)
Fixpoint dot_from (steps i : nat) (a b : list (option double)) (sum : double)
  : option double :=
  match steps with
  | O => Some sum
  | S steps' =>
      x ← load a i;
      y ← load b i;
      dot_from steps' (S i) a b (sum + x * y)%float
  end.

Definition dot_product (a b : list (option double)) (n : nat) : option double :=
  dot_from n 0 a b 0%float.

(** [RAND_MAX] of glibc. *)
Definition RAND_MAX : Z := 2147483647.

(** [(double) rand () / RAND_MAX] *)
Definition unit_random (r : Z) : double :=
  (long_to_double r / long_to_double RAND_MAX)%float.

Section Main.
Variable env : Env.

(** Lines 48-51, from index [i]. *)
Fixpoint init_from (steps i : nat) (a b : list (option double))
  : M (list (option double) * list (option double)) :=
  match steps with
  | O => ret (a, b)
  | S steps' =>
      let* r := rand env in
      let* a := lift (store a i (unit_random r)) in
      let* r := rand env in
      let* b := lift (store b i (unit_random r)) in
      init_from steps' (S i) a b
  end.

Definition usage (argv0 : string) : string :=
  "Usage: " +:+ argv0 +:+ " <vector_size>" +:+ newline.

(** Lines 28-72. *)
Definition main (argv : list string) : M Z :=
  if Z.of_nat (length argv) <? 2 then
    fprintf_stderr (usage (nth 0 argv "")) ;;;
    ret 1
  else
    let n := size_t (atoll (nth 1 argv "")) in
    printf ("Dot product benchmark: vector size = " +:+ pretty n +:+ newline) ;;;
    let* a := malloc env (size_t (n * 8)) in
    let* b := malloc env (size_t (n * 8)) in
    if negb a || negb b then
      fprintf_stderr ("Memory allocation failed" +:+ newline) ;;;
      ret 1
    else
      let a := replicate (Z.to_nat (size_t (n * 8) / 8)) None in
      let b := replicate (Z.to_nat (size_t (n * 8) / 8)) None in
      srand 42 ;;;
      let* (a, b) := init_from (Z.to_nat n) 0 a b in
      let* result := lift (dot_product a b (Z.to_nat n)) in
      let* start := get_time env in
      let* result := lift (dot_product a b (Z.to_nat n)) in
      let* end_ := get_time env in
      let elapsed := (end_ - start)%float in
      let gflops := ((2 * u64_to_double n) / (elapsed * 1000000000))%float in
      printf ("Result: " +:+ env_printf_f env 6 result +:+ newline) ;;;
      printf ("Time: " +:+ env_printf_f env 6 elapsed +:+ " seconds" +:+ newline) ;;;
      printf ("Performance: " +:+ env_printf_f env 3 gflops +:+ " GFLOP/s" +:+ newline) ;;;
      free ;;;
      free ;;;
      ret 0.

End Main.

(** The vectors the initialisation writes: element [i] of [a] comes
    from call [2 i] of [rand], element [i] of [b] from call [2 i + 1]. *)
Definition vector_a (env : Env) (n : nat) : list double :=
  (fun i => unit_random (env_rand env (2 * i))) <$> seq 0 n.

Definition vector_b (env : Env) (n : nat) : list double :=
  (fun i => unit_random (env_rand env (2 * i + 1))) <$> seq 0 n.

(** A block of [cells] cells of which the first hold [xs] and the rest
    were never written. *)
Definition written (xs : list double) (cells : nat) : list (option double) :=
  (Some <$> xs) ++ replicate (cells - length xs) None.

(** The sum of products, left to right from [sum]. *)
Fixpoint sum_products (xs ys : list double) (sum : double) : double :=
  match xs, ys with
  | x :: xs', y :: ys' => sum_products xs' ys' (sum + x * y)%float
  | _, _ => sum
  end.

End Dot.

(** ** memcpy.c *)

Module Memcpy.
Import Bench.
#[local] Open Scope bench_scope.

(** The C library's [memset (b, c, n)]: [n] bytes of value
    [(unsigned char) c], inside the block. *)
Definition memset (b : list (option Z)) (c : Z) (n : nat) : option (list (option Z)) :=
  if (n <=? length b)%nat then Some (replicate n (Some (c mod 256)) ++ drop n b) else None.

(** The C library's [memcpy (dst, src, n)]: the first [n] bytes of [src]
    over those of [dst], inside both blocks. *)
Definition memcpy (dst src : list (option Z)) (n : nat) : option (list (option Z)) :=
  if (n <=? length dst)%nat && (n <=? length src)%nat
  then Some (take n src ++ drop n dst) else None.

Section Main.
Variable env : Env.

(** Lines 57-63, from index [i] with [steps] bytes to go. *)
Fixpoint verify_from (steps i : nat) (dst src : list (option Z)) (errors : Z) : M Z :=
  match steps with
  | O => ret errors
  | S steps' =>
      if errors <? 10 then
        let* d := lift (load dst i) in
        let* s := lift (load src i) in
        if negb (d =? s) then
          fprintf_stderr ("Mismatch at byte " +:+ pretty i +:+ newline) ;;;
          verify_from steps' (S i) dst src (errors + 1)
        else verify_from steps' (S i) dst src errors
      else ret errors
  end.

Definition usage (argv0 : string) : string :=
  "Usage: " +:+ argv0 +:+ " <size_in_bytes>" +:+ newline.

(** Lines 20-72. *)
Definition main (argv : list string) : M Z :=
  if Z.of_nat (length argv) <? 2 then
    fprintf_stderr (usage (nth 0 argv "")) ;;;
    ret 1
  else
    let size := size_t (atoll (nth 1 argv "")) in
    printf ("Memcpy benchmark: size = " +:+ pretty size +:+ " bytes (" +:+
            env_printf_f env 2 (u64_to_double size / 1048576)%float +:+ " MB)" +:+ newline) ;;;
    let* src := malloc env size in
    let* dst := malloc env size in
    if negb src || negb dst then
      fprintf_stderr ("Memory allocation failed" +:+ newline) ;;;
      ret 1
    else
      let src := replicate (Z.to_nat size) None in
      let dst := replicate (Z.to_nat size) None in
      let* src := lift (memset src 171 (Z.to_nat size)) in
      let* dst := lift (memcpy dst src (Z.to_nat size)) in
      let* start := get_time env in
      let* dst := lift (memcpy dst src (Z.to_nat size)) in
      let* end_ := get_time env in
      let elapsed := (end_ - start)%float in
      let bandwidth_gbps := ((u64_to_double size / 1073741824) / elapsed)%float in
      printf ("Time: " +:+ env_printf_f env 6 elapsed +:+ " seconds" +:+ newline) ;;;
      printf ("Bandwidth: " +:+ env_printf_f env 3 bandwidth_gbps +:+ " GB/s" +:+ newline) ;;;
      let* errors := verify_from (Z.to_nat size) 0 dst src 0 in
      (if errors =? 0 then printf ("Verification: PASSED" +:+ newline) else ret tt) ;;;
      free ;;;
      free ;;;
      ret 0.

End Main.

(** How many positions of two byte sequences differ. *)
Fixpoint mismatches (ds ss : list Z) : Z :=
  match ds, ss with
  | d :: ds', s :: ss' => (if d =? s then 0 else 1) + mismatches ds' ss'
  | _, _ => 0
  end.

End Memcpy.

(** ** A C library for the examples *)

Module Libc.

(** Every allocation succeeds; [rand] counts 0, 1073741823, 2147483646
    and round again; the clock advances a quarter of a second a call. *)
Definition env : Bench.Env :=
  {| Bench.env_malloc := fun _ _ => true;
     Bench.env_rand := fun k => 1073741823 * (Z.of_nat k mod 3);
     Bench.env_gettimeofday := fun k => (1700000000, 250000 * Z.of_nat k);
     Bench.env_printf_f := Sample.fixed_text |}.

(** No memory is to be had. *)
Definition out_of_memory : Bench.Env :=
  {| Bench.env_malloc := fun k _ => (k =? 0)%nat;
     Bench.env_rand := Bench.env_rand env;
     Bench.env_gettimeofday := Bench.env_gettimeofday env;
     Bench.env_printf_f := Bench.env_printf_f env |}.

End Libc.

(** * Properties *)

(** ** The log and the monad *)

Lemma calls_app p l1 l2 : calls p (l1 ++ l2) = (calls p l1 + calls p l2)%nat.
Proof.
  induction l1 as [|e l1 IH]; simpl; [done|].
  destruct (p e); rewrite IH; done.
Qed.

Lemma write_over_empty text : write_over text "" = text.
Proof. induction text as [|c text IH]; cbn; [done|by rewrite IH]. Qed.

Lemma write_over_length text old :
  String.length (write_over text old) = (String.length text `max` String.length old)%nat.
Proof.
  revert old. induction text as [|c text IH]; intros old; cbn; [done|].
  rewrite IH. destruct old; cbn; lia.
Qed.

Lemma bind_done {A B} (m : M A) (k : A -> M B) w a w' :
  m w = Done a w' -> bind m k w = k a w'.
Proof. unfold bind. intros ->. reflexivity. Qed.

Lemma nvml_query_spec env m w :
  nvml_query env m w =
  Done ((answer env w m 0).1, u32 (answer env w m 0).2)
       {| trace := trace w ++ [NvmlQuery m]; fs := fs w |}.
Proof.
  unfold nvml_query, answer, bind, count, emit, ret. rewrite Nat.add_0_r.
  destruct (env_nvml_query env m _); reflexivity.
Qed.

Lemma waitpid_nohang_spec env pid status w :
  waitpid_nohang env pid status w =
  Done ((env_waitpid_nohang env (calls is_poll (trace w))).1,
        default status (env_waitpid_nohang env (calls is_poll (trace w))).2)
       {| trace := trace w ++ [Waitpid pid true]; fs := fs w |}.
Proof.
  unfold waitpid_nohang, bind, count, emit, ret.
  destruct (env_waitpid_nohang env _); reflexivity.
Qed.

Lemma answer_after env w l m i :
  answer env {| trace := trace w ++ l; fs := fs w |} m i =
  answer env w m (calls (is_query m) l + i).
Proof. unfold answer. cbn [trace]. rewrite calls_app. f_equal. lia. Qed.

Ltac run_with lem := erewrite bind_done by (apply lem); cbn beta iota.

Lemma take_sample_spec env w :
  take_sample env w =
  Done (sample_at env w 0)
       {| trace := trace w ++ [NvmlQuery Power; NvmlQuery CoreClock; NvmlQuery MemClock;
                               NvmlQuery Utilization; NvmlQuery Temperature];
          fs := fs w |}.
Proof.
  unfold take_sample.
  do 5 run_with nvml_query_spec.
  unfold ret, sample_at, absorbed. cbn [trace fs].
  rewrite <- !app_assoc. cbn [app].
  rewrite !answer_after. reflexivity.
Qed.

Lemma sample_at_shift env w l c i :
  (forall m, calls (is_query m) l = c) ->
  sample_at env {| trace := trace w ++ l; fs := fs w |} i = sample_at env w (c + i).
Proof. intros H. unfold sample_at. rewrite !answer_after, !H. reflexivity. Qed.

Lemma sample_at_after env w pid ms i :
  sample_at env {| trace := trace w ++ iteration pid ++ [SleepFor ms]; fs := fs w |} i =
  sample_at env w (S i).
Proof. apply (sample_at_shift env w _ 1%nat). intros []; reflexivity. Qed.

Lemma sample_at_polled env w pid i :
  sample_at env {| trace := trace w ++ [Waitpid pid true]; fs := fs w |} i =
  sample_at env w i.
Proof. apply (sample_at_shift env w _ 0%nat). intros []; reflexivity. Qed.

Lemma pushed_after env w pid ms count : forall from v,
  pushed env {| trace := trace w ++ iteration pid ++ [SleepFor ms]; fs := fs w |} from count v =
  pushed env w (S from) count v.
Proof.
  induction count as [|c IH]; intros from v; cbn [pushed]; [done|].
  rewrite sample_at_after. apply IH.
Qed.

Lemma polls_after w pid ms :
  calls is_poll (trace w ++ iteration pid ++ [SleepFor ms]) = S (calls is_poll (trace w)).
Proof. rewrite calls_app. simpl. lia. Qed.

Lemma status_after_after env w pid ms k : forall from status,
  status_after env {| trace := trace w ++ iteration pid ++ [SleepFor ms]; fs := fs w |} from k status =
  status_after env w (S from) k status.
Proof.
  induction k as [|k IH]; intros from status; cbn [status_after trace];
    rewrite polls_after, <- Nat.add_succ_comm; [done|]. apply IH.
Qed.

Lemma reaped_at_after env w pid ms k :
  reaped_at env w pid (S k) ->
  reaped_at env {| trace := trace w ++ iteration pid ++ [SleepFor ms]; fs := fs w |} pid k.
Proof.
  intros [Halive Hreap]. unfold reaped_at. cbn [trace]. rewrite polls_after. split.
  - intros i Hi. replace (S (calls is_poll (trace w)) + i)%nat
      with (calls is_poll (trace w) + S i)%nat by lia. apply Halive. lia.
  - replace (S (calls is_poll (trace w)) + k)%nat
      with (calls is_poll (trace w) + S k)%nat by lia. exact Hreap.
Qed.

(** The loop, when the child is reaped at the poll of iteration [k]. *)
Lemma sampling_loop_run env pid ms k : forall fuel status v w,
  reaped_at env w pid k -> (k < fuel)%nat ->
  sampling_loop env fuel pid ms status v w =
  Done (status_after env w 0 k status, pushed env w 0 (S k) v)
       {| trace := trace w ++ iterations pid ms k; fs := fs w |}.
Proof.
  induction k as [|k IH]; intros fuel status v w Hreap Hfuel;
    (destruct fuel as [|fuel]; [lia|]); cbn [sampling_loop].
  - run_with waitpid_nohang_spec. run_with take_sample_spec.
    destruct Hreap as [_ Hreap]. rewrite Nat.add_0_r in Hreap.
    rewrite Hreap, Z.eqb_refl. unfold ret.
    cbn [trace fs status_after pushed iterations iteration].
    rewrite sample_at_polled, <- app_assoc, Nat.add_0_r. reflexivity.
  - run_with waitpid_nohang_spec. run_with take_sample_spec.
    assert (Halive : (env_waitpid_nohang env (calls is_poll (trace w))).1 <> pid).
    { destruct Hreap as [Halive _]. specialize (Halive O). rewrite Nat.add_0_r in Halive.
      apply Halive. lia. }
    apply Z.eqb_neq in Halive. rewrite Halive.
    unfold sleep_for. erewrite bind_done by reflexivity.
    cbn [trace fs]. rewrite <- !app_assoc. cbn [app].
    change (trace w ++ Waitpid pid true :: NvmlQuery Power :: NvmlQuery CoreClock ::
              NvmlQuery MemClock :: NvmlQuery Utilization :: NvmlQuery Temperature ::
              [SleepFor ms])
      with (trace w ++ iteration pid ++ [SleepFor ms]).
    rewrite IH by (auto using reaped_at_after with lia).
    cbn [trace fs]. rewrite pushed_after, status_after_after.
    cbn [status_after pushed iterations]. rewrite sample_at_polled, Nat.add_0_r, <- !app_assoc.
    reflexivity.
Qed.

Lemma sampling_loop_inv env pid ms : forall fuel status v w r w',
  sampling_loop env fuel pid ms status v w = Done r w' ->
  exists k, (k < fuel)%nat /\ reaped_at env w pid k.
Proof.
  induction fuel as [|fuel IH]; intros status v w r w' H; [discriminate|].
  cbn [sampling_loop] in H. revert H.
  run_with waitpid_nohang_spec. run_with take_sample_spec.
  destruct (_ =? pid) eqn:E.
  - intros _. exists O. split; [lia|]. split; [intros; lia|].
    rewrite Nat.add_0_r. by apply Z.eqb_eq.
  - unfold sleep_for. erewrite bind_done by reflexivity. cbn [trace fs].
    rewrite <- !app_assoc. cbn [app].
    change (trace w ++ Waitpid pid true :: NvmlQuery Power :: NvmlQuery CoreClock ::
              NvmlQuery MemClock :: NvmlQuery Utilization :: NvmlQuery Temperature ::
              [SleepFor ms])
      with (trace w ++ iteration pid ++ [SleepFor ms]).
    intros H. apply IH in H as (k & Hk & Halive & Hreap). cbn [trace] in *.
    rewrite polls_after in *.
    exists (S k). split; [lia|]. split.
    + intros [|i] Hi.
      * rewrite Nat.add_0_r. by apply Z.eqb_neq.
      * replace (calls is_poll (trace w) + S i)%nat
          with (S (calls is_poll (trace w)) + i)%nat by lia. apply Halive. lia.
    + replace (calls is_poll (trace w) + S k)%nat
        with (S (calls is_poll (trace w)) + k)%nat by lia. exact Hreap.
Qed.

(** ** Aggregation *)

Lemma fold_left_drop {A B} (f : A -> B -> A) (l : list B) i x a :
  l !! i = Some x -> fold_left f (drop i l) a = fold_left f (drop (S i) l) (f a x).
Proof. intros H. by rewrite (drop_S l x i H). Qed.

Lemma sum_from_aligned v : forall steps i s,
  aligned v -> (i + steps = length (powers v))%nat ->
  sum_from steps i v s =
  Some {| sum_p := fold_left (fun a x => (a + x)%float) (drop i (powers v)) (sum_p s);
          sum_core := fold_left (fun a x => long (a + x)) (drop i (core_clocks v)) (sum_core s);
          sum_mem := fold_left (fun a x => long (a + x)) (drop i (mem_clocks v)) (sum_mem s);
          sum_util := fold_left (fun a x => long (a + x)) (drop i (utils v)) (sum_util s);
          sum_temp := fold_left (fun a x => long (a + x)) (drop i (temps v)) (sum_temp s) |}.
Proof.
  induction steps as [|steps IH]; intros i s Hal Hlen.
  - destruct Hal as (Hc & Hm & Hu & Ht). cbn [sum_from].
    rewrite !drop_ge by lia. by destruct s.
  - pose proof Hal as (Hc & Hm & Hu & Ht). cbn [sum_from].
    destruct (lookup_lt_is_Some_2 (powers v) i) as [p Hp]; [lia|].
    destruct (lookup_lt_is_Some_2 (core_clocks v) i) as [c Hcc]; [lia|].
    destruct (lookup_lt_is_Some_2 (mem_clocks v) i) as [m Hmm]; [lia|].
    destruct (lookup_lt_is_Some_2 (utils v) i) as [u Huu]; [lia|].
    destruct (lookup_lt_is_Some_2 (temps v) i) as [t Htt]; [lia|].
    rewrite Hp, Hcc, Hmm, Huu, Htt. cbn [mbind option_bind].
    rewrite IH by (auto; lia). cbn [sum_p sum_core sum_mem sum_util sum_temp].
    by rewrite (fold_left_drop _ _ _ _ _ Hp), (fold_left_drop _ _ _ _ _ Hcc),
      (fold_left_drop _ _ _ _ _ Hmm), (fold_left_drop _ _ _ _ _ Huu),
      (fold_left_drop _ _ _ _ _ Htt).
Qed.

(** What [aggregate] yields on vectors of one length. *)
Lemma aggregate_aligned v d :
  aligned v ->
  aggregate v d =
  Some (let n := length (powers v) in
        let avg_p := if (0 <? n)%nat then (total_power (powers v) / size_to_double n)%float
                     else 0%float in
        {| avg_p := avg_p;
           avg_core := if (0 <? n)%nat then mean_of (core_clocks v) else 0%float;
           avg_mem := if (0 <? n)%nat then mean_of (mem_clocks v) else 0%float;
           avg_util := if (0 <? n)%nat then mean_of (utils v) else 0%float;
           avg_temp := if (0 <? n)%nat then mean_of (temps v) else 0%float;
           n := n;
           duration_s := d;
           energy_j := (avg_p * d)%float |}).
Proof.
  intros Hal. unfold aggregate.
  rewrite (sum_from_aligned v _ 0%nat zero_sums Hal) by lia.
  destruct Hal as (Hc & Hm & Hu & Ht).
  cbn [mbind option_bind sum_p sum_core sum_mem sum_util sum_temp zero_sums].
  rewrite !drop_0. unfold mean_of, total_power, long_sum.
  by rewrite Hc, Hm, Hu, Ht.
Qed.

Lemma push_back_aligned v s : aligned v -> aligned (push_back v s).
Proof.
  intros (Hc & Hm & Hu & Ht). unfold aligned, push_back; cbn.
  rewrite !length_app; cbn. lia.
Qed.

Lemma push_back_length v s : length (powers (push_back v s)) = S (length (powers v)).
Proof. unfold push_back; cbn. rewrite length_app; cbn. lia. Qed.

Lemma pushed_aligned env w count : forall from v,
  aligned v -> aligned (pushed env w from count v).
Proof.
  induction count as [|c IH]; intros from v Hal; cbn [pushed]; [done|].
  apply IH, push_back_aligned, Hal.
Qed.

Lemma pushed_content env w count : forall from v,
  powers (pushed env w from count v) =
    powers v ++
    ((fun i => if (answer env w Power i).1 =? NVML_SUCCESS
               then (u32_to_double (u32 (answer env w Power i).2) / 1000)%float
               else 0%float) <$> seq from count) /\
  core_clocks (pushed env w from count v) =
    core_clocks v ++
    ((fun i => if (answer env w CoreClock i).1 =? NVML_SUCCESS
               then u32 (answer env w CoreClock i).2 else 0) <$> seq from count) /\
  mem_clocks (pushed env w from count v) =
    mem_clocks v ++
    ((fun i => if (answer env w MemClock i).1 =? NVML_SUCCESS
               then u32 (answer env w MemClock i).2 else 0) <$> seq from count) /\
  utils (pushed env w from count v) =
    utils v ++
    ((fun i => if (answer env w Utilization i).1 =? NVML_SUCCESS
               then u32 (answer env w Utilization i).2 else 0) <$> seq from count) /\
  temps (pushed env w from count v) =
    temps v ++
    ((fun i => if (answer env w Temperature i).1 =? NVML_SUCCESS
               then u32 (answer env w Temperature i).2 else 0) <$> seq from count).
Proof.
  induction count as [|c IH]; intros from v; cbn [pushed seq fmap list_fmap].
  - by rewrite !app_nil_r.
  - destruct (IH (S from) (push_back v (sample_at env w from))) as (-> & -> & -> & -> & ->).
    cbn [push_back sample_at powers core_clocks mem_clocks utils temps
         power_w core_mhz_val mem_mhz_val gpu_util tval].
    unfold absorbed. by rewrite <- !app_assoc.
Qed.

Lemma pushed_length env w count : forall from v,
  length (powers (pushed env w from count v)) = (length (powers v) + count)%nat.
Proof.
  induction count as [|c IH]; intros from v; cbn [pushed]; [lia|].
  rewrite IH, push_back_length. lia.
Qed.

Lemma empty_series_aligned : aligned empty_series.
Proof. by repeat split. Qed.

(** ** The whole run *)

Lemma status_after_stored env w k st : forall from status,
  (env_waitpid_nohang env (calls is_poll (trace w) + (from + k))).2 = Some st ->
  status_after env w from k status = st.
Proof.
  induction k as [|k IH]; intros from status H; cbn [status_after].
  - rewrite Nat.add_0_r in H. by rewrite H.
  - apply IH. by rewrite <- Nat.add_succ_comm in H.
Qed.

Lemma sample_at_base env w w' i :
  (forall m, calls (is_query m) (trace w) = calls (is_query m) (trace w')) ->
  sample_at env w i = sample_at env w' i.
Proof. intros H. unfold sample_at, answer. by rewrite !H. Qed.

Lemma pushed_base env w w' count : forall from v,
  (forall m, calls (is_query m) (trace w) = calls (is_query m) (trace w')) ->
  pushed env w from count v = pushed env w' from count v.
Proof.
  induction count as [|c IH]; intros from v H; cbn [pushed]; [done|].
  rewrite (sample_at_base env w w' from H). by apply IH.
Qed.

Lemma iterations_no_clock pid ms k : calls is_steady (iterations pid ms k) = 0%nat.
Proof.
  induction k as [|k IH]; [done|].
  cbn [iterations]. rewrite calls_app. cbn [calls is_steady iteration Nat.add]. exact IH.
Qed.

Lemma run_series_aligned env k : aligned (run_series env k).
Proof. apply pushed_aligned, empty_series_aligned. Qed.

Lemma run_series_length env k : length (powers (run_series env k)) = S k.
Proof. unfold run_series. by rewrite pushed_length. Qed.

(** The summary of a sampling run. *)
Lemma run_summary env k d r :
  aggregate (run_series env k) d = Some r ->
  n r = S k /\
  avg_p r = (total_power (powers (run_series env k)) / size_to_double (S k))%float /\
  duration_s r = d /\
  energy_j r = (avg_p r * duration_s r)%float.
Proof.
  rewrite aggregate_aligned by apply run_series_aligned.
  intros [= <-]. cbv zeta. cbn [n avg_p duration_s energy_j].
  by rewrite run_series_length.
Qed.

Lemma main_sampling_run env argv k st fuel files :
  SamplingRun env argv k st -> (k < fuel)%nat ->
  exists r,
    aggregate (run_series env k) (run_duration env) = Some r /\
    main env fuel argv (initial_world files) =
    let out_file := nth 2 argv "" in
    let body := prologue ++ iterations (env_fork env) (atoi (nth 1 argv "")) k in
    if env_open_ok env out_file then
      Done (Return (exit_status st))
           {| trace := body ++ epilogue out_file;
              fs := <[out_file := os_text (report_stream env (env_timestamp env) r)]> files |}
    else
      Done (Return 6)
           {| trace := body ++
                       [SteadyNow; OpenTrunc out_file;
                        Cerr ("Failed to open output file: " +:+ out_file +:+ newline);
                        NvmlShutdown];
              fs := files |}.
Proof.
  intros [Hargc [Hf1 Hf0] Hinit Hdev Halive Hreap] Hfuel.
  destruct (aggregate (run_series env k) (run_duration env)) as [r|] eqn:Hagg;
    [|by rewrite aggregate_aligned in Hagg by apply run_series_aligned].
  exists r. split; [done|].
  unfold main.
  replace (Z.of_nat (length argv) <? 4) with false by (symmetry; apply Z.ltb_ge; lia).
  erewrite bind_done by reflexivity.
  apply Z.eqb_neq in Hf1, Hf0. rewrite Hf1, Hf0.
  erewrite bind_done by reflexivity. rewrite Hinit. cbn [negb Z.eqb NVML_SUCCESS].
  erewrite bind_done by reflexivity. rewrite Hdev. cbn [negb Z.eqb NVML_SUCCESS].
  unfold monitor.
  erewrite bind_done by reflexivity. cbn [initial_world trace fs app calls is_steady].
  set (w0 := {| trace := [Fork; NvmlInit; NvmlDeviceGetHandleByIndex 0; SteadyNow]; fs := files |}).
  erewrite bind_done; cycle 1.
  { apply (sampling_loop_run env (env_fork env) _ k); [|done].
    split; cbn; [done|]. by rewrite Hreap. }
  cbn beta iota.
  rewrite (status_after_stored env w0 k st) by (cbn; by rewrite Hreap).
  rewrite (pushed_base env w0 (initial_world ∅)) by done.
  fold (run_series env k).
  erewrite bind_done; cycle 1.
  { unfold steady_clock_now, count. erewrite bind_done by reflexivity.
    erewrite bind_done by reflexivity. reflexivity. }
  cbn [trace fs w0]. rewrite calls_app, iterations_no_clock. cbn [calls is_steady Nat.add].
  fold (run_duration env). rewrite Hagg. cbn [lift_option].
  erewrite bind_done by reflexivity.
  unfold open_trunc. cbv zeta.
  destruct (env_open_ok env (nth 2 argv "")).
  - erewrite bind_done by reflexivity. change (negb true) with false. cbv iota.
    unfold local_timestamp, close, nvmlShutdown.
    repeat (erewrite bind_done by reflexivity). unfold ret, emit, epilogue, prologue.
    cbn [trace fs]. rewrite lookup_insert_eq. cbn [from_option id].
    rewrite write_over_empty, insert_insert_eq, <- !app_assoc. reflexivity.
  - erewrite bind_done by reflexivity. change (negb false) with true. cbv iota.
    unfold cerr, nvmlShutdown.
    repeat (erewrite bind_done by reflexivity). unfold ret, emit, prologue.
    cbn [trace fs]. rewrite <- !app_assoc. reflexivity.
Qed.

(** ** The paths of [main] that take no sample *)

Lemma main_usage env argv fuel w :
  (length argv < 4)%nat ->
  main env fuel argv w =
  Done (Return 2) {| trace := trace w ++ [Cerr (usage (nth 0 argv ""))]; fs := fs w |}.
Proof.
  intros H. unfold main.
  replace (Z.of_nat (length argv) <? 4) with true by (symmetry; apply Z.ltb_lt; lia).
  reflexivity.
Qed.

Lemma main_fork_failed env argv fuel w :
  (4 <= length argv)%nat -> env_fork env = -1 ->
  main env fuel argv w =
  Done (Return 3) {| trace := trace w ++ [Fork; Perror "fork"]; fs := fs w |}.
Proof.
  intros H Hpid. unfold main.
  replace (Z.of_nat (length argv) <? 4) with false by (symmetry; apply Z.ltb_ge; lia).
  erewrite bind_done by reflexivity. rewrite Hpid. cbn [Z.eqb Pos.eqb].
  unfold perror, ret, emit, bind. cbn [trace fs]. by rewrite <- app_assoc.
Qed.

Lemma main_child env argv fuel w :
  (4 <= length argv)%nat -> env_fork env = 0 ->
  main env fuel argv w =
  if env_execvp_ok env (drop 3 argv)
  then Done (Exec (drop 3 argv))
            {| trace := trace w ++ [Fork; Execvp (drop 3 argv)]; fs := fs w |}
  else Done (Exit 127)
            {| trace := trace w ++ [Fork; Execvp (drop 3 argv); Perror "execvp"];
               fs := fs w |}.
Proof.
  intros H Hpid. unfold main.
  replace (Z.of_nat (length argv) <? 4) with false by (symmetry; apply Z.ltb_ge; lia).
  erewrite bind_done by reflexivity. rewrite Hpid. cbn [Z.eqb].
  erewrite bind_done by reflexivity.
  destruct (env_execvp_ok env (drop 3 argv));
    unfold perror, ret, emit, bind; cbn [trace fs]; by rewrite <- !app_assoc.
Qed.

Lemma main_no_nvml env argv fuel w :
  (4 <= length argv)%nat -> env_fork env <> -1 -> env_fork env <> 0 ->
  env_nvmlInit env <> NVML_SUCCESS ->
  main env fuel argv w =
  Done (Return 4)
       {| trace := trace w ++
            [Fork; NvmlInit;
             Cerr ("NVML init failed: " +:+ env_nvmlErrorString env (env_nvmlInit env) +:+ newline);
             Waitpid (env_fork env) false];
          fs := fs w |}.
Proof.
  intros H Hf1 Hf0 Hinit. unfold main.
  replace (Z.of_nat (length argv) <? 4) with false by (symmetry; apply Z.ltb_ge; lia).
  erewrite bind_done by reflexivity.
  apply Z.eqb_neq in Hf1, Hf0, Hinit. rewrite Hf1, Hf0.
  erewrite bind_done by reflexivity. rewrite Hinit. cbn [negb].
  unfold cerr, waitpid_blocking.
  destruct (env_waitpid_blocking env) as [r stored].
  unfold ret, emit, bind. cbn [trace fs]. by rewrite <- !app_assoc.
Qed.

Lemma main_no_device env argv fuel w :
  (4 <= length argv)%nat -> env_fork env <> -1 -> env_fork env <> 0 ->
  env_nvmlInit env = NVML_SUCCESS ->
  env_nvmlDeviceGetHandleByIndex env <> NVML_SUCCESS ->
  main env fuel argv w =
  Done (Return 5)
       {| trace := trace w ++
            [Fork; NvmlInit; NvmlDeviceGetHandleByIndex 0;
             Cerr ("NVML get device failed: " +:+
                   env_nvmlErrorString env (env_nvmlDeviceGetHandleByIndex env) +:+ newline);
             NvmlShutdown;
             Waitpid (env_fork env) false];
          fs := fs w |}.
Proof.
  intros H Hf1 Hf0 Hinit Hdev. unfold main.
  replace (Z.of_nat (length argv) <? 4) with false by (symmetry; apply Z.ltb_ge; lia).
  erewrite bind_done by reflexivity.
  apply Z.eqb_neq in Hf1, Hf0, Hdev. rewrite Hf1, Hf0.
  erewrite bind_done by reflexivity. rewrite Hinit. cbn [negb Z.eqb NVML_SUCCESS].
  erewrite bind_done by reflexivity. rewrite Hdev. cbn [negb].
  unfold cerr, nvmlShutdown, waitpid_blocking.
  destruct (env_waitpid_blocking env) as [r stored].
  unfold ret, emit, bind. cbn [trace fs]. by rewrite <- !app_assoc.
Qed.

(** ** The text of the report *)

Lemma append_assoc (a b c : string) : (a +:+ b) +:+ c = a +:+ (b +:+ c).
Proof.
  induction a as [|x a IH]; [done|].
  change (String x ((a +:+ b) +:+ c) = String x (a +:+ (b +:+ c))).
  by rewrite IH.
Qed.

Lemma text_put_string s os : os_text (put_string s os) = os_text os +:+ s.
Proof. done. Qed.

Lemma fixed_put_string s os : os_fixed (put_string s os) = os_fixed os.
Proof. done. Qed.

Lemma precision_put_string s os : os_precision (put_string s os) = os_precision os.
Proof. done. Qed.

Lemma text_put_double env x os :
  os_text (put_double env x os) =
  os_text os +:+ env_put_double env (os_fixed os) (os_precision os) x.
Proof. done. Qed.

Lemma fixed_put_double env x os : os_fixed (put_double env x os) = os_fixed os.
Proof. done. Qed.

Lemma precision_put_double env x os : os_precision (put_double env x os) = os_precision os.
Proof. done. Qed.

Lemma text_put_size k os : os_text (put_size k os) = os_text os +:+ pretty k.
Proof. done. Qed.

Lemma fixed_put_size k os : os_fixed (put_size k os) = os_fixed os.
Proof. done. Qed.

Lemma precision_put_size k os : os_precision (put_size k os) = os_precision os.
Proof. done. Qed.

Lemma text_manipulators p os : os_text (setprecision p (set_fixed os)) = os_text os.
Proof. done. Qed.

Lemma fixed_manipulators p os : os_fixed (setprecision p (set_fixed os)) = true.
Proof. done. Qed.

Lemma precision_manipulators p os : os_precision (setprecision p (set_fixed os)) = p.
Proof. done. Qed.

Ltac stream_state :=
  repeat first
    [ rewrite text_put_string | rewrite fixed_put_string | rewrite precision_put_string
    | rewrite text_put_double | rewrite fixed_put_double | rewrite precision_put_double
    | rewrite text_put_size | rewrite fixed_put_size | rewrite precision_put_size
    | rewrite text_manipulators | rewrite fixed_manipulators
    | rewrite precision_manipulators ].

Lemma report_text env timestamp r :
  os_text (report_stream env timestamp r) =
  key_value_lines
    [("timestamp", timestamp);
     ("power_avg_w", env_put_double env true 3 (avg_p r));
     ("gpu_core_clock_MHz", env_put_double env true 3 (avg_core r));
     ("gpu_mem_clock_MHz", env_put_double env true 3 (avg_mem r));
     ("gpu_utilization_pct", env_put_double env true 3 (avg_util r));
     ("gpu_temp_c", env_put_double env true 3 (avg_temp r));
     ("samples", pretty (n r));
     ("duration_s", env_put_double env true 3 (duration_s r));
     ("energy_j", env_put_double env true 3 (energy_j r))].
Proof.
  unfold report_stream. cbv zeta.
  stream_state. cbn [os_text os_fixed os_precision fresh_stream key_value_lines].
  rewrite !append_assoc. reflexivity.
Qed.

(** ** Reading the report back *)

Lemma append_nil_r (a : string) : a +:+ "" = a.
Proof.
  induction a as [|x a IH]; [done|].
  change (String x (a +:+ "") = String x a). by rewrite IH.
Qed.

Lemma free_of_app c (a b : string) : free_of c (a +:+ b) = free_of c a && free_of c b.
Proof.
  induction a as [|x a IH]; [done|].
  change (negb (Ascii.eqb x c) && free_of c (a +:+ b) =
          negb (Ascii.eqb x c) && free_of c a && free_of c b).
  by rewrite IH, andb_assoc.
Qed.

Lemma lines_from_line (a : string) : forall cur r,
  free_of (ascii_of_nat 10) a = true ->
  lines_from cur (a +:+ String (ascii_of_nat 10) r) = (cur +:+ a) :: lines_from "" r.
Proof.
  induction a as [|x a IH]; intros cur r Hfree.
  - change (lines_from cur (String (ascii_of_nat 10) r) = (cur +:+ "") :: lines_from "" r).
    cbn [lines_from]. by rewrite Ascii.eqb_refl, append_nil_r.
  - cbn [free_of] in Hfree. apply andb_true_iff in Hfree as [Hx Hfree].
    apply negb_true_iff in Hx.
    change (lines_from cur (String x (a +:+ String (ascii_of_nat 10) r)) =
            (cur +:+ String x a) :: lines_from "" r).
    cbn [lines_from]. rewrite Hx, IH by done.
    by rewrite append_assoc.
Qed.

Lemma key_from_key (k : string) : forall cur r,
  free_of "=" k = true -> key_from cur (k +:+ String "=" r) = cur +:+ k.
Proof.
  induction k as [|x k IH]; intros cur r Hfree.
  - change (key_from cur (String "=" r) = cur +:+ "").
    cbn [key_from]. by rewrite Ascii.eqb_refl, append_nil_r.
  - cbn [free_of] in Hfree. apply andb_true_iff in Hfree as [Hx Hfree].
    apply negb_true_iff in Hx.
    change (key_from cur (String x (k +:+ String "=" r)) = cur +:+ String x k).
    cbn [key_from]. rewrite Hx, IH by done.
    by rewrite append_assoc.
Qed.

(** A text of [key=value] lines reads back as its keys, when no key
    holds a newline or an '=' and no value a newline. *)
Lemma keys_of_key_value_lines (kvs : list (string * string)) :
  Forall (fun kv => free_of (ascii_of_nat 10) kv.1 = true /\
                    free_of "=" kv.1 = true /\
                    free_of (ascii_of_nat 10) kv.2 = true) kvs ->
  keys_of (key_value_lines kvs) = kvs.*1.
Proof.
  unfold keys_of. induction 1 as [|[k v] kvs (Hk & Hk' & Hv) _ IH]; [done|].
  cbn [key_value_lines fst snd] in *.
  change (newline +:+ key_value_lines kvs)
    with (String (ascii_of_nat 10) (key_value_lines kvs)).
  rewrite <- (append_assoc "=" v), <- (append_assoc k).
  rewrite lines_from_line by (by rewrite !free_of_app, Hk, Hv).
  rewrite !fmap_cons, IH. cbn [fst]. f_equal.
  change ("" +:+ k +:+ "=" +:+ v) with (k +:+ String "=" v).
  by rewrite key_from_key.
Qed.

Lemma pretty_N_go_free c (x : N) : forall s,
  (forall d, (d < 10)%N -> Ascii.eqb (pretty_N_char d) c = false) ->
  free_of c s = true -> free_of c (pretty_N_go x s) = true.
Proof.
  intros s Hc. revert s. induction (N.lt_wf_0 x) as [x _ IH]; intros s Hs.
  destruct (decide (x = 0)%N) as [->|Hx]; [by rewrite pretty_N_go_0|].
  rewrite pretty_N_go_step by lia. apply IH.
  - apply N.div_lt; lia.
  - cbn [free_of]. rewrite Hc, Hs; [done|]. apply N.mod_lt. lia.
Qed.

Lemma pretty_N_free_of_newline (x : N) : free_of (ascii_of_nat 10) (pretty x) = true.
Proof.
  unfold pretty, pretty_N.
  destruct (decide _); [done|]. apply pretty_N_go_free; [|done].
  intros d Hd.
  assert (d = 0 \/ d = 1 \/ d = 2 \/ d = 3 \/ d = 4 \/ d = 5 \/ d = 6 \/
          d = 7 \/ d = 8 \/ d = 9)%N as H by lia.
  by repeat (destruct H as [->|H]; [done|]); subst.
Qed.

Lemma pretty_nat_free_of_newline (k : nat) : free_of (ascii_of_nat 10) (pretty k) = true.
Proof. exact (pretty_N_free_of_newline (N.of_nat k)). Qed.

Lemma pretty_Z_free_of_newline (z : Z) : free_of (ascii_of_nat 10) (pretty z) = true.
Proof.
  destruct z as [|p|p].
  - done.
  - apply (pretty_N_free_of_newline (N.pos p)).
  - change (pretty (Z.neg p)) with ("-" +:+ pretty (N.pos p)).
    rewrite free_of_app. by rewrite pretty_N_free_of_newline.
Qed.

Lemma free_of_substring c s : forall n m,
  free_of c s = true -> free_of c (String.substring n m s) = true.
Proof.
  induction s as [|d s IH]; intros n m Hs.
  - by destruct n, m.
  - cbn [free_of] in Hs. apply andb_true_iff in Hs as [Hd Hs].
    destruct n as [|n]; destruct m as [|m]; cbn [String.substring free_of]; auto.
    by rewrite Hd, IH.
Qed.

(** The renderer of the sample environments puts no newline into a
    number. *)
Lemma fixed_text_free_of_newline prec x :
  free_of (ascii_of_nat 10) (Sample.fixed_text prec x) = true.
Proof.
  assert (Htext : forall q : Z,
    free_of (ascii_of_nat 10)
      (pretty (q / 10 ^ Z.of_nat prec) +:+
       (if prec is O then ""
        else "." +:+ String.substring 1 prec
                       (pretty (10 ^ Z.of_nat prec + q mod 10 ^ Z.of_nat prec)))) = true).
  { intros q. rewrite free_of_app, pretty_Z_free_of_newline.
    destruct prec; [done|].
    rewrite free_of_app, free_of_substring by apply pretty_Z_free_of_newline. done. }
  unfold Sample.fixed_text. cbv zeta.
  destruct (Prim2SF x) as [sg|sg| |sg m e].
  - rewrite free_of_app, Htext. by destruct sg.
  - by destruct sg.
  - done.
  - rewrite free_of_app, Htext. by destruct sg.
Qed.

Lemma put_double_free_of_newline fixed prec x :
  free_of (ascii_of_nat 10) (Sample.put_double fixed prec x) = true.
Proof.
  unfold Sample.put_double. destruct fixed; [apply fixed_text_free_of_newline | done].
Qed.

Lemma string_length_app (a b : string) :
  String.length (a +:+ b) = (String.length a + String.length b)%nat.
Proof.
  induction a as [|x a IH]; [done|].
  change (String x a +:+ b) with (String x (a +:+ b)).
  cbn [String.length Nat.add]. by rewrite IH.
Qed.

Lemma not_appended (old text : string) :
  old <> "" -> Some text <> Some (old +:+ text).
Proof.
  intros Hold [= Heq]. apply (f_equal String.length) in Heq.
  rewrite string_length_app in Heq. destruct old; [done|].
  cbn [String.length] in Heq. lia.
Qed.

Lemma not_written_over (text old : string) :
  (String.length text < String.length old)%nat ->
  Some text <> Some (write_over text old).
Proof.
  intros Hlen [= Heq]. apply (f_equal String.length) in Heq.
  rewrite write_over_length in Heq. lia.
Qed.

Lemma open_trunc_spec env path w0 :
  env_open_ok env path = true ->
  open_trunc env path w0 =
  Done true {| trace := trace w0 ++ [OpenTrunc path]; fs := <[path := ""]> (fs w0) |}.
Proof. intros Hopen. unfold open_trunc. rewrite Hopen. reflexivity. Qed.

Lemma close_spec path os w1 old :
  fs w1 !! path = Some old ->
  close path os w1 =
  Done tt {| trace := trace w1 ++ [CloseFile path];
             fs := <[path := write_over (os_text os) old]> (fs w1) |}.
Proof.
  intros Hold. unfold close.
  erewrite bind_done by reflexivity. cbn [trace fs]. by rewrite Hold.
Qed.

(** A file that holds [text] alone holds neither an older content
    followed by [text] nor [text] written over a longer older content. *)
Lemma report_alone (files : gmap string string) path text old :
  <[path := text]> files !! path = Some text /\
  (old <> "" -> <[path := text]> files !! path <> Some (old +:+ text)) /\
  ((String.length text < String.length old)%nat ->
   <[path := text]> files !! path <> Some (write_over text old)).
Proof.
  rewrite lookup_insert_eq. split; [done|]. split.
  - apply not_appended.
  - apply not_written_over.
Qed.

Lemma lines_as_keys text (keys : list string) :
  keys_of text = keys -> length (lines_from "" text) = length keys.
Proof. intros <-. unfold keys_of. by rewrite length_fmap. Qed.

(** ** Runs of the sample environments *)

(** Settles [SamplingRun] for a concrete environment by evaluation. *)
Ltac evaluate_run :=
  constructor;
  [ cbn; lia
  | split; discriminate
  | reflexivity
  | reflexivity
  | intros i Hi; repeat (destruct i as [|i]; [discriminate|]); lia
  | reflexivity ].

(** ** Decoding wait statuses *)

Lemma range_check (f : Z -> bool) (n : nat) :
  forallb f (List.map Z.of_nat (seq 0 n)) = true ->
  forall z, 0 <= z < Z.of_nat n -> f z = true.
Proof.
  intros H z Hz. rewrite forallb_forall in H. apply H.
  apply in_map_iff. exists (Z.to_nat z). split; [lia|]. apply in_seq. lia.
Qed.

Lemma exit_status_exited c :
  0 <= c < 256 -> exit_status (wstatus (ExitedNormally c)) = c.
Proof.
  intros Hc. apply Z.eqb_eq.
  apply (range_check (fun c => exit_status (wstatus (ExitedNormally c)) =? c) 256);
    [by vm_compute | lia].
Qed.

Lemma exit_status_signaled sig core :
  1 <= sig < 127 -> exit_status (wstatus (KilledBySignal sig core)) = 128 + sig.
Proof.
  intros Hs.
  assert (H : ((sig =? 0) ||
               forallb (fun core => exit_status (wstatus (KilledBySignal sig core)) =? 128 + sig)
                       [true; false]) = true).
  { apply (range_check
             (fun s => (s =? 0) ||
                forallb (fun core => exit_status (wstatus (KilledBySignal s core)) =? 128 + s)
                        [true; false]) 127); [by vm_compute | lia]. }
  apply orb_true_iff in H as [H|H]; [lia|].
  rewrite forallb_forall in H. apply Z.eqb_eq, H. destruct core; cbn; auto.
Qed.

Lemma exit_status_undetermined st :
  WIFEXITED st = false -> WIFSIGNALED st = false -> exit_status st = 0.
Proof. unfold exit_status. by intros -> ->. Qed.

(** ** Exact integer sums *)

Lemma long_small z : - 2 ^ 63 <= z < 2 ^ 63 -> long z = z.
Proof. intros H. unfold long. rewrite Z.mod_small; lia. Qed.

Lemma long_sum_from (l : list Z) : forall acc,
  Forall (fun x => 0 <= x) l -> 0 <= acc -> acc + foldr Z.add 0 l < 2 ^ 63 ->
  fold_left (fun a x => long (a + x)) l acc = acc + foldr Z.add 0 l.
Proof.
  induction l as [|x l IH]; intros acc Hl Hacc Hsum; cbn [fold_left foldr] in *; [lia|].
  inversion Hl as [|? ? Hx Hl']; subst.
  assert (0 <= foldr Z.add 0 l).
  { clear -Hl'. induction Hl'; cbn; lia. }
  rewrite long_small by lia. rewrite IH by (auto; lia). lia.
Qed.

Lemma foldr_add_bound (l : list Z) :
  Forall (fun x => 0 <= x < 2 ^ 32) l ->
  0 <= foldr Z.add 0 l <= Z.of_nat (length l) * (2 ^ 32 - 1).
Proof. induction 1; cbn [foldr length]; lia. Qed.

Lemma long_sum_exact (l : list Z) :
  Forall (fun x => 0 <= x < 2 ^ 32) l -> Z.of_nat (length l) < 2 ^ 31 ->
  long_sum l = foldr Z.add 0 l.
Proof.
  intros Hl Hlen. pose proof (foldr_add_bound l Hl) as Hb.
  unfold long_sum. rewrite long_sum_from; [lia| |lia|].
  - eapply Forall_impl; [exact Hl|]. cbn. lia.
  - cbn. nia.
Qed.

(** ** The interval only reaches [sleep_for] *)

Lemma alike_ret {A} (a : A) : alike (ret a) (ret a).
Proof. intros w w' [Ht Hf]. unfold ret. cbn. by rewrite Ht, Hf. Qed.

Lemma alike_bind {A B} (m m' : M A) (k k' : A -> M B) :
  alike m m' -> (forall a, alike (k a) (k' a)) -> alike (bind m k) (bind m' k').
Proof.
  intros Hm Hk w w' Hw. specialize (Hm w w' Hw). unfold bind.
  destruct (m w) as [a w1| |], (m' w') as [a' w1'| |]; try done.
  cbn in Hm. injection Hm as -> Ht Hf. by apply Hk.
Qed.

Lemma alike_emit e e' : forget_sleep e = forget_sleep e' -> alike (emit e) (emit e').
Proof.
  intros He w w' [Ht Hf]. unfold emit. cbn.
  by rewrite !fmap_app, Ht, Hf; cbn; rewrite He.
Qed.

Lemma calls_forget p l :
  (forall e, p (forget_sleep e) = p e) -> calls p (forget_sleep <$> l) = calls p l.
Proof. intros Hp. induction l as [|e l IH]; cbn; [done|]. by rewrite Hp, IH. Qed.

Lemma alike_count p : (forall e, p (forget_sleep e) = p e) -> alike (count p) (count p).
Proof.
  intros Hp w w' [Ht Hf]. unfold count. cbn.
  by rewrite <- (calls_forget p (trace w)), <- (calls_forget p (trace w')), Ht, Hf.
Qed.

Lemma alike_write {A} (a : A) (f : gmap string string -> gmap string string) :
  alike (fun w => Done a {| trace := trace w; fs := f (fs w) |})
        (fun w => Done a {| trace := trace w; fs := f (fs w) |}).
Proof. intros w w' [Ht Hf]. cbn. by rewrite Ht, Hf. Qed.

Lemma alike_fail {A} (o : outcome A) :
  match o with Done _ _ => False | _ => True end -> alike (fun _ => o) (fun _ => o).
Proof. by intros _ w w' _. Qed.

Lemma alike_close path os : alike (close path os) (close path os).
Proof.
  unfold close. apply alike_bind; [by apply alike_emit | intros _].
  apply (alike_write tt
           (fun m => <[path := write_over (os_text os) (default "" (m !! path))]> m)).
Qed.

Ltac alike_step :=
  first
    [ apply alike_ret
    | apply alike_emit; reflexivity
    | apply alike_count; intros []; reflexivity
    | apply alike_close
    | apply alike_write
    | apply alike_bind; [|intros ?] ].

Lemma alike_nvml_query env m : alike (nvml_query env m) (nvml_query env m).
Proof.
  unfold nvml_query. apply alike_bind; [alike_step|intros k].
  apply alike_bind; [alike_step|intros _].
  destruct (env_nvml_query env m k). alike_step.
Qed.

Lemma alike_take_sample env : alike (take_sample env) (take_sample env).
Proof.
  unfold take_sample.
  repeat (apply alike_bind; [apply alike_nvml_query | intros [? ?]]).
  alike_step.
Qed.

Lemma alike_waitpid_nohang env pid status :
  alike (waitpid_nohang env pid status) (waitpid_nohang env pid status).
Proof.
  unfold waitpid_nohang. apply alike_bind; [alike_step|intros k].
  apply alike_bind; [alike_step|intros _].
  destruct (env_waitpid_nohang env k). alike_step.
Qed.

Lemma alike_sampling_loop env pid ms ms' : forall fuel status v,
  alike (sampling_loop env fuel pid ms status v) (sampling_loop env fuel pid ms' status v).
Proof.
  induction fuel as [|fuel IH]; intros status v; cbn [sampling_loop].
  - by apply (alike_fail OutOfFuel).
  - apply alike_bind; [apply alike_waitpid_nohang | intros [r status']].
    apply alike_bind; [apply alike_take_sample | intros s].
    destruct (r =? pid); [alike_step|].
    apply alike_bind; [by apply alike_emit | intros _]. apply IH.
Qed.

Lemma alike_monitor env fuel pid ms ms' out_file :
  alike (monitor env fuel pid ms out_file) (monitor env fuel pid ms' out_file).
Proof.
  unfold monitor, steady_clock_now.
  apply alike_bind; [repeat alike_step | intros t_start].
  apply alike_bind; [apply alike_sampling_loop | intros [status v]].
  apply alike_bind; [repeat alike_step | intros t_end].
  apply alike_bind.
  { destruct (aggregate _ _); [alike_step | by apply (alike_fail Undefined)]. }
  intros r. apply alike_bind.
  { unfold open_trunc. apply alike_bind; [alike_step | intros _].
    destruct (env_open_ok env out_file); alike_step. }
  intros [|]; cbn [negb]; unfold cerr, local_timestamp, nvmlShutdown;
    repeat alike_step.
Qed.

Lemma alike_main env fuel prog s s' rest :
  alike (main env fuel (prog :: s :: rest)) (main env fuel (prog :: s' :: rest)).
Proof.
  unfold main. cbn [length nth drop].
  destruct (_ <? 4); [unfold cerr; repeat alike_step|].
  apply alike_bind; [unfold fork; repeat alike_step | intros pid].
  destruct (pid =? -1); [unfold perror; repeat alike_step|].
  destruct (pid =? 0).
  { apply alike_bind; [unfold execvp; repeat alike_step | intros [|]];
      unfold perror; repeat alike_step. }
  apply alike_bind; [unfold nvmlInit; repeat alike_step | intros r].
  destruct (negb (r =? NVML_SUCCESS)).
  { unfold cerr, waitpid_blocking. repeat alike_step.
    destruct (env_waitpid_blocking env). alike_step. }
  apply alike_bind; [unfold nvmlDeviceGetHandleByIndex; repeat alike_step | intros r'].
  destruct (negb (r' =? NVML_SUCCESS)).
  { unfold cerr, nvmlShutdown, waitpid_blocking. repeat alike_step.
    destruct (env_waitpid_blocking env). alike_step. }
  apply alike_monitor.
Qed.

Lemma same_but_sleep_refl w : same_but_sleep w w.
Proof. by split. Qed.

Lemma forget_iterations pid ms k :
  forget_sleep <$> iterations pid ms k = iterations pid 0 k.
Proof.
  induction k as [|k IH]; [done|].
  cbn [iterations]. rewrite fmap_app, fmap_cons, IH. reflexivity.
Qed.

Lemma atoi_no_number c r :
  isspace c = false -> digit_value c = None ->
  c <> "-"%char -> c <> "+"%char -> atoi (String c r) = 0.
Proof.
  intros Hsp Hd Hm Hp. unfold atoi, strtol10. cbn [skip_spaces]. rewrite Hsp.
  assert (Hs : (let '(neg, s2) :=
                  match String c r with
                  | String "-" r0 => (true, r0)
                  | String "+" r0 => (false, r0)
                  | _ => (false, String c r)
                  end in
                Z.max LONG_MIN (Z.min LONG_MAX
                  (let v := digits s2 0 in if neg then - v else v))) = 0).
  { destruct c as [[] [] [] [] [] [] [] []]; try done; cbn [digits]; by rewrite Hd. }
  exact (f_equal int32 Hs).
Qed.

(** * The claims *)

(** C1.  Sample-then-check: every iteration polls the child without
    blocking, then issues the five queries and pushes the sample whatever
    the poll said, and only then stops (if the poll reaped the child) or
    sleeps and repeats.  When the child is reaped at the poll of
    iteration [k] ([k = 0]: it was gone before the loop began), the loop
    ends after [k] sleeps with [k + 1] samples pushed, so the series it
    returns is never empty. *)
Theorem sampling_loop_sample_then_check env pid ms k fuel status v w :
  reaped_at env w pid k -> (k < fuel)%nat ->
  exists status' v' w',
    sampling_loop env fuel pid ms status v w = Done (status', v') w' /\
    trace w' = trace w ++ iterations pid ms k /\
    calls is_poll (iterations pid ms k) = S k /\
    v' = pushed env w 0 (S k) v /\
    length (powers v') = (length (powers v) + S k)%nat /\
    (1 <= length (powers v'))%nat.
Proof.
  intros Hreap Hfuel.
  exists (status_after env w 0 k status), (pushed env w 0 (S k) v),
    {| trace := trace w ++ iterations pid ms k; fs := fs w |}.
  split; [by apply sampling_loop_run|].
  split; [done|]. split.
  { clear. induction k as [|k IH]; [done|].
    cbn [iterations]. rewrite calls_app. cbn [calls is_poll iteration Nat.add].
    by rewrite IH. }
  split; [done|]. rewrite pushed_length. lia.
Qed.

Lemma sampling_loop_sample_then_check_witness :
  exists status' v' w',
    sampling_loop Sample.exited_already 1 4242 100 0 empty_series (initial_world ∅) =
      Done (status', v') w' /\
    trace w' = trace (initial_world ∅) ++ iterations 4242 100 0 /\
    calls is_poll (iterations 4242 100 0) = 1%nat /\
    v' = pushed Sample.exited_already (initial_world ∅) 0 1 empty_series /\
    length (powers v') = (length (powers empty_series) + 1)%nat /\
    (1 <= length (powers v'))%nat.
Proof.
  apply (sampling_loop_sample_then_check Sample.exited_already 4242 100 0 1 0
           empty_series (initial_world ∅)).
  - split; [intros i Hi; lia | reflexivity].
  - lia.
Defined.

(** C2.  Exit propagation: when the run samples and writes its report,
    [main] returns the child's exit code if the child exited normally,
    128 plus the signal number if a signal killed it, and 0 if the status
    shows neither.  A child that exits with 7 gives 7; a child killed by
    signal 9 gives 137. *)
Theorem exit_propagation env argv k st fuel files :
  SamplingRun env argv k st -> (k < fuel)%nat ->
  env_open_ok env (nth 2 argv "") = true ->
  exists w',
    main env fuel argv (initial_world files) = Done (Return (exit_status st)) w' /\
    (forall c, 0 <= c < 256 -> st = wstatus (ExitedNormally c) -> exit_status st = c) /\
    (forall sig core, 1 <= sig < 127 -> st = wstatus (KilledBySignal sig core) ->
       exit_status st = 128 + sig) /\
    (WIFEXITED st = false -> WIFSIGNALED st = false -> exit_status st = 0).
Proof.
  intros Hrun Hfuel Hopen.
  destruct (main_sampling_run env argv k st fuel files Hrun Hfuel) as (r & _ & Hmain).
  cbv zeta in Hmain. rewrite Hopen in Hmain.
  eexists. split; [exact Hmain|].
  split; [intros c Hc ->; by apply exit_status_exited|].
  split; [intros sig core Hs ->; by apply exit_status_signaled|].
  apply exit_status_undetermined.
Qed.

Lemma exit_propagation_witness :
  (exists w', main Sample.env 3 Sample.argv (initial_world Sample.files) = Done (Return 7) w') /\
  (exists w', main Sample.killed 3 Sample.argv (initial_world Sample.files) = Done (Return 137) w').
Proof.
  split.
  - destruct (exit_propagation Sample.env Sample.argv 2 (wstatus (ExitedNormally 7)) 3
                Sample.files) as (w' & H & _).
    + evaluate_run.
    + lia.
    + reflexivity.
    + exists w'. exact H.
  - destruct (exit_propagation Sample.killed Sample.argv 2 (wstatus (KilledBySignal 9 false)) 3
                Sample.files) as (w' & H & _).
    + evaluate_run.
    + lia.
    + reflexivity.
    + exists w'. exact H.
Defined.

(** C3, as the code has it.  When [nvmlInit] or the device lookup fails,
    [main] still makes the blocking [waitpid] on the child as its last
    call, takes no sample, opens no file and leaves the file system as it
    was; it then returns 4 (no NVML) or 5 (no device), whatever the
    child's own exit code is. *)
Theorem degraded_path env argv fuel files :
  (4 <= length argv)%nat -> env_fork env <> -1 -> env_fork env <> 0 ->
  env_nvmlInit env <> NVML_SUCCESS \/ env_nvmlDeviceGetHandleByIndex env <> NVML_SUCCESS ->
  exists w',
    main env fuel argv (initial_world files) =
      Done (Return (if env_nvmlInit env =? NVML_SUCCESS then 5 else 4)) w' /\
    trace w' =
      (if env_nvmlInit env =? NVML_SUCCESS
       then [Fork; NvmlInit; NvmlDeviceGetHandleByIndex 0;
             Cerr ("NVML get device failed: " +:+
                   env_nvmlErrorString env (env_nvmlDeviceGetHandleByIndex env) +:+ newline);
             NvmlShutdown; Waitpid (env_fork env) false]
       else [Fork; NvmlInit;
             Cerr ("NVML init failed: " +:+
                   env_nvmlErrorString env (env_nvmlInit env) +:+ newline);
             Waitpid (env_fork env) false]) /\
    fs w' = files.
Proof.
  intros Hargc Hf1 Hf0 Hfail.
  destruct (env_nvmlInit env =? NVML_SUCCESS) eqn:Hinit.
  - apply Z.eqb_eq in Hinit. destruct Hfail as [Hfail|Hfail]; [done|].
    rewrite (main_no_device env argv fuel _ Hargc Hf1 Hf0 Hinit Hfail).
    eexists. split; [reflexivity|]. done.
  - apply Z.eqb_neq in Hinit.
    rewrite (main_no_nvml env argv fuel _ Hargc Hf1 Hf0 Hinit).
    eexists. split; [reflexivity|]. done.
Qed.

Lemma degraded_path_witness :
  (exists w',
    main Sample.no_nvml 3 Sample.argv (initial_world Sample.files) = Done (Return 4) w' /\
    trace w' = [Fork; NvmlInit; Cerr ("NVML init failed: Unknown Error" +:+ newline);
                Waitpid 4242 false] /\
    fs w' = Sample.files) /\
  (exists w',
    main Sample.no_device 3 Sample.argv (initial_world Sample.files) = Done (Return 5) w' /\
    trace w' = [Fork; NvmlInit; NvmlDeviceGetHandleByIndex 0;
                Cerr ("NVML get device failed: Unknown Error" +:+ newline);
                NvmlShutdown; Waitpid 4242 false] /\
    fs w' = Sample.files).
Proof.
  split.
  - apply (degraded_path Sample.no_nvml Sample.argv 3 Sample.files);
      [cbn; lia | discriminate | discriminate | left; discriminate].
  - apply (degraded_path Sample.no_device Sample.argv 3 Sample.files);
      [cbn; lia | discriminate | discriminate | right; discriminate].
Defined.

(** C3 as stated fails: with NVML unavailable and a child that exits
    with code 7, [main] returns 4, not 7. *)
Lemma degraded_returns_own_code :
  (env_waitpid_blocking Sample.no_nvml).2 = Some (wstatus (ExitedNormally 7)) /\
  exit_status (wstatus (ExitedNormally 7)) = 7 /\
  exists w',
    main Sample.no_nvml 3 Sample.argv (initial_world Sample.files) = Done (Return 4) w' /\
    Return 4 <> Return (exit_status (wstatus (ExitedNormally 7))).
Proof.
  split; [reflexivity|]. split; [reflexivity|].
  eexists. split; [by vm_compute|]. discriminate.
Qed.

(** C4, as the code has it.  When [execvp] cannot start the command, the
    forked child reports the error and ends with [_exit (127)], touching
    no file.  Its parent sees a child that exited with 127: it samples
    at least once, writes the report and returns 127. *)
Theorem nonexistent_command child parent argv k fuel files :
  (4 <= length argv)%nat ->
  env_fork child = 0 -> env_execvp_ok child (drop 3 argv) = false ->
  SamplingRun parent argv k (wstatus (ExitedNormally 127)) -> (k < fuel)%nat ->
  env_open_ok parent (nth 2 argv "") = true ->
  (exists w,
     main child fuel argv (initial_world files) = Done (Exit 127) w /\
     trace w = [Fork; Execvp (drop 3 argv); Perror "execvp"] /\
     fs w = files) /\
  (exists r w',
     main parent fuel argv (initial_world files) = Done (Return 127) w' /\
     aggregate (run_series parent k) (run_duration parent) = Some r /\
     n r = S k /\
     fs w' !! nth 2 argv "" = Some (os_text (report_stream parent (env_timestamp parent) r))).
Proof.
  intros Hargc Hpid Hexec Hrun Hfuel Hopen. split.
  - rewrite (main_child child argv fuel _ Hargc Hpid), Hexec. by eexists.
  - destruct (main_sampling_run parent argv k _ fuel files Hrun Hfuel) as (r & Hagg & Hmain).
    cbv zeta in Hmain. rewrite Hopen in Hmain.
    exists r. eexists. split; [exact Hmain|]. split; [done|]. split.
    + by destruct (run_summary parent k _ r Hagg) as (Hn & _).
    + cbn [fs]. apply lookup_insert_eq.
Qed.

Lemma nonexistent_command_witness :
  (exists w,
     main Sample.child 1 Sample.argv (initial_world Sample.files) = Done (Exit 127) w /\
     trace w = [Fork; Execvp (drop 3 Sample.argv); Perror "execvp"] /\
     fs w = Sample.files) /\
  (exists r w',
     main Sample.parent_of_child 1 Sample.argv (initial_world Sample.files) =
       Done (Return 127) w' /\
     aggregate (run_series Sample.parent_of_child 0) (run_duration Sample.parent_of_child) =
       Some r /\
     n r = 1%nat /\
     fs w' !! nth 2 Sample.argv "" =
       Some (os_text (report_stream Sample.parent_of_child
                        (env_timestamp Sample.parent_of_child) r))).
Proof.
  apply (nonexistent_command Sample.child Sample.parent_of_child Sample.argv 0 1 Sample.files).
  - cbn. lia.
  - reflexivity.
  - reflexivity.
  - evaluate_run.
  - lia.
  - reflexivity.
Defined.

(** C4 as stated fails: for a command that cannot be started, the child
    ends with [_exit (127)] and the parent, seeing that status at its
    first poll, returns 127 and does write the report. *)
Lemma exec_failure_writes_report :
  (exists w, main Sample.child 1 Sample.argv (initial_world Sample.files) = Done (Exit 127) w) /\
  (env_waitpid_nohang Sample.parent_of_child 0).2 = Some (wstatus (ExitedNormally 127)) /\
  (exists w',
     main Sample.parent_of_child 1 Sample.argv (initial_world Sample.files) =
       Done (Return 127) w' /\
     fs w' !! "out.txt" =
       Some (key_value_lines
               [("timestamp", "2025-03-01T12:00:00+0100");
                ("power_avg_w", "150.000");
                ("gpu_core_clock_MHz", "1500.000");
                ("gpu_mem_clock_MHz", "5001.000");
                ("gpu_utilization_pct", "97.000");
                ("gpu_temp_c", "65.000");
                ("samples", "1");
                ("duration_s", "0.250");
                ("energy_j", "37.500")])).
Proof.
  split; [eexists; by vm_compute|]. split; [reflexivity|].
  eexists. split; by vm_compute.
Qed.

(** C5.  The energy of the report is the mean power times the measured
    duration, as doubles: not an integral over the samples.  This holds
    of every summary [aggregate] yields, and for a sampling run the
    [energy_j] line of the file is that product, the last of the lines,
    with the mean taken over all [k + 1] samples. *)
Theorem energy_is_mean_power_times_duration env argv k st fuel files :
  SamplingRun env argv k st -> (k < fuel)%nat ->
  env_open_ok env (nth 2 argv "") = true ->
  (forall v d r, aggregate v d = Some r ->
     energy_j r = (avg_p r * duration_s r)%float /\ duration_s r = d) /\
  exists r w' lines,
    main env fuel argv (initial_world files) = Done (Return (exit_status st)) w' /\
    aggregate (run_series env k) (run_duration env) = Some r /\
    avg_p r = (total_power (powers (run_series env k)) / size_to_double (S k))%float /\
    duration_s r = run_duration env /\
    energy_j r = (avg_p r * duration_s r)%float /\
    fs w' !! nth 2 argv "" =
      Some (key_value_lines
              (lines ++ [("energy_j", env_put_double env true 3 (avg_p r * duration_s r)%float)])).
Proof.
  intros Hrun Hfuel Hopen. split.
  { intros v d r. unfold aggregate.
    destruct (sum_from _ _ _ _); [|done]. cbn [mbind option_bind]. by intros [= <-]. }
  destruct (main_sampling_run env argv k st fuel files Hrun Hfuel) as (r & Hagg & Hmain).
  cbv zeta in Hmain. rewrite Hopen in Hmain.
  destruct (run_summary env k _ r Hagg) as (_ & Hp & Hd & He).
  exists r. eexists. eexists. split; [exact Hmain|].
  repeat (split; [done|]).
  cbn [fs]. rewrite lookup_insert_eq, report_text, He.
  apply (f_equal Some).
  match goal with
  | |- key_value_lines [?a; ?b; ?c; ?d; ?e; ?f; ?g; ?h; ?i] = _ =>
      change [a; b; c; d; e; f; g; h; i] with ([a; b; c; d; e; f; g; h] ++ [i])
  end.
  reflexivity.
Qed.

Lemma energy_is_mean_power_times_duration_witness :
  (forall v d r, aggregate v d = Some r ->
     energy_j r = (avg_p r * duration_s r)%float /\ duration_s r = d) /\
  exists r w' lines,
    main Sample.env 3 Sample.argv (initial_world Sample.files) = Done (Return 7) w' /\
    aggregate (run_series Sample.env 2) (run_duration Sample.env) = Some r /\
    avg_p r = (total_power (powers (run_series Sample.env 2)) / size_to_double 3)%float /\
    duration_s r = run_duration Sample.env /\
    energy_j r = (avg_p r * duration_s r)%float /\
    fs w' !! "out.txt" =
      Some (key_value_lines
              (lines ++ [("energy_j",
                          Sample.put_double true 3 (avg_p r * duration_s r)%float)])).
Proof.
  apply (energy_is_mean_power_times_duration Sample.env Sample.argv 2
           (wstatus (ExitedNormally 7)) 3 Sample.files).
  - evaluate_run.
  - lia.
  - reflexivity.
Defined.

(** C6.  A read is five queries, power, core clock, memory clock,
    utilization and temperature, each made once.  Whatever their return
    codes, the read ends with a sample and reports nothing; a field
    whose query failed is zero, each other field holds the value read.
    Pushing the sample appends its five fields, each to the end of its
    own vector, so every vector grows by one element.  Over a whole loop
    that reaps the child at its [k]-th poll the vectors are the ones it
    started with followed by the [k + 1] samples in the order they were
    read, a failed field as zero and the other fields of the same sample
    as read. *)
Theorem take_sample_absorbs_failures env w v :
  exists s w',
    take_sample env w = Done s w' /\
    trace w' = trace w ++ [NvmlQuery Power; NvmlQuery CoreClock; NvmlQuery MemClock;
                           NvmlQuery Utilization; NvmlQuery Temperature] /\
    (forall m, calls (is_query m) (trace w') = S (calls (is_query m) (trace w))) /\
    fs w' = fs w /\
    ((answer env w Power 0).1 <> NVML_SUCCESS -> power_w s = 0%float) /\
    ((answer env w Power 0).1 = NVML_SUCCESS ->
       power_w s = (u32_to_double (u32 (answer env w Power 0).2) / 1000)%float) /\
    ((answer env w CoreClock 0).1 <> NVML_SUCCESS -> core_mhz_val s = 0) /\
    ((answer env w CoreClock 0).1 = NVML_SUCCESS ->
       core_mhz_val s = u32 (answer env w CoreClock 0).2) /\
    ((answer env w MemClock 0).1 <> NVML_SUCCESS -> mem_mhz_val s = 0) /\
    ((answer env w MemClock 0).1 = NVML_SUCCESS ->
       mem_mhz_val s = u32 (answer env w MemClock 0).2) /\
    ((answer env w Utilization 0).1 <> NVML_SUCCESS -> gpu_util s = 0) /\
    ((answer env w Utilization 0).1 = NVML_SUCCESS ->
       gpu_util s = u32 (answer env w Utilization 0).2) /\
    ((answer env w Temperature 0).1 <> NVML_SUCCESS -> tval s = 0) /\
    ((answer env w Temperature 0).1 = NVML_SUCCESS ->
       tval s = u32 (answer env w Temperature 0).2) /\
    length (powers (push_back v s)) = S (length (powers v)) /\
    length (core_clocks (push_back v s)) = S (length (core_clocks v)) /\
    length (mem_clocks (push_back v s)) = S (length (mem_clocks v)) /\
    length (utils (push_back v s)) = S (length (utils v)) /\
    length (temps (push_back v s)) = S (length (temps v)) /\
    powers (push_back v s) = powers v ++ [power_w s] /\
    core_clocks (push_back v s) = core_clocks v ++ [core_mhz_val s] /\
    mem_clocks (push_back v s) = mem_clocks v ++ [mem_mhz_val s] /\
    utils (push_back v s) = utils v ++ [gpu_util s] /\
    temps (push_back v s) = temps v ++ [tval s] /\
    (forall pid ms k fuel status,
       reaped_at env w pid k -> (k < fuel)%nat ->
       exists status' v' w'',
         sampling_loop env fuel pid ms status v w = Done (status', v') w'' /\
         powers v' =
           powers v ++
           ((fun i => if (answer env w Power i).1 =? NVML_SUCCESS
                      then (u32_to_double (u32 (answer env w Power i).2) / 1000)%float
                      else 0%float) <$> seq 0 (S k)) /\
         core_clocks v' =
           core_clocks v ++
           ((fun i => if (answer env w CoreClock i).1 =? NVML_SUCCESS
                      then u32 (answer env w CoreClock i).2 else 0) <$> seq 0 (S k)) /\
         mem_clocks v' =
           mem_clocks v ++
           ((fun i => if (answer env w MemClock i).1 =? NVML_SUCCESS
                      then u32 (answer env w MemClock i).2 else 0) <$> seq 0 (S k)) /\
         utils v' =
           utils v ++
           ((fun i => if (answer env w Utilization i).1 =? NVML_SUCCESS
                      then u32 (answer env w Utilization i).2 else 0) <$> seq 0 (S k)) /\
         temps v' =
           temps v ++
           ((fun i => if (answer env w Temperature i).1 =? NVML_SUCCESS
                      then u32 (answer env w Temperature i).2 else 0) <$> seq 0 (S k))).
Proof.
  eexists. eexists. split; [apply take_sample_spec|].
  cbn [trace fs sample_at power_w core_mhz_val mem_mhz_val gpu_util tval
       push_back powers core_clocks mem_clocks utils temps].
  unfold absorbed.
  split; [done|]. split.
  { intros m. rewrite calls_app, Nat.add_comm. by destruct m. }
  split; [done|].
  do 10 (split; [first [intros H; apply Z.eqb_neq in H; by rewrite H | by intros ->]|]).
  do 5 (split; [rewrite length_app; cbn [length]; lia|]).
  do 5 (split; [reflexivity|]).
  intros pid ms k fuel status Hreap Hfuel.
  eexists. eexists. eexists. split; [by apply (sampling_loop_run env pid ms k)|].
  apply pushed_content.
Qed.

(** In the sample run the memory clock query of the second read fails:
    the second sample holds zero for the memory clock and the values
    read for the four other fields, and the first and third samples are
    whole. *)
Lemma take_sample_absorbs_failures_witness :
  exists status' v' w'',
    sampling_loop Sample.env 3 4242 100 0 empty_series (initial_world ∅) =
      Done (status', v') w'' /\
    powers v' = [150%float; 151.5%float; 153%float] /\
    core_clocks v' = [1500; 1500; 1500] /\
    mem_clocks v' = [5001; 0; 5001] /\
    utils v' = [97; 97; 97] /\
    temps v' = [65; 65; 65].
Proof.
  destruct (take_sample_absorbs_failures Sample.env (initial_world ∅) empty_series)
    as (s & w' & Hloop).
  do 24 (destruct Hloop as [_ Hloop]).
  destruct (Hloop 4242 100 2%nat 3%nat 0) as (status' & v' & w'' & Hrun & Hp & Hc & Hm & Hu & Ht).
  - split; [|reflexivity].
    intros i Hi. destruct i as [|[|i]]; [by vm_compute | by vm_compute | lia].
  - lia.
  - exists status', v', w''. split; [exact Hrun|].
    rewrite Hp, Hc, Hm, Hu, Ht. by vm_compute.
Defined.

(** C7.  A run that opens its output file leaves at that path exactly
    nine [key=value] lines, with the keys timestamp, power_avg_w,
    gpu_core_clock_MHz, gpu_mem_clock_MHz, gpu_utilization_pct,
    gpu_temp_c, samples, duration_s and energy_j in this order.  Every
    double is written under [std::fixed] with precision 3; samples is the
    decimal count.  No other file changes.

    The open of line 138 truncates: it leaves the file empty whatever it
    held, and the close writes the text of the stream over what the open
    left.  So the file is the report alone: not the old content followed
    by the report, and, where the old content was the longer, not the
    report followed by the rest of the old content.

    Read back line by line, the file has nine lines and shows those nine
    keys, provided the runtime puts no newline into a timestamp or a
    number. *)
Theorem report_format_and_truncation env argv k st fuel files :
  SamplingRun env argv k st -> (k < fuel)%nat ->
  env_open_ok env (nth 2 argv "") = true ->
  exists r w',
    main env fuel argv (initial_world files) = Done (Return (exit_status st)) w' /\
    aggregate (run_series env k) (run_duration env) = Some r /\
    fs w' =
      <[nth 2 argv "" :=
          key_value_lines
            [("timestamp", env_timestamp env);
             ("power_avg_w", env_put_double env true 3 (avg_p r));
             ("gpu_core_clock_MHz", env_put_double env true 3 (avg_core r));
             ("gpu_mem_clock_MHz", env_put_double env true 3 (avg_mem r));
             ("gpu_utilization_pct", env_put_double env true 3 (avg_util r));
             ("gpu_temp_c", env_put_double env true 3 (avg_temp r));
             ("samples", pretty (S k));
             ("duration_s", env_put_double env true 3 (duration_s r));
             ("energy_j", env_put_double env true 3 (energy_j r))]]> files /\
    fs w' = <[nth 2 argv "" := os_text (report_stream env (env_timestamp env) r)]>
              (delete (nth 2 argv "") files) /\
    (forall w0,
       open_trunc env (nth 2 argv "") w0 =
       Done true {| trace := trace w0 ++ [OpenTrunc (nth 2 argv "")];
                    fs := <[nth 2 argv "" := ""]> (fs w0) |}) /\
    (forall os w1 old,
       fs w1 !! nth 2 argv "" = Some old ->
       close (nth 2 argv "") os w1 =
       Done tt {| trace := trace w1 ++ [CloseFile (nth 2 argv "")];
                  fs := <[nth 2 argv "" := write_over (os_text os) old]> (fs w1) |}) /\
    (forall old,
       files !! nth 2 argv "" = Some old ->
       fs w' !! nth 2 argv "" = Some (os_text (report_stream env (env_timestamp env) r)) /\
       (old <> "" ->
        fs w' !! nth 2 argv "" <>
        Some (old +:+ os_text (report_stream env (env_timestamp env) r))) /\
       ((String.length (os_text (report_stream env (env_timestamp env) r))
         < String.length old)%nat ->
        fs w' !! nth 2 argv "" <>
        Some (write_over (os_text (report_stream env (env_timestamp env) r)) old))) /\
    (free_of (ascii_of_nat 10) (env_timestamp env) = true ->
     (forall x, free_of (ascii_of_nat 10) (env_put_double env true 3 x) = true) ->
     keys_of (os_text (report_stream env (env_timestamp env) r)) =
       ["timestamp"; "power_avg_w"; "gpu_core_clock_MHz"; "gpu_mem_clock_MHz";
        "gpu_utilization_pct"; "gpu_temp_c"; "samples"; "duration_s"; "energy_j"] /\
     length (lines_from "" (os_text (report_stream env (env_timestamp env) r))) = 9%nat).
Proof.
  intros Hrun Hfuel Hopen.
  destruct (main_sampling_run env argv k st fuel files Hrun Hfuel) as (r & Hagg & Hmain).
  cbv zeta in Hmain. rewrite Hopen in Hmain.
  exists r. eexists. split; [exact Hmain|]. split; [done|].
  cbn [fs]. split; [|split; [|split; [|split; [|split]]]].
  - destruct (run_summary env k _ r Hagg) as (Hn & _).
    by rewrite report_text, Hn.
  - by rewrite insert_delete_eq.
  - intros w0. exact (open_trunc_spec env (nth 2 argv "") w0 Hopen).
  - intros os w1 old. exact (close_spec (nth 2 argv "") os w1 old).
  - intros old _.
    exact (report_alone files (nth 2 argv "")
             (os_text (report_stream env (env_timestamp env) r)) old).
  - intros Hts Hput.
    assert (Hkeys :
      keys_of (os_text (report_stream env (env_timestamp env) r)) =
      ["timestamp"; "power_avg_w"; "gpu_core_clock_MHz"; "gpu_mem_clock_MHz";
       "gpu_utilization_pct"; "gpu_temp_c"; "samples"; "duration_s"; "energy_j"]).
    { rewrite report_text, keys_of_key_value_lines; [done|].
      repeat (apply Forall_cons; split;
              [cbn [fst snd]; auto using pretty_nat_free_of_newline|]).
      apply Forall_nil_2. }
    split; [exact Hkeys|].
    exact (lines_as_keys _ _ Hkeys).
Qed.

(** The sample run over an earlier report that was longer than the new
    one: the file is the new report and nothing else, the other file is
    as it was, and the exact renderer of [%.3f] meets the condition on
    the runtime. *)
Lemma report_format_and_truncation_witness :
  exists r w',
    main Sample.env 3 Sample.argv (initial_world files_with_earlier_report) =
      Done (Return 7) w' /\
    aggregate (run_series Sample.env 2) (run_duration Sample.env) = Some r /\
    fs w' !! "out.txt" =
      Some (key_value_lines
              [("timestamp", "2025-03-01T12:00:00+0100");
               ("power_avg_w", "151.500");
               ("gpu_core_clock_MHz", "1500.000");
               ("gpu_mem_clock_MHz", "3334.000");
               ("gpu_utilization_pct", "97.000");
               ("gpu_temp_c", "65.000");
               ("samples", "3");
               ("duration_s", "0.250");
               ("energy_j", "37.875")]) /\
    fs w' !! "out.txt" = Some (os_text (report_stream Sample.env (env_timestamp Sample.env) r)) /\
    fs w' !! "notes.txt" = Some "kept" /\
    (String.length (os_text (report_stream Sample.env (env_timestamp Sample.env) r))
     < String.length earlier_report)%nat /\
    fs w' !! "out.txt" <>
      Some (earlier_report +:+ os_text (report_stream Sample.env (env_timestamp Sample.env) r)) /\
    fs w' !! "out.txt" <>
      Some (write_over (os_text (report_stream Sample.env (env_timestamp Sample.env) r))
                       earlier_report) /\
    keys_of (os_text (report_stream Sample.env (env_timestamp Sample.env) r)) =
      ["timestamp"; "power_avg_w"; "gpu_core_clock_MHz"; "gpu_mem_clock_MHz";
       "gpu_utilization_pct"; "gpu_temp_c"; "samples"; "duration_s"; "energy_j"] /\
    length (lines_from "" (os_text (report_stream Sample.env (env_timestamp Sample.env) r))) =
      9%nat.
Proof.
  destruct (report_format_and_truncation Sample.env Sample.argv 2
              (wstatus (ExitedNormally 7)) 3 files_with_earlier_report)
    as (r & w' & Hmain & Hagg & Hfs & _ & _ & _ & Hold & Hread).
  - evaluate_run.
  - lia.
  - reflexivity.
  - destruct (Hold earlier_report) as (Hfile & Happend & Hover); [reflexivity|].
    destruct Hread as (Hkeys & Hlines);
      [reflexivity | intros x; apply (put_double_free_of_newline true 3) |].
    change (nth 2 Sample.argv "") with "out.txt" in Hfs, Hfile, Happend, Hover.
    assert (Hr : r = {| avg_p := 151.5; avg_core := 1500; avg_mem := 3334;
                        avg_util := 97; avg_temp := 65; n := 3;
                        duration_s := 0.25; energy_j := 37.875 |}).
    { vm_compute in Hagg. congruence. }
    assert (Hlen : (String.length (os_text (report_stream Sample.env
                                              (env_timestamp Sample.env) r))
                    < String.length earlier_report)%nat).
    { rewrite Hr. vm_compute. lia. }
    exists r, w'. split; [exact Hmain|]. split; [exact Hagg|].
    split; [|split; [exact Hfile|split; [|split; [exact Hlen|split; [|split; [|split]]]]]].
    + rewrite Hfile, Hr. by vm_compute.
    + rewrite Hfs. reflexivity.
    + apply Happend. discriminate.
    + apply Hover, Hlen.
    + exact Hkeys.
    + exact Hlines.
Defined.

(** C8.  On vectors of one length, [aggregate] yields a summary whose
    count is that length.  For the empty series every average is 0 and
    the count is 0.  Otherwise the mean power is the left-to-right sum of
    the powers divided by the count, and each other average is the sum of
    the vector, converted to double, divided by the count; those integer
    sums are exact as long as fewer than 2^31 samples of 32-bit values
    are added. *)
Theorem aggregate_means v d :
  aligned v ->
  exists r,
    aggregate v d = Some r /\
    n r = length (powers v) /\
    (length (powers v) = 0%nat ->
       avg_p r = 0%float /\ avg_core r = 0%float /\ avg_mem r = 0%float /\
       avg_util r = 0%float /\ avg_temp r = 0%float /\ n r = 0%nat) /\
    ((0 < length (powers v))%nat ->
       avg_p r = (total_power (powers v) / size_to_double (length (powers v)))%float /\
       avg_core r = (long_to_double (long_sum (core_clocks v)) /
                     size_to_double (length (powers v)))%float /\
       avg_mem r = (long_to_double (long_sum (mem_clocks v)) /
                    size_to_double (length (powers v)))%float /\
       avg_util r = (long_to_double (long_sum (utils v)) /
                     size_to_double (length (powers v)))%float /\
       avg_temp r = (long_to_double (long_sum (temps v)) /
                     size_to_double (length (powers v)))%float) /\
    (forall l : list Z,
       Forall (fun x => 0 <= x < 2 ^ 32) l -> Z.of_nat (length l) < 2 ^ 31 ->
       long_sum l = foldr Z.add 0 l).
Proof.
  intros Hal. eexists. split; [by apply aggregate_aligned|].
  destruct Hal as (Hc & Hm & Hu & Ht).
  cbv zeta. cbn [n avg_p avg_core avg_mem avg_util avg_temp].
  split; [done|]. split; [|split].
  - intros ->. by cbn.
  - intros Hpos. apply Nat.ltb_lt in Hpos. rewrite Hpos.
    unfold mean_of. by rewrite Hc, Hm, Hu, Ht.
  - apply long_sum_exact.
Qed.

Lemma aggregate_means_witness :
  (exists r,
    aggregate empty_series 1%float = Some r /\
    n r = 0%nat /\
    (0%nat = 0%nat ->
       avg_p r = 0%float /\ avg_core r = 0%float /\ avg_mem r = 0%float /\
       avg_util r = 0%float /\ avg_temp r = 0%float /\ n r = 0%nat) /\
    ((0 < 0)%nat ->
       avg_p r = (total_power [] / size_to_double 0)%float /\
       avg_core r = (long_to_double (long_sum []) / size_to_double 0)%float /\
       avg_mem r = (long_to_double (long_sum []) / size_to_double 0)%float /\
       avg_util r = (long_to_double (long_sum []) / size_to_double 0)%float /\
       avg_temp r = (long_to_double (long_sum []) / size_to_double 0)%float) /\
    (forall l : list Z,
       Forall (fun x => 0 <= x < 2 ^ 32) l -> Z.of_nat (length l) < 2 ^ 31 ->
       long_sum l = foldr Z.add 0 l)) /\
  (exists r,
    aggregate (run_series Sample.env 2) 1%float = Some r /\
    n r = 3%nat /\
    avg_core r = 1500%float /\ avg_mem r = 3334%float).
Proof.
  split.
  - apply (aggregate_means empty_series 1%float). apply empty_series_aligned.
  - destruct (aggregate_means (run_series Sample.env 2) 1%float) as (r & H & Hn & _).
    + apply run_series_aligned.
    + exists r. split; [exact H|]. split; [exact Hn|].
      revert H. vm_compute. intros [= <-]. split; reflexivity.
Defined.

(** C9.  Every push adds one element to each of the five vectors, so
    the vectors the loop returns have one length, at least 1.  That
    length is the count of the summary, the divisor of every average and
    the number on the samples line of the report. *)
Theorem parallel_series_invariant env fuel pid ms status w status' v' w' d timestamp :
  sampling_loop env fuel pid ms status empty_series w = Done (status', v') w' ->
  (forall v s, aligned v ->
     aligned (push_back v s) /\ length (powers (push_back v s)) = S (length (powers v))) /\
  length (core_clocks v') = length (powers v') /\
  length (mem_clocks v') = length (powers v') /\
  length (utils v') = length (powers v') /\
  length (temps v') = length (powers v') /\
  (1 <= length (powers v'))%nat /\
  exists r,
    aggregate v' d = Some r /\
    n r = length (powers v') /\
    avg_p r = (total_power (powers v') / size_to_double (n r))%float /\
    avg_core r = (long_to_double (long_sum (core_clocks v')) / size_to_double (n r))%float /\
    avg_mem r = (long_to_double (long_sum (mem_clocks v')) / size_to_double (n r))%float /\
    avg_util r = (long_to_double (long_sum (utils v')) / size_to_double (n r))%float /\
    avg_temp r = (long_to_double (long_sum (temps v')) / size_to_double (n r))%float /\
    exists before after,
      os_text (report_stream env timestamp r) =
      key_value_lines (before ++ ("samples", pretty (length (powers v'))) :: after).
Proof.
  intros Hloop.
  split; [intros v s Hal; split; [by apply push_back_aligned | apply push_back_length]|].
  destruct (sampling_loop_inv _ _ _ _ _ _ _ _ _ Hloop) as (k & Hk & Hreap).
  pose proof (sampling_loop_run env pid ms k fuel status empty_series w Hreap Hk) as Hrun.
  rewrite Hloop in Hrun.
  assert (Hv : v' = pushed env w 0 (S k) empty_series) by congruence.
  assert (Hal : aligned v')
    by (rewrite Hv; apply pushed_aligned, empty_series_aligned).
  assert (Hlen : length (powers v') = S k)
    by (by rewrite Hv, pushed_length).
  clear Hrun Hv Hloop.
  pose proof Hal as (Hc & Hm & Hu & Ht).
  repeat (split; [done|]). split; [lia|].
  eexists. split; [by apply aggregate_aligned|].
  cbv zeta. cbn [n avg_p avg_core avg_mem avg_util avg_temp].
  rewrite Hlen. cbn [Nat.ltb Nat.leb]. unfold mean_of. rewrite Hc, Hm, Hu, Ht, Hlen.
  repeat (split; [done|]).
  rewrite report_text. cbn [n].
  match goal with
  | |- exists before after, key_value_lines [?a; ?b; ?c; ?d; ?e; ?f; ?g; ?h; ?i] = _ =>
      exists [a; b; c; d; e; f], [h; i]
  end.
  reflexivity.
Qed.

Lemma parallel_series_invariant_witness :
  (forall v s, aligned v ->
     aligned (push_back v s) /\ length (powers (push_back v s)) = S (length (powers v))) /\
  length (core_clocks (run_series Sample.env 2)) = length (powers (run_series Sample.env 2)) /\
  length (mem_clocks (run_series Sample.env 2)) = length (powers (run_series Sample.env 2)) /\
  length (utils (run_series Sample.env 2)) = length (powers (run_series Sample.env 2)) /\
  length (temps (run_series Sample.env 2)) = length (powers (run_series Sample.env 2)) /\
  (1 <= length (powers (run_series Sample.env 2)))%nat /\
  exists r,
    aggregate (run_series Sample.env 2) 1%float = Some r /\
    n r = length (powers (run_series Sample.env 2)) /\
    avg_p r = (total_power (powers (run_series Sample.env 2)) / size_to_double (n r))%float /\
    avg_core r = (long_to_double (long_sum (core_clocks (run_series Sample.env 2))) /
                  size_to_double (n r))%float /\
    avg_mem r = (long_to_double (long_sum (mem_clocks (run_series Sample.env 2))) /
                 size_to_double (n r))%float /\
    avg_util r = (long_to_double (long_sum (utils (run_series Sample.env 2))) /
                  size_to_double (n r))%float /\
    avg_temp r = (long_to_double (long_sum (temps (run_series Sample.env 2))) /
                  size_to_double (n r))%float /\
    exists before after,
      os_text (report_stream Sample.env "now" r) =
      key_value_lines
        (before ++ ("samples", pretty (length (powers (run_series Sample.env 2)))) :: after).
Proof.
  apply (parallel_series_invariant Sample.env 3 4242 100 0 (initial_world ∅)
           (wstatus (ExitedNormally 7)) (run_series Sample.env 2)
           {| trace := iterations 4242 100 2; fs := ∅ |} 1%float "now").
  by vm_compute.
Defined.

(** C10.  The interval argument is never checked.  Whatever string is
    given, [main] goes on to fork, sample and report: the run sleeps for
    [atoi] of the string between samples, be it zero or negative, and
    with any other string in its place [main] ends in the same way, with
    the same files and the same calls, sleeps apart.  A string that
    starts with neither white space, a sign nor a digit reads as 0. *)
Theorem interval_not_validated env fuel prog s out cmd0 args k st files :
  SamplingRun env (prog :: s :: out :: cmd0 :: args) k st -> (k < fuel)%nat ->
  env_open_ok env out = true ->
  (exists w',
     main env fuel (prog :: s :: out :: cmd0 :: args) (initial_world files) =
       Done (Return (exit_status st)) w' /\
     trace w' = prologue ++ iterations (env_fork env) (atoi s) k ++ epilogue out /\
     is_Some (fs w' !! out)) /\
  (forall s' w,
     forget_interval (main env fuel (prog :: s :: out :: cmd0 :: args) w) =
     forget_interval (main env fuel (prog :: s' :: out :: cmd0 :: args) w)) /\
  (forall c r, isspace c = false -> digit_value c = None ->
     c <> "-"%char -> c <> "+"%char -> atoi (String c r) = 0).
Proof.
  intros Hrun Hfuel Hopen. split; [|split].
  - destruct (main_sampling_run env _ k st fuel files Hrun Hfuel) as (r & _ & Hmain).
    cbv zeta in Hmain. cbn [nth] in Hmain. rewrite Hopen in Hmain.
    eexists. split; [exact Hmain|]. cbn [trace fs]. split.
    + by rewrite <- app_assoc.
    + rewrite lookup_insert_eq. by eexists.
  - intros s' w. apply alike_main, same_but_sleep_refl.
  - apply atoi_no_number.
Qed.

Lemma interval_not_validated_witness :
  (exists w',
     main Sample.env 3 ["gpu_monitor"; "fast"; "out.txt"; "./dot"; "1024"]
          (initial_world Sample.files) =
       Done (Return 7) w' /\
     trace w' = prologue ++ iterations 4242 0 2 ++ epilogue "out.txt" /\
     is_Some (fs w' !! "out.txt")) /\
  (forall s' w,
     forget_interval (main Sample.env 3 ["gpu_monitor"; "fast"; "out.txt"; "./dot"; "1024"] w) =
     forget_interval (main Sample.env 3 ["gpu_monitor"; s'; "out.txt"; "./dot"; "1024"] w)) /\
  (forall c r, isspace c = false -> digit_value c = None ->
     c <> "-"%char -> c <> "+"%char -> atoi (String c r) = 0).
Proof.
  apply (interval_not_validated Sample.env 3 "gpu_monitor" "fast" "out.txt" "./dot" ["1024"]
           2 (wstatus (ExitedNormally 7)) Sample.files).
  - evaluate_run.
  - lia.
  - reflexivity.
Defined.

(** * Further properties of the monitor *)

(** ** Every way [main] ends *)

Lemma status_after_base env w w' k : forall from status,
  calls is_poll (trace w) = calls is_poll (trace w') ->
  status_after env w from k status = status_after env w' from k status.
Proof.
  induction k as [|k IH]; intros from status H; cbn [status_after]; rewrite H; [done|].
  by apply IH.
Qed.

Lemma reaped_at_base env w w' pid k :
  calls is_poll (trace w) = calls is_poll (trace w') ->
  reaped_at env w pid k -> reaped_at env w' pid k.
Proof. intros H. unfold reaped_at. by rewrite H. Qed.

(** The parent from its first line to the sampling loop. *)
Lemma main_reaches_monitor env argv fuel files :
  (4 <= length argv)%nat -> env_fork env <> -1 -> env_fork env <> 0 ->
  env_nvmlInit env = NVML_SUCCESS ->
  env_nvmlDeviceGetHandleByIndex env = NVML_SUCCESS ->
  main env fuel argv (initial_world files) =
  monitor env fuel (env_fork env) (atoi (nth 1 argv "")) (nth 2 argv "")
    {| trace := [Fork; NvmlInit; NvmlDeviceGetHandleByIndex 0]; fs := files |}.
Proof.
  intros Hargc Hf1 Hf0 Hinit Hdev. unfold main.
  replace (Z.of_nat (length argv) <? 4) with false by (symmetry; apply Z.ltb_ge; lia).
  erewrite bind_done by reflexivity.
  apply Z.eqb_neq in Hf1, Hf0. rewrite Hf1, Hf0.
  erewrite bind_done by reflexivity. rewrite Hinit. cbn [negb Z.eqb NVML_SUCCESS].
  erewrite bind_done by reflexivity. rewrite Hdev. cbn [negb Z.eqb NVML_SUCCESS].
  reflexivity.
Qed.

(** The monitor when the loop reaps the child at the poll of iteration
    [k], whatever status word that poll leaves. *)
Lemma monitor_run env fuel pid ms out_file files k :
  let w0 := {| trace := [Fork; NvmlInit; NvmlDeviceGetHandleByIndex 0]; fs := files |} in
  reaped_at env (initial_world ∅) pid k -> (k < fuel)%nat ->
  exists r,
    aggregate (run_series env k) (run_duration env) = Some r /\
    monitor env fuel pid ms out_file w0 =
    if env_open_ok env out_file then
      Done (Return (exit_status (status_after env (initial_world ∅) 0 k 0)))
           {| trace := prologue ++ iterations pid ms k ++ epilogue out_file;
              fs := <[out_file := os_text (report_stream env (env_timestamp env) r)]> files |}
    else
      Done (Return 6)
           {| trace := prologue ++ iterations pid ms k ++ epilogue_unopened out_file;
              fs := files |}.
Proof.
  intros w0 Hreap Hfuel.
  destruct (aggregate (run_series env k) (run_duration env)) as [r|] eqn:Hagg;
    [|by rewrite aggregate_aligned in Hagg by apply run_series_aligned].
  exists r. split; [done|].
  unfold monitor, w0.
  erewrite bind_done by reflexivity. cbn [trace fs app calls is_steady].
  set (w1 := {| trace := [Fork; NvmlInit; NvmlDeviceGetHandleByIndex 0; SteadyNow];
                fs := files |}).
  erewrite bind_done; cycle 1.
  { apply (sampling_loop_run env pid _ k); [|done].
    by apply (reaped_at_base env (initial_world ∅) w1). }
  cbn beta iota.
  rewrite (status_after_base env w1 (initial_world ∅)) by done.
  rewrite (pushed_base env w1 (initial_world ∅)) by done.
  fold (run_series env k).
  erewrite bind_done; cycle 1.
  { unfold steady_clock_now, count. erewrite bind_done by reflexivity.
    erewrite bind_done by reflexivity. reflexivity. }
  cbn [trace fs w1]. rewrite calls_app, iterations_no_clock. cbn [calls is_steady Nat.add].
  fold (run_duration env). rewrite Hagg. cbn [lift_option].
  erewrite bind_done by reflexivity.
  unfold open_trunc. cbv zeta.
  destruct (env_open_ok env out_file).
  - erewrite bind_done by reflexivity. change (negb true) with false. cbv iota.
    unfold local_timestamp, close, nvmlShutdown.
    repeat (erewrite bind_done by reflexivity). unfold ret, emit, epilogue, prologue.
    cbn [trace fs]. rewrite lookup_insert_eq. cbn [from_option id].
    rewrite write_over_empty, insert_insert_eq, <- !app_assoc. reflexivity.
  - erewrite bind_done by reflexivity. change (negb false) with true. cbv iota.
    unfold cerr, nvmlShutdown.
    repeat (erewrite bind_done by reflexivity). unfold ret, emit, prologue, epilogue_unopened.
    cbn [trace fs]. rewrite <- !app_assoc. reflexivity.
Qed.

(** A loop that never sees the child's pid is still running, whatever
    the fuel. *)
Lemma sampling_loop_never env pid ms : forall fuel status v w,
  (forall i, (env_waitpid_nohang env i).1 <> pid) ->
  sampling_loop env fuel pid ms status v w = OutOfFuel.
Proof.
  induction fuel as [|fuel IH]; intros status v w Hnever; [done|].
  cbn [sampling_loop].
  run_with waitpid_nohang_spec. run_with take_sample_spec.
  specialize (Hnever (calls is_poll (trace w))) as Hne.
  apply Z.eqb_neq in Hne. rewrite Hne.
  unfold sleep_for. erewrite bind_done by reflexivity. by apply IH.
Qed.

(** The monitor ends only if its loop does. *)
Lemma monitor_done_inv env fuel pid ms out_file w f w' :
  monitor env fuel pid ms out_file w = Done f w' ->
  exists k, (k < fuel)%nat /\
    reaped_at env {| trace := trace w ++ [SteadyNow]; fs := fs w |} pid k.
Proof.
  unfold monitor. erewrite bind_done by reflexivity.
  unfold bind at 1.
  destruct (sampling_loop _ _ _ _ _ _ _) as [[st v] w1| |] eqn:Hloop; [|done..].
  intros _. by apply sampling_loop_inv in Hloop.
Qed.

Lemma main_ends_sound env argv fuel files f w' :
  main env fuel argv (initial_world files) = Done f w' -> ends env argv files f w'.
Proof.
  intros H.
  destruct (decide (length argv < 4)%nat) as [Hargc|Hargc].
  { rewrite main_usage in H by done. injection H as <- <-. by constructor. }
  apply Nat.nlt_ge in Hargc.
  destruct (decide (env_fork env = -1)) as [Hf1|Hf1].
  { rewrite main_fork_failed in H by done. injection H as <- <-. by constructor. }
  destruct (decide (env_fork env = 0)) as [Hf0|Hf0].
  { rewrite main_child in H by done.
    destruct (env_execvp_ok env (drop 3 argv)) eqn:Hexec; injection H as <- <-.
    - by apply ends_exec.
    - by apply ends_exec_failed. }
  destruct (decide (env_nvmlInit env = NVML_SUCCESS)) as [Hinit|Hinit]; cycle 1.
  { rewrite main_no_nvml in H by done. injection H as <- <-. by apply ends_no_nvml. }
  destruct (decide (env_nvmlDeviceGetHandleByIndex env = NVML_SUCCESS)) as [Hdev|Hdev]; cycle 1.
  { rewrite main_no_device in H by done. injection H as <- <-. by apply ends_no_device. }
  rewrite main_reaches_monitor in H by done.
  destruct (monitor_done_inv _ _ _ _ _ _ _ _ H) as (k & Hk & Hreap).
  apply (reaped_at_base env _ (initial_world ∅)) in Hreap; [|done].
  destruct (monitor_run env fuel (env_fork env) (atoi (nth 1 argv "")) (nth 2 argv "")
              files k Hreap Hk) as (r & Hagg & Hrun).
  rewrite Hrun in H.
  destruct (env_open_ok env (nth 2 argv "")) eqn:Hopen; injection H as <- <-.
  - by apply ends_report.
  - by apply ends_no_report.
Qed.

Lemma main_ends_complete env argv files f w' :
  ends env argv files f w' ->
  exists fuel0, forall fuel, (fuel0 <= fuel)%nat ->
    main env fuel argv (initial_world files) = Done f w'.
Proof.
  intros [Hargc|Hargc Hf|Hargc Hf Hexec|Hargc Hf Hexec|Hargc Hf1 Hf0 Hinit
         |Hargc Hf1 Hf0 Hinit Hdev|k r Hargc Hf1 Hf0 Hinit Hdev Hreap Hagg Hopen
         |k Hargc Hf1 Hf0 Hinit Hdev Hreap Hopen].
  - exists 0%nat. intros fuel _. by rewrite main_usage.
  - exists 0%nat. intros fuel _. by rewrite main_fork_failed.
  - exists 0%nat. intros fuel _. by rewrite main_child, Hexec.
  - exists 0%nat. intros fuel _. by rewrite main_child, Hexec.
  - exists 0%nat. intros fuel _. by rewrite main_no_nvml.
  - exists 0%nat. intros fuel _. by rewrite main_no_device.
  - exists (S k). intros fuel Hfuel. rewrite main_reaches_monitor by done.
    destruct (monitor_run env fuel (env_fork env) (atoi (nth 1 argv "")) (nth 2 argv "")
                files k Hreap) as (r' & Hagg' & ->); [lia|].
    rewrite Hopen. congruence.
  - exists (S k). intros fuel Hfuel. rewrite main_reaches_monitor by done.
    destruct (monitor_run env fuel (env_fork env) (atoi (nth 1 argv "")) (nth 2 argv "")
                files k Hreap) as (r' & Hagg' & ->); [lia|].
    by rewrite Hopen.
Qed.

Lemma calls_iterations p pid ms k :
  p (SleepFor ms) = false ->
  calls p (iterations pid ms k) = (S k * calls p (iteration pid))%nat.
Proof.
  intros Hp. induction k as [|k IH]; [cbn [iterations]; lia|].
  cbn [iterations]. rewrite calls_app. cbn [calls]. rewrite Hp, IH. lia.
Qed.

(** ** Wait statuses of any value *)

Lemma WTERMSIG_range st : 0 <= WTERMSIG st < 128.
Proof.
  unfold WTERMSIG. change 127 with (Z.ones 7). rewrite Z.land_ones by lia.
  apply Z.mod_pos_bound. lia.
Qed.

Lemma WEXITSTATUS_range st : 0 <= WEXITSTATUS st < 256.
Proof.
  unfold WEXITSTATUS. rewrite Z.shiftr_land. change (Z.shiftr 65280 8) with (Z.ones 8).
  rewrite Z.land_ones by lia. apply Z.mod_pos_bound. lia.
Qed.

Lemma exit_status_range st : 0 <= exit_status st <= 255.
Proof.
  unfold exit_status.
  pose proof (WTERMSIG_range st). pose proof (WEXITSTATUS_range st).
  destruct (WIFEXITED st); [lia|]. destruct (WIFSIGNALED st); lia.
Qed.

Lemma absorbed_range a : 0 <= absorbed a < 2 ^ 32.
Proof.
  unfold absorbed, u32. destruct (_ =? _); [|lia]. apply Z.mod_pos_bound. lia.
Qed.

Lemma pushed_range env w count : forall from v,
  Forall (fun x => 0 <= x < 2 ^ 32) (core_clocks v) ->
  Forall (fun x => 0 <= x < 2 ^ 32) (mem_clocks v) ->
  Forall (fun x => 0 <= x < 2 ^ 32) (utils v) ->
  Forall (fun x => 0 <= x < 2 ^ 32) (temps v) ->
  Forall (fun x => 0 <= x < 2 ^ 32) (core_clocks (pushed env w from count v)) /\
  Forall (fun x => 0 <= x < 2 ^ 32) (mem_clocks (pushed env w from count v)) /\
  Forall (fun x => 0 <= x < 2 ^ 32) (utils (pushed env w from count v)) /\
  Forall (fun x => 0 <= x < 2 ^ 32) (temps (pushed env w from count v)).
Proof.
  induction count as [|c IH]; intros from v Hc Hm Hu Ht; cbn [pushed]; [done|].
  apply IH; cbn [push_back core_clocks mem_clocks utils temps sample_at
                 core_mhz_val mem_mhz_val gpu_util tval];
    (apply Forall_app; split; [done|]); apply Forall_singleton, absorbed_range.
Qed.

(** * Further properties *)

(** X1.  [main] ends in one of eight ways and in no other: a usage error
    (2), a failed fork (3), the child replaced by the command or ended
    with [_exit (127)], no NVML (4), no device (5), a written report (the
    child's status), or an output file that does not open (6).  Each run
    that ends is one of them, and each of them is what [main] does once
    the fuel covers the iterations of its loop. *)
Theorem main_ends_exactly env argv files f w' :
  (exists fuel0, forall fuel, (fuel0 <= fuel)%nat ->
     main env fuel argv (initial_world files) = Done f w') <->
  ends env argv files f w'.
Proof.
  split.
  - intros (fuel0 & H). apply (main_ends_sound env argv fuel0). by apply H.
  - apply main_ends_complete.
Qed.

(** X2.  The NVML session is balanced: a run that ends has called
    [nvmlInit] at most once, and [nvmlShutdown] exactly once if that call
    was made and succeeded, and not at all otherwise. *)
Theorem nvml_session_balanced env argv fuel files f w' :
  main env fuel argv (initial_world files) = Done f w' ->
  (calls is_init (trace w') <= 1)%nat /\
  calls is_shutdown (trace w') =
    if (calls is_init (trace w') =? 1)%nat && (env_nvmlInit env =? NVML_SUCCESS)
    then 1%nat else 0%nat.
Proof.
  intros H. apply main_ends_sound in H.
  destruct H as [Hargc|Hargc Hf|Hargc Hf Hexec|Hargc Hf Hexec|Hargc Hf1 Hf0 Hinit
                |Hargc Hf1 Hf0 Hinit Hdev|k r Hargc Hf1 Hf0 Hinit Hdev Hreap Hagg Hopen
                |k Hargc Hf1 Hf0 Hinit Hdev Hreap Hopen];
    cbn [trace]; rewrite ?calls_app, ?calls_iterations by done;
    cbn [calls is_init is_shutdown prologue epilogue epilogue_unopened iteration
         Nat.add Nat.mul Nat.eqb andb];
    rewrite ?Nat.mul_0_r; cbn [Nat.add Nat.eqb andb]; try (split; [lia|done]).
  - apply Z.eqb_neq in Hinit. rewrite Hinit. split; [lia|done].
  - rewrite Hinit. split; [lia|done].
  - rewrite Hinit. split; [lia|done].
  - rewrite Hinit. split; [lia|done].
Qed.

Lemma nvml_session_balanced_witness :
  exists f w',
    main Sample.env 3 Sample.argv (initial_world Sample.files) = Done f w' /\
    (calls is_init (trace w') <= 1)%nat /\
    calls is_shutdown (trace w') = 1%nat.
Proof.
  eexists. eexists. split; [by vm_compute|].
  eapply (nvml_session_balanced Sample.env Sample.argv 3 Sample.files).
  by vm_compute.
Defined.

(** X3.  No child is left behind: whenever [main] returns in the parent
    of a forked child, it has waited for that child, either by the
    blocking [waitpid] of the degraded paths or by a poll that returned
    the child's pid. *)
Theorem child_always_waited env argv fuel files code w' :
  main env fuel argv (initial_world files) = Done (Return code) w' ->
  In Fork (trace w') -> env_fork env <> -1 ->
  waited env (trace w').
Proof.
  intros H. apply main_ends_sound in H.
  inversion H as [Hargc|Hargc Hf|Hargc Hf Hexec|Hargc Hf Hexec|Hargc Hf1 Hf0 Hinit
                 |Hargc Hf1 Hf0 Hinit Hdev|k r Hargc Hf1 Hf0 Hinit Hdev Hreap Hagg Hopen
                 |k Hargc Hf1 Hf0 Hinit Hdev Hreap Hopen]; subst; cbn [trace];
    intros Hfork Hpid.
  - destruct Hfork as [|[]]; discriminate.
  - done.
  - left. cbn. tauto.
  - left. cbn. tauto.
  - right. exists k. destruct Hreap as [_ Hreap]. split; [|exact Hreap].
    rewrite !calls_app, calls_iterations by done. cbn. lia.
  - right. exists k. destruct Hreap as [_ Hreap]. split; [|exact Hreap].
    rewrite !calls_app, calls_iterations by done. cbn. lia.
Qed.

Lemma child_always_waited_witness :
  (exists w',
     main Sample.env 3 Sample.argv (initial_world Sample.files) = Done (Return 7) w' /\
     waited Sample.env (trace w')) /\
  (exists w',
     main Sample.no_nvml 3 Sample.argv (initial_world Sample.files) = Done (Return 4) w' /\
     waited Sample.no_nvml (trace w')).
Proof.
  split; eexists; (split; [by vm_compute|]).
  - eapply (child_always_waited Sample.env Sample.argv 3 Sample.files 7);
      [by vm_compute | by left | discriminate].
  - eapply (child_always_waited Sample.no_nvml Sample.argv 3 Sample.files 4);
      [by vm_compute | by left | discriminate].
Defined.

(** X4.  [main] writes to no file but its output file: every other path
    holds after the run what it held before, and unless the run closed
    its report the files are exactly as they were. *)
Theorem only_the_report_file_changes env argv fuel files f w' :
  main env fuel argv (initial_world files) = Done f w' ->
  (forall path, path <> nth 2 argv "" -> fs w' !! path = files !! path) /\
  (fs w' = files \/
   In (CloseFile (nth 2 argv "")) (trace w') /\
   exists r, fs w' = <[nth 2 argv "" := os_text (report_stream env (env_timestamp env) r)]> files).
Proof.
  intros H. apply main_ends_sound in H.
  destruct H as [Hargc|Hargc Hf|Hargc Hf Hexec|Hargc Hf Hexec|Hargc Hf1 Hf0 Hinit
                |Hargc Hf1 Hf0 Hinit Hdev|k r Hargc Hf1 Hf0 Hinit Hdev Hreap Hagg Hopen
                |k Hargc Hf1 Hf0 Hinit Hdev Hreap Hopen];
    cbn [trace fs]; try (split; [done | by left]).
  split.
  - intros path Hpath. by rewrite lookup_insert_ne.
  - right. split; [|by exists r].
    rewrite !in_app_iff. right. right. cbn. tauto.
Qed.

Lemma only_the_report_file_changes_witness :
  exists f w',
    main Sample.env 3 Sample.argv (initial_world (<["notes.txt" := "keep"]> Sample.files)) =
      Done f w' /\
    (forall path, path <> "out.txt" ->
       fs w' !! path = (<["notes.txt" := "keep"]> Sample.files) !! path) /\
    (fs w' = <["notes.txt" := "keep"]> Sample.files \/
     In (CloseFile "out.txt") (trace w') /\
     exists r, fs w' = <["out.txt" := os_text (report_stream Sample.env
                                                 (env_timestamp Sample.env) r)]>
                         (<["notes.txt" := "keep"]> Sample.files)).
Proof.
  eexists. eexists. split; [by vm_compute|].
  eapply (only_the_report_file_changes Sample.env Sample.argv 3).
  by vm_compute.
Defined.

(** X5.  The value [main] returns always fits the eight bits of a
    process exit status: it lies between 0 and 255 whatever status word
    [waitpid] stored; [_exit] is only ever called with 127, and the
    image that replaces the child is the command of the arguments. *)
Theorem exit_codes_fit_a_byte env argv fuel files f w' :
  main env fuel argv (initial_world files) = Done f w' ->
  match f with
  | Return code => 0 <= code <= 255
  | Exit code => code = 127
  | Exec cmd => cmd = drop 3 argv
  end.
Proof.
  intros H. apply main_ends_sound in H.
  destruct H; try done; try lia. apply exit_status_range.
Qed.

Lemma exit_codes_fit_a_byte_witness :
  exists w',
    main Sample.killed 3 Sample.argv (initial_world Sample.files) = Done (Return 137) w' /\
    0 <= 137 <= 255.
Proof.
  eexists. split; [by vm_compute|].
  eapply (exit_codes_fit_a_byte Sample.killed Sample.argv 3 Sample.files (Return 137)).
  by vm_compute.
Defined.

(** X6.  When the output file cannot be opened, the run that sampled to
    the end returns 6 whatever the child's status was: the message goes
    to stderr, [nvmlShutdown] is still called, nothing is written and no
    file changes. *)
Theorem report_open_failure env argv k st fuel files :
  SamplingRun env argv k st -> (k < fuel)%nat ->
  env_open_ok env (nth 2 argv "") = false ->
  exists w',
    main env fuel argv (initial_world files) = Done (Return 6) w' /\
    trace w' = prologue ++ iterations (env_fork env) (atoi (nth 1 argv "")) k ++
               epilogue_unopened (nth 2 argv "") /\
    calls is_shutdown (trace w') = 1%nat /\
    fs w' = files.
Proof.
  intros Hrun Hfuel Hopen.
  destruct (main_sampling_run env argv k st fuel files Hrun Hfuel) as (r & _ & Hmain).
  cbv zeta in Hmain. rewrite Hopen in Hmain.
  eexists. split; [exact Hmain|]. cbn [trace fs].
  split; [by rewrite <- app_assoc|]. split; [|done].
  rewrite !calls_app, calls_iterations by done. cbn. lia.
Qed.

Lemma report_open_failure_witness :
  exists w',
    main Faulty.unwritable 3 Sample.argv (initial_world Sample.files) = Done (Return 6) w' /\
    trace w' = prologue ++ iterations 4242 100 2 ++ epilogue_unopened "out.txt" /\
    calls is_shutdown (trace w') = 1%nat /\
    fs w' = Sample.files.
Proof.
  apply (report_open_failure Faulty.unwritable Sample.argv 2 (wstatus (ExitedNormally 7)) 3
           Sample.files).
  - evaluate_run.
  - lia.
  - reflexivity.
Defined.

(** X7.  The loop ends only when a poll returns the child's pid.  If no
    poll ever does, and in particular if every [waitpid] fails with -1,
    [main] never returns: it is still sampling and sleeping after any
    number of iterations. *)
Theorem never_reaped_never_returns env argv fuel files :
  (4 <= length argv)%nat -> env_fork env <> -1 -> env_fork env <> 0 ->
  env_nvmlInit env = NVML_SUCCESS ->
  env_nvmlDeviceGetHandleByIndex env = NVML_SUCCESS ->
  (forall i, (env_waitpid_nohang env i).1 <> env_fork env) ->
  main env fuel argv (initial_world files) = OutOfFuel.
Proof.
  intros Hargc Hf1 Hf0 Hinit Hdev Hnever.
  rewrite main_reaches_monitor by done. unfold monitor.
  erewrite bind_done by reflexivity.
  unfold bind at 1. by rewrite sampling_loop_never.
Qed.

Lemma never_reaped_never_returns_witness :
  main Faulty.unreapable 500 Sample.argv (initial_world Sample.files) = OutOfFuel.
Proof.
  apply (never_reaped_never_returns Faulty.unreapable Sample.argv 500 Sample.files).
  - cbn. lia.
  - discriminate.
  - discriminate.
  - reflexivity.
  - reflexivity.
  - intros i. discriminate.
Defined.

(** X8.  The integer sums of lines 123-126 do not overflow in a run of
    fewer than 2^31 samples: every value pushed is a 32-bit unsigned
    number, so each [long] sum is the exact sum of its vector and each
    average is that sum, converted to double, over the sample count. *)
Theorem integer_sums_exact env k d r :
  Z.of_nat (S k) < 2 ^ 31 ->
  aggregate (run_series env k) d = Some r ->
  Forall (fun x => 0 <= x < 2 ^ 32) (core_clocks (run_series env k)) /\
  Forall (fun x => 0 <= x < 2 ^ 32) (mem_clocks (run_series env k)) /\
  Forall (fun x => 0 <= x < 2 ^ 32) (utils (run_series env k)) /\
  Forall (fun x => 0 <= x < 2 ^ 32) (temps (run_series env k)) /\
  avg_core r = (long_to_double (foldr Z.add 0%Z (core_clocks (run_series env k))) /
                size_to_double (S k))%float /\
  avg_mem r = (long_to_double (foldr Z.add 0%Z (mem_clocks (run_series env k))) /
               size_to_double (S k))%float /\
  avg_util r = (long_to_double (foldr Z.add 0%Z (utils (run_series env k))) /
                size_to_double (S k))%float /\
  avg_temp r = (long_to_double (foldr Z.add 0%Z (temps (run_series env k))) /
                size_to_double (S k))%float.
Proof.
  intros Hk Hagg.
  destruct (pushed_range env (initial_world ∅) (S k) 0 empty_series)
    as (Hc & Hm & Hu & Ht); try apply Forall_nil_2.
  fold (run_series env k) in Hc, Hm, Hu, Ht.
  destruct (run_series_aligned env k) as (Lc & Lm & Lu & Lt).
  pose proof (run_series_length env k) as Hlen.
  repeat (split; [done|]).
  rewrite aggregate_aligned in Hagg by apply run_series_aligned.
  injection Hagg as <-. cbv zeta. cbn [avg_core avg_mem avg_util avg_temp].
  rewrite Hlen. cbn [Nat.ltb Nat.leb]. unfold mean_of.
  rewrite !long_sum_exact by (done || lia). by rewrite Lc, Lm, Lu, Lt, Hlen.
Qed.

Lemma integer_sums_exact_witness :
  exists r,
    aggregate (run_series Sample.env 2) 1%float = Some r /\
    avg_mem r = (long_to_double (5001 + (0 + (5001 + 0)))%Z / size_to_double 3)%float.
Proof.
  eexists. split; [by vm_compute|].
  eapply (integer_sums_exact Sample.env 2 1%float); [lia | by vm_compute].
Defined.

Lemma sleeps_of_iterations pid ms k : calls is_sleep (iterations pid ms k) = k.
Proof.
  induction k as [|k IH]; [done|].
  cbn [iterations]. rewrite calls_app. cbn [calls is_sleep iteration Nat.add]. by rewrite IH.
Qed.

(** X9.  Polls, samples and sleeps keep step in every run that ends:
    each of the five metrics has been queried exactly as often as the
    child has been polled, and the run has slept once less than it has
    polled (not at all when it never polled). *)
Theorem queries_match_polls env argv fuel files f w' :
  main env fuel argv (initial_world files) = Done f w' ->
  (forall m, calls (is_query m) (trace w') = calls is_poll (trace w')) /\
  calls is_sleep (trace w') = Nat.pred (calls is_poll (trace w')).
Proof.
  intros H. apply main_ends_sound in H.
  assert (Hq : forall m pid, calls (is_query m) (iteration pid) = 1%nat)
    by (by intros [] pid).
  destruct H as [Hargc|Hargc Hf|Hargc Hf Hexec|Hargc Hf Hexec|Hargc Hf1 Hf0 Hinit
                |Hargc Hf1 Hf0 Hinit Hdev|k r Hargc Hf1 Hf0 Hinit Hdev Hreap Hagg Hopen
                |k Hargc Hf1 Hf0 Hinit Hdev Hreap Hopen];
    cbn [trace]; try (split; [by intros []|done]).
  - split.
    + intros m. rewrite !calls_app, !calls_iterations, Hq by done.
      destruct m; cbn; lia.
    + rewrite !calls_app, sleeps_of_iterations, calls_iterations by done. cbn. lia.
  - split.
    + intros m. rewrite !calls_app, !calls_iterations, Hq by done.
      destruct m; cbn; lia.
    + rewrite !calls_app, sleeps_of_iterations, calls_iterations by done. cbn. lia.
Qed.

Lemma queries_match_polls_witness :
  exists f w',
    main Sample.env 3 Sample.argv (initial_world Sample.files) = Done f w' /\
    (forall m, calls (is_query m) (trace w') = calls is_poll (trace w')) /\
    calls is_sleep (trace w') = Nat.pred (calls is_poll (trace w')).
Proof.
  eexists. eexists. split; [by vm_compute|].
  eapply (queries_match_polls Sample.env Sample.argv 3 Sample.files).
  by vm_compute.
Defined.

(** * The CPU benchmarks *)

(** ** The C library and memory *)

Lemma bench_bind_done {A B} (m : Bench.M A) (k : A -> Bench.M B) l a l' :
  m l = Bench.Done a l' -> Bench.bind m k l = k a l'.
Proof. unfold Bench.bind. by intros ->. Qed.

Lemma bench_count_app p l1 l2 :
  Bench.count p (l1 ++ l2) = (Bench.count p l1 + Bench.count p l2)%nat.
Proof.
  induction l1 as [|c l1 IH]; cbn; [done|]. destruct (p c); rewrite IH; done.
Qed.

Lemma bench_count_replicate p c k :
  Bench.count p (replicate k c) = if p c then k else 0%nat.
Proof. induction k as [|k IH]; cbn; destruct (p c); cbn in *; congruence. Qed.

Lemma load_written {A} (xs : list A) i : Bench.load (Some <$> xs) i = xs !! i.
Proof. unfold Bench.load. rewrite list_lookup_fmap. by destruct (xs !! i). Qed.

Lemma float_mul_comm (x y : float) : (x * y)%float = (y * x)%float.
Proof.
  apply Prim2SF_inj. rewrite !mul_spec.
  destruct (Prim2SF x) as [sx|sx| |sx mx ex], (Prim2SF y) as [sy|sy| |sy my ey];
    cbn; rewrite ?(xorb_comm sx sy); try reflexivity.
  unfold SF64mul, SFmul. by rewrite Pos.mul_comm, Z.add_comm, (xorb_comm sy sx).
Qed.

(** ** dot.c *)

Lemma dot_from_swap steps : forall i a b sum,
  Dot.dot_from steps i a b sum = Dot.dot_from steps i b a sum.
Proof.
  induction steps as [|steps IH]; intros i a b sum; cbn [Dot.dot_from]; [done|].
  destruct (Bench.load a i) as [x|], (Bench.load b i) as [y|]; cbn; try done.
  by rewrite (float_mul_comm y x), IH.
Qed.

Lemma dot_from_written xs ys steps : forall i sum,
  (i + steps <= length xs)%nat -> (i + steps <= length ys)%nat ->
  Dot.dot_from steps i (Some <$> xs) (Some <$> ys) sum =
  Some (Dot.sum_products (take steps (drop i xs)) (take steps (drop i ys)) sum).
Proof.
  induction steps as [|steps IH]; intros i sum Hx Hy; cbn [Dot.dot_from]; [done|].
  rewrite !load_written.
  destruct (lookup_lt_is_Some_2 xs i) as [x Hxi]; [lia|].
  destruct (lookup_lt_is_Some_2 ys i) as [y Hyi]; [lia|].
  rewrite Hxi, Hyi. cbn [mbind option_bind].
  rewrite IH by lia.
  by rewrite (drop_S xs x i Hxi), (drop_S ys y i Hyi).
Qed.

Lemma dot_from_outside xs ys steps : forall i sum,
  (i <= length xs)%nat -> (i <= length ys)%nat ->
  (length xs < i + steps)%nat \/ (length ys < i + steps)%nat ->
  Dot.dot_from steps i (Some <$> xs) (Some <$> ys) sum = None.
Proof.
  induction steps as [|steps IH]; intros i sum Hx Hy Hout; cbn [Dot.dot_from]; [lia|].
  rewrite !load_written.
  destruct (xs !! i) as [x|] eqn:Hxi; [|done].
  destruct (ys !! i) as [y|] eqn:Hyi; [|done].
  apply lookup_lt_Some in Hxi, Hyi.
  cbn [mbind option_bind]. apply IH; lia.
Qed.

(** X10.  [dot_product] is symmetric in its two vectors, exactly: the
    products are formed in floating point, where multiplication
    commutes, and are added in the same order. *)
Theorem dot_product_symmetric a b n : Dot.dot_product a b n = Dot.dot_product b a n.
Proof. apply dot_from_swap. Qed.

(** X11.  [dot_product] reads the first [n] elements of both vectors and
    nothing else: on vectors that hold at least [n] elements it is the
    sum of the first [n] products, added left to right from 0, whatever
    comes after them; with fewer than [n] elements in either it reads
    outside that vector. *)
Theorem dot_product_reads_a_prefix xs ys n :
  ((n <= length xs)%nat -> (n <= length ys)%nat ->
   Dot.dot_product (Some <$> xs) (Some <$> ys) n =
     Some (Dot.sum_products (take n xs) (take n ys) 0%float) /\
   forall xs' ys',
     Dot.dot_product (Some <$> (take n xs ++ xs')) (Some <$> (take n ys ++ ys')) n =
     Dot.dot_product (Some <$> xs) (Some <$> ys) n) /\
  ((length xs < n)%nat \/ (length ys < n)%nat ->
   Dot.dot_product (Some <$> xs) (Some <$> ys) n = None).
Proof.
  split.
  - intros Hx Hy. unfold Dot.dot_product.
    rewrite dot_from_written by (cbn; lia). rewrite !drop_0. split; [done|].
    intros xs' ys'.
    rewrite dot_from_written by (rewrite length_app, length_take; cbn; lia).
    rewrite !drop_0, !take_app_le, !take_take by (rewrite length_take; lia).
    by rewrite !Nat.min_id.
  - intros H. apply dot_from_outside; cbn; lia.
Qed.

Lemma vector_a_length env n : length (Dot.vector_a env n) = n.
Proof. unfold Dot.vector_a. by rewrite length_fmap, length_seq. Qed.

Lemma vector_b_length env n : length (Dot.vector_b env n) = n.
Proof. unfold Dot.vector_b. by rewrite length_fmap, length_seq. Qed.

Lemma vector_a_S env n :
  Dot.vector_a env (S n) =
  Dot.vector_a env n ++ [Dot.unit_random (Bench.env_rand env (2 * n))].
Proof. unfold Dot.vector_a. by rewrite seq_S, fmap_app. Qed.

Lemma vector_b_S env n :
  Dot.vector_b env (S n) =
  Dot.vector_b env n ++ [Dot.unit_random (Bench.env_rand env (2 * n + 1))].
Proof. unfold Dot.vector_b. by rewrite seq_S, fmap_app. Qed.

Lemma written_length xs cells :
  (length xs <= cells)%nat -> length (Dot.written xs cells) = cells.
Proof.
  intros H. unfold Dot.written. rewrite length_app, length_fmap, length_replicate. lia.
Qed.

Lemma store_written xs cells x :
  (length xs < cells)%nat ->
  Bench.store (Dot.written xs cells) (length xs) x = Some (Dot.written (xs ++ [x]) cells).
Proof.
  intros H. unfold Bench.store. rewrite written_length by lia.
  replace (length xs <? cells)%nat with true by (symmetry; apply Nat.ltb_lt; lia).
  f_equal. unfold Dot.written.
  rewrite length_app. cbn [length].
  replace (cells - length xs)%nat with (S (cells - (length xs + 1))) by lia.
  cbn [replicate].
  rewrite <- (length_fmap Some xs) at 1.
  rewrite (insert_app_r_alt (Some <$> xs)) by lia.
  rewrite Nat.sub_diag. cbn [insert list_insert].
  rewrite fmap_app, <- app_assoc. reflexivity.
Qed.

(** The initialisation loop inside the blocks. *)
Lemma init_from_written env cells steps : forall i l,
  (i + steps <= cells)%nat -> Bench.count Bench.is_rand l = (2 * i)%nat ->
  Dot.init_from env steps i (Dot.written (Dot.vector_a env i) cells)
                            (Dot.written (Dot.vector_b env i) cells) l =
  Bench.Done (Dot.written (Dot.vector_a env (i + steps)) cells,
              Dot.written (Dot.vector_b env (i + steps)) cells)
             (l ++ replicate (2 * steps) Bench.Rand).
Proof.
  induction steps as [|steps IH]; intros i l Hcells Hrand; cbn [Dot.init_from].
  - by rewrite Nat.add_0_r, app_nil_r.
  - erewrite bench_bind_done by reflexivity. rewrite Hrand.
    pose proof (store_written (Dot.vector_a env i) cells
                  (Dot.unit_random (Bench.env_rand env (2 * i)))) as Ha.
    rewrite vector_a_length in Ha. rewrite Ha by lia. cbn [Bench.lift].
    erewrite bench_bind_done by reflexivity.
    erewrite bench_bind_done by reflexivity.
    rewrite bench_count_app, Hrand. cbn [Bench.count Bench.is_rand].
    pose proof (store_written (Dot.vector_b env i) cells
                  (Dot.unit_random (Bench.env_rand env (2 * i + 1)))) as Hb.
    rewrite vector_b_length in Hb. rewrite Hb by lia. cbn [Bench.lift].
    erewrite bench_bind_done by reflexivity.
    rewrite <- vector_a_S, <- vector_b_S.
    rewrite IH; cycle 1.
    { lia. }
    { rewrite !bench_count_app, Hrand. cbn. lia. }
    rewrite <- Nat.add_succ_comm.
    replace (2 * S steps)%nat with (S (S (2 * steps))) by lia.
    cbn [replicate]. by rewrite <- !app_assoc.
Qed.

(** The initialisation loop when the blocks are too small. *)
Lemma init_from_outside env cells steps : forall i a b l,
  length a = cells -> (i <= cells)%nat -> (cells < i + steps)%nat ->
  Dot.init_from env steps i a b l = Bench.Undefined.
Proof.
  induction steps as [|steps IH]; intros i a b l Ha Hi Hout; [lia|].
  cbn [Dot.init_from].
  erewrite bench_bind_done by reflexivity.
  unfold Bench.store at 1. rewrite Ha.
  destruct (i <? cells)%nat eqn:Hlt; [|done].
  apply Nat.ltb_lt in Hlt. cbn [Bench.lift].
  erewrite bench_bind_done by reflexivity.
  erewrite bench_bind_done by reflexivity.
  destruct (Bench.store b i _) as [b'|]; [|done]. cbn [Bench.lift].
  erewrite bench_bind_done by reflexivity.
  apply IH; [by rewrite length_insert | lia | lia].
Qed.

Lemma size_of_vector n :
  0 <= n < 2 ^ 61 -> Bench.size_t (n * 8) / 8 = n.
Proof.
  intros H. unfold Bench.size_t. rewrite Z.mod_small by lia.
  by rewrite Z.div_mul.
Qed.

Lemma size_of_vector_wraps n :
  2 ^ 61 <= n < 2 ^ 64 -> 0 <= Bench.size_t (n * 8) / 8 < n.
Proof.
  intros H. unfold Bench.size_t.
  replace (n * 8) with (8 * n) by lia.
  change (2 ^ 64) with (8 * 2 ^ 61).
  rewrite Zmult_mod_distr_l, Z.mul_comm, Z.div_mul by lia.
  pose proof (Z.mod_pos_bound n (2 ^ 61)). lia.
Qed.

Lemma get_time_spec env l :
  Bench.get_time env l =
  Bench.Done (Bench.time_at env (Bench.count Bench.is_time l)) (l ++ [Bench.Gettimeofday]).
Proof. reflexivity. Qed.

(** X12.  A run of the dot benchmark with fewer than 2^61 elements and
    memory for both vectors returns 0.  It draws two random numbers an
    element, the first for [a] and the second for [b], reads the clock
    twice, prints the sum of products of those vectors, the elapsed time
    and twice the size over the elapsed nanoseconds, and frees both
    blocks; nothing goes to stderr. *)
Theorem dot_main_completes env argv :
  (2 <= length argv)%nat ->
  Bench.size_t (Bench.atoll (nth 1 argv "")) < 2 ^ 61 ->
  Bench.env_malloc env 0 (Bench.size_t (Bench.atoll (nth 1 argv "")) * 8) = true ->
  Bench.env_malloc env 1 (Bench.size_t (Bench.atoll (nth 1 argv "")) * 8) = true ->
  Dot.main env argv [] =
  Bench.Done 0
    ([Bench.Stdout ("Dot product benchmark: vector size = " +:+
                    pretty (Bench.size_t (Bench.atoll (nth 1 argv ""))) +:+ newline);
      Bench.Malloc (Bench.size_t (Bench.atoll (nth 1 argv "")) * 8);
      Bench.Malloc (Bench.size_t (Bench.atoll (nth 1 argv "")) * 8);
      Bench.Srand 42] ++
     replicate (2 * Z.to_nat (Bench.size_t (Bench.atoll (nth 1 argv "")))) Bench.Rand ++
     [Bench.Gettimeofday; Bench.Gettimeofday;
      Bench.Stdout ("Result: " +:+
        Bench.env_printf_f env 6
          (Dot.sum_products
             (Dot.vector_a env (Z.to_nat (Bench.size_t (Bench.atoll (nth 1 argv "")))))
             (Dot.vector_b env (Z.to_nat (Bench.size_t (Bench.atoll (nth 1 argv "")))))
             0%float) +:+ newline);
      Bench.Stdout ("Time: " +:+
        Bench.env_printf_f env 6 (Bench.time_at env 1 - Bench.time_at env 0)%float +:+
        " seconds" +:+ newline);
      Bench.Stdout ("Performance: " +:+
        Bench.env_printf_f env 3
          ((2 * Bench.u64_to_double (Bench.size_t (Bench.atoll (nth 1 argv "")))) /
           ((Bench.time_at env 1 - Bench.time_at env 0) * 1000000000))%float +:+
        " GFLOP/s" +:+ newline);
      Bench.Free; Bench.Free]).
Proof.
  intros Hargc Hn Ha Hb. unfold Dot.main.
  replace (Z.of_nat (length argv) <? 2) with false by (symmetry; apply Z.ltb_ge; lia).
  set (n := Bench.size_t (Bench.atoll (nth 1 argv ""))) in *.
  assert (Hn0 : 0 <= n) by (apply Z.mod_pos_bound; lia).
  assert (Hbytes : Bench.size_t (n * 8) = n * 8)
    by (unfold Bench.size_t at 1; apply Z.mod_small; lia).
  rewrite Hbytes, Z.div_mul by lia.
  erewrite bench_bind_done by reflexivity.
  erewrite bench_bind_done by reflexivity. cbn [app Bench.count Bench.is_malloc].
  rewrite Ha.
  erewrite bench_bind_done by reflexivity. cbn [app Bench.count Bench.is_malloc].
  rewrite Hb. cbn [negb orb].
  erewrite bench_bind_done by reflexivity. cbn [app].
  assert (Hfresh_a : replicate (Z.to_nat n) (@None double) =
                     Dot.written (Dot.vector_a env 0) (Z.to_nat n))
    by (unfold Dot.written; cbn; by rewrite Nat.sub_0_r).
  assert (Hfresh_b : replicate (Z.to_nat n) (@None double) =
                     Dot.written (Dot.vector_b env 0) (Z.to_nat n))
    by (unfold Dot.written; cbn; by rewrite Nat.sub_0_r).
  rewrite Hfresh_a at 1. rewrite Hfresh_b.
  erewrite bench_bind_done; cycle 1.
  { apply (init_from_written env (Z.to_nat n) (Z.to_nat n) 0); [lia|reflexivity]. }
  cbn beta iota. cbn [Nat.add].
  unfold Dot.written. rewrite vector_a_length, vector_b_length, Nat.sub_diag.
  cbn [replicate]. rewrite !app_nil_r.
  unfold Dot.dot_product.
  rewrite dot_from_written by (rewrite ?vector_a_length, ?vector_b_length; cbn; lia).
  rewrite !drop_0, !firstn_all2 by (rewrite ?vector_a_length, ?vector_b_length; lia).
  cbn [Bench.lift].
  erewrite bench_bind_done by reflexivity.
  erewrite bench_bind_done by apply get_time_spec.
  erewrite bench_bind_done by reflexivity.
  erewrite bench_bind_done by apply get_time_spec.
  rewrite !bench_count_app, bench_count_replicate.
  cbn [Bench.count Bench.is_time Nat.add].
  unfold Bench.printf, Bench.free.
  repeat (erewrite bench_bind_done by reflexivity).
  unfold Bench.ret. rewrite <- !app_assoc. reflexivity.
Qed.

Lemma dot_main_completes_witness :
  Dot.main Libc.env ["dot"; "4"] [] =
  Bench.Done 0
    [Bench.Stdout ("Dot product benchmark: vector size = 4" +:+ newline);
     Bench.Malloc 32; Bench.Malloc 32; Bench.Srand 42;
     Bench.Rand; Bench.Rand; Bench.Rand; Bench.Rand;
     Bench.Rand; Bench.Rand; Bench.Rand; Bench.Rand;
     Bench.Gettimeofday; Bench.Gettimeofday;
     Bench.Stdout ("Result: " +:+
       Sample.fixed_text 6
         (Dot.sum_products (Dot.vector_a Libc.env 4) (Dot.vector_b Libc.env 4) 0%float) +:+
       newline);
     Bench.Stdout ("Time: " +:+
       Sample.fixed_text 6 (Bench.time_at Libc.env 1 - Bench.time_at Libc.env 0)%float +:+
       " seconds" +:+ newline);
     Bench.Stdout ("Performance: " +:+
       Sample.fixed_text 3
         ((2 * Bench.u64_to_double 4) /
          ((Bench.time_at Libc.env 1 - Bench.time_at Libc.env 0) * 1000000000))%float +:+
       " GFLOP/s" +:+ newline);
     Bench.Free; Bench.Free].
Proof.
  apply (dot_main_completes Libc.env ["dot"; "4"]).
  - cbn. lia.
  - by vm_compute.
  - reflexivity.
  - reflexivity.
Defined.

(** X13.  The byte count [n * sizeof (double)] is computed in 64 bits
    and not checked.  From 2^61 elements on, which is also what a
    negative argument becomes, it wraps around: should both allocations
    succeed, the blocks are shorter than [n] elements and the
    initialisation writes past their end. *)
Theorem dot_main_size_overflow env argv :
  (2 <= length argv)%nat ->
  2 ^ 61 <= Bench.size_t (Bench.atoll (nth 1 argv "")) ->
  Bench.env_malloc env 0
    (Bench.size_t (Bench.size_t (Bench.atoll (nth 1 argv "")) * 8)) = true ->
  Bench.env_malloc env 1
    (Bench.size_t (Bench.size_t (Bench.atoll (nth 1 argv "")) * 8)) = true ->
  Bench.size_t (Bench.size_t (Bench.atoll (nth 1 argv "")) * 8) / 8 <
    Bench.size_t (Bench.atoll (nth 1 argv "")) /\
  Dot.main env argv [] = Bench.Undefined.
Proof.
  intros Hargc Hn Ha Hb.
  set (n := Bench.size_t (Bench.atoll (nth 1 argv ""))) in *.
  assert (Hn64 : n < 2 ^ 64) by (apply Z.mod_pos_bound; lia).
  pose proof (size_of_vector_wraps n (conj Hn Hn64)) as Hcells.
  split; [lia|].
  unfold Dot.main.
  replace (Z.of_nat (length argv) <? 2) with false by (symmetry; apply Z.ltb_ge; lia).
  fold n.
  erewrite bench_bind_done by reflexivity.
  erewrite bench_bind_done by reflexivity. cbn [app Bench.count Bench.is_malloc].
  rewrite Ha.
  erewrite bench_bind_done by reflexivity. cbn [app Bench.count Bench.is_malloc].
  rewrite Hb. cbn [negb orb].
  erewrite bench_bind_done by reflexivity.
  unfold Bench.bind at 1.
  rewrite (init_from_outside env (Z.to_nat (Bench.size_t (n * 8) / 8)));
    [done | by rewrite length_replicate | lia | lia].
Qed.

Lemma dot_main_size_overflow_witness :
  Bench.size_t (Bench.size_t (Bench.atoll "-1") * 8) / 8 < Bench.size_t (Bench.atoll "-1") /\
  Dot.main Libc.env ["dot"; "-1"] [] = Bench.Undefined.
Proof.
  apply (dot_main_size_overflow Libc.env ["dot"; "-1"]).
  - cbn. lia.
  - by vm_compute.
  - reflexivity.
  - reflexivity.
Defined.

(** X14.  When either allocation fails, the dot benchmark has printed
    its banner and requested both blocks; it then writes the failure to
    stderr and returns 1, without freeing the block it may have got and
    without touching the random numbers or the clock. *)
Theorem dot_main_allocation_failure env argv :
  (2 <= length argv)%nat ->
  Bench.env_malloc env 0
    (Bench.size_t (Bench.size_t (Bench.atoll (nth 1 argv "")) * 8)) = false \/
  Bench.env_malloc env 1
    (Bench.size_t (Bench.size_t (Bench.atoll (nth 1 argv "")) * 8)) = false ->
  Dot.main env argv [] =
  Bench.Done 1
    [Bench.Stdout ("Dot product benchmark: vector size = " +:+
                   pretty (Bench.size_t (Bench.atoll (nth 1 argv ""))) +:+ newline);
     Bench.Malloc (Bench.size_t (Bench.size_t (Bench.atoll (nth 1 argv "")) * 8));
     Bench.Malloc (Bench.size_t (Bench.size_t (Bench.atoll (nth 1 argv "")) * 8));
     Bench.Stderr ("Memory allocation failed" +:+ newline)].
Proof.
  intros Hargc Hfail. unfold Dot.main.
  replace (Z.of_nat (length argv) <? 2) with false by (symmetry; apply Z.ltb_ge; lia).
  erewrite bench_bind_done by reflexivity.
  erewrite bench_bind_done by reflexivity. cbn [app Bench.count Bench.is_malloc].
  erewrite bench_bind_done by reflexivity. cbn [app Bench.count Bench.is_malloc].
  destruct Hfail as [-> | ->]; [|destruct (Bench.env_malloc env 0 _)]; reflexivity.
Qed.

Lemma dot_main_allocation_failure_witness :
  Dot.main Libc.out_of_memory ["dot"; "4"] [] =
  Bench.Done 1
    [Bench.Stdout ("Dot product benchmark: vector size = 4" +:+ newline);
     Bench.Malloc 32; Bench.Malloc 32;
     Bench.Stderr ("Memory allocation failed" +:+ newline)].
Proof.
  apply (dot_main_allocation_failure Libc.out_of_memory ["dot"; "4"]).
  - cbn. lia.
  - right. reflexivity.
Defined.

(** ** memcpy.c *)

Lemma mismatches_nonneg ds : forall ss, 0 <= Memcpy.mismatches ds ss.
Proof.
  induction ds as [|d ds IH]; intros [|s ss]; cbn [Memcpy.mismatches]; try lia.
  specialize (IH ss). destruct (d =? s); lia.
Qed.

Lemma mismatches_same ds : Memcpy.mismatches ds ds = 0.
Proof.
  induction ds as [|d ds IH]; cbn [Memcpy.mismatches]; [done|].
  rewrite Z.eqb_refl. lia.
Qed.

(** The verification loop on blocks that were written. *)
Lemma verify_from_written ds ss steps : forall i errors l,
  0 <= errors <= 10 ->
  (i + steps <= length ds)%nat -> (i + steps <= length ss)%nat ->
  exists extra,
    Memcpy.verify_from steps i (Some <$> ds) (Some <$> ss) errors l =
    Bench.Done
      (Z.min 10 (errors + Memcpy.mismatches (take steps (drop i ds)) (take steps (drop i ss))))
      (l ++ extra) /\
    Forall (fun c => Bench.is_stderr c = true) extra /\
    Z.of_nat (length extra) =
      Z.min 10 (errors + Memcpy.mismatches (take steps (drop i ds)) (take steps (drop i ss))) -
      errors.
Proof.
  induction steps as [|steps IH]; intros i errors l He Hd Hs; cbn [Memcpy.verify_from].
  - exists []. cbn [take Memcpy.mismatches length]. rewrite app_nil_r, Z.add_0_r.
    rewrite Z.min_r by lia. repeat split; [constructor | lia].
  - destruct (lookup_lt_is_Some_2 ds i) as [d Hdi]; [lia|].
    destruct (lookup_lt_is_Some_2 ss i) as [s Hsi]; [lia|].
    rewrite (drop_S ds d i Hdi), (drop_S ss s i Hsi). cbn [take Memcpy.mismatches].
    pose proof (mismatches_nonneg (take steps (drop (S i) ds)) (take steps (drop (S i) ss))).
    destruct (errors <? 10) eqn:Hlt.
    + apply Z.ltb_lt in Hlt.
      rewrite !load_written, Hdi, Hsi. cbn [Bench.lift].
      erewrite bench_bind_done by reflexivity.
      erewrite bench_bind_done by reflexivity.
      destruct (d =? s); cbn [negb].
      * destruct (IH (S i) errors l) as (extra & -> & Hall & Hlen); [lia..|].
        exists extra. rewrite Z.add_0_l. done.
      * unfold Bench.fprintf_stderr. erewrite bench_bind_done by reflexivity.
        destruct (IH (S i) (errors + 1)
                    (l ++ [Bench.Stderr ("Mismatch at byte " +:+ pretty i +:+ newline)]))
          as (extra & -> & Hall & Hlen); [lia..|].
        exists (Bench.Stderr ("Mismatch at byte " +:+ pretty i +:+ newline) :: extra).
        rewrite <- app_assoc. cbn [app length].
        replace (errors + 1 + Memcpy.mismatches (take steps (drop (S i) ds))
                                                (take steps (drop (S i) ss)))
          with (errors + (1 + Memcpy.mismatches (take steps (drop (S i) ds))
                                                (take steps (drop (S i) ss)))) in * by lia.
        repeat split; [by constructor | lia].
    + apply Z.ltb_ge in Hlt. exists []. rewrite app_nil_r.
      rewrite Z.min_l by (destruct (d =? s); lia).
      unfold Bench.ret. replace errors with 10 at 1 by lia.
      repeat split; [constructor | cbn; lia].
Qed.

(** X15.  The verification loop of the memcpy benchmark counts the
    positions where the two buffers differ and stops at ten: on buffers
    of at least [size] bytes it returns the smaller of 10 and the number
    of differing positions among the first [size], and has written one
    line to stderr for each error counted and nothing else. *)
Theorem verify_counts_up_to_ten ds ss size l :
  (size <= length ds)%nat -> (size <= length ss)%nat ->
  exists extra,
    Memcpy.verify_from size 0 (Some <$> ds) (Some <$> ss) 0 l =
    Bench.Done (Z.min 10 (Memcpy.mismatches (take size ds) (take size ss))) (l ++ extra) /\
    Forall (fun c => Bench.is_stderr c = true) extra /\
    Z.of_nat (length extra) = Z.min 10 (Memcpy.mismatches (take size ds) (take size ss)).
Proof.
  intros Hd Hs.
  destruct (verify_from_written ds ss size 0 0 l) as (extra & H & Hall & Hlen);
    [lia..|].
  rewrite !drop_0, Z.add_0_l in *. exists extra. repeat split; [done..|lia].
Qed.

Lemma verify_counts_up_to_ten_witness :
  exists extra,
    Memcpy.verify_from 12 0 (Some <$> replicate 12 171) (Some <$> replicate 12 0) 0 [] =
    Bench.Done (Z.min 10 (Memcpy.mismatches (take 12 (replicate 12 171))
                                            (take 12 (replicate 12 0))))
               ([] ++ extra) /\
    Forall (fun c => Bench.is_stderr c = true) extra /\
    Z.of_nat (length extra) =
      Z.min 10 (Memcpy.mismatches (take 12 (replicate 12 171)) (take 12 (replicate 12 0))).
Proof.
  apply (verify_counts_up_to_ten (replicate 12 171) (replicate 12 0) 12 []);
    cbn; lia.
Defined.

Lemma memset_fresh c n :
  Memcpy.memset (replicate n None) c n = Some (Some <$> replicate n (c mod 256)).
Proof.
  unfold Memcpy.memset. rewrite length_replicate, Nat.leb_refl.
  rewrite drop_ge by (by rewrite length_replicate).
  by rewrite app_nil_r, fmap_replicate.
Qed.

Lemma memcpy_whole (dst src : list (option Z)) n :
  length dst = n -> length src = n -> Memcpy.memcpy dst src n = Some src.
Proof.
  intros Hd Hs. unfold Memcpy.memcpy. rewrite Hd, Hs, Nat.leb_refl. cbn [andb].
  rewrite take_ge, drop_ge by lia. by rewrite app_nil_r.
Qed.

(** X16.  A run of the memcpy benchmark that gets both buffers always
    passes its own verification and returns 0: after [memset] and the
    two copies the buffers are equal byte for byte, so the mismatch
    branch is never taken, nothing goes to stderr, and the log is the
    banner, the two allocations, the two clock readings, the time and
    bandwidth lines, "Verification: PASSED" and the two [free]s. *)
Theorem memcpy_main_passes env argv :
  (2 <= length argv)%nat ->
  Bench.env_malloc env 0 (Bench.size_t (Bench.atoll (nth 1 argv ""))) = true ->
  Bench.env_malloc env 1 (Bench.size_t (Bench.atoll (nth 1 argv ""))) = true ->
  Memcpy.main env argv [] =
  Bench.Done 0
    [Bench.Stdout ("Memcpy benchmark: size = " +:+
       pretty (Bench.size_t (Bench.atoll (nth 1 argv ""))) +:+ " bytes (" +:+
       Bench.env_printf_f env 2
         (Bench.u64_to_double (Bench.size_t (Bench.atoll (nth 1 argv ""))) / 1048576)%float +:+
       " MB)" +:+ newline);
     Bench.Malloc (Bench.size_t (Bench.atoll (nth 1 argv "")));
     Bench.Malloc (Bench.size_t (Bench.atoll (nth 1 argv "")));
     Bench.Gettimeofday; Bench.Gettimeofday;
     Bench.Stdout ("Time: " +:+
       Bench.env_printf_f env 6 (Bench.time_at env 1 - Bench.time_at env 0)%float +:+
       " seconds" +:+ newline);
     Bench.Stdout ("Bandwidth: " +:+
       Bench.env_printf_f env 3
         ((Bench.u64_to_double (Bench.size_t (Bench.atoll (nth 1 argv ""))) / 1073741824) /
          (Bench.time_at env 1 - Bench.time_at env 0))%float +:+
       " GB/s" +:+ newline);
     Bench.Stdout ("Verification: PASSED" +:+ newline);
     Bench.Free; Bench.Free].
Proof.
  intros Hargc Ha Hb. unfold Memcpy.main.
  replace (Z.of_nat (length argv) <? 2) with false by (symmetry; apply Z.ltb_ge; lia).
  set (size := Bench.size_t (Bench.atoll (nth 1 argv ""))) in *.
  erewrite bench_bind_done by reflexivity.
  erewrite bench_bind_done by reflexivity. cbn [app Bench.count Bench.is_malloc].
  rewrite Ha.
  erewrite bench_bind_done by reflexivity. cbn [app Bench.count Bench.is_malloc].
  rewrite Hb. cbn [negb orb].
  rewrite memset_fresh. cbn [Bench.lift].
  erewrite bench_bind_done by reflexivity.
  rewrite memcpy_whole by (by rewrite ?length_fmap, length_replicate). cbn [Bench.lift].
  erewrite bench_bind_done by reflexivity.
  erewrite bench_bind_done by apply get_time_spec.
  rewrite memcpy_whole by (by rewrite ?length_fmap, length_replicate). cbn [Bench.lift].
  erewrite bench_bind_done by reflexivity.
  erewrite bench_bind_done by apply get_time_spec.
  cbn [app Bench.count Bench.is_time].
  unfold Bench.printf.
  erewrite bench_bind_done by reflexivity.
  erewrite bench_bind_done by reflexivity.
  cbn [app].
  match goal with
  | |- Bench.bind (Memcpy.verify_from ?n 0 (Some <$> ?ds) (Some <$> ?ds) 0) _ ?l = _ =>
      destruct (verify_from_written ds ds n 0 0 l) as (extra & Hv & _ & Hlen);
        [lia | by rewrite length_replicate | by rewrite length_replicate |]
  end.
  rewrite mismatches_same in Hv, Hlen.
  destruct extra; [|cbn in Hlen; lia].
  erewrite bench_bind_done by exact Hv.
  cbn [Z.min Z.add Z.compare Z.eqb app].
  unfold Bench.free.
  repeat (erewrite bench_bind_done by reflexivity).
  reflexivity.
Qed.

Lemma memcpy_main_passes_witness :
  Memcpy.main Libc.env ["memcpy_bench"; "64"] [] =
  Bench.Done 0
    [Bench.Stdout ("Memcpy benchmark: size = 64 bytes (" +:+
       Sample.fixed_text 2 (Bench.u64_to_double 64 / 1048576)%float +:+ " MB)" +:+ newline);
     Bench.Malloc 64; Bench.Malloc 64;
     Bench.Gettimeofday; Bench.Gettimeofday;
     Bench.Stdout ("Time: " +:+
       Sample.fixed_text 6 (Bench.time_at Libc.env 1 - Bench.time_at Libc.env 0)%float +:+
       " seconds" +:+ newline);
     Bench.Stdout ("Bandwidth: " +:+
       Sample.fixed_text 3
         ((Bench.u64_to_double 64 / 1073741824) /
          (Bench.time_at Libc.env 1 - Bench.time_at Libc.env 0))%float +:+
       " GB/s" +:+ newline);
     Bench.Stdout ("Verification: PASSED" +:+ newline);
     Bench.Free; Bench.Free].
Proof.
  apply (memcpy_main_passes Libc.env ["memcpy_bench"; "64"]).
  - cbn. lia.
  - reflexivity.
  - reflexivity.
Defined.

(** X17.  When either allocation fails, the memcpy benchmark has printed
    its banner and requested both buffers; it then writes the failure to
    stderr and returns 1, without freeing the buffer it may have got,
    without reading the clock and without verifying anything. *)
Theorem memcpy_main_allocation_failure env argv :
  (2 <= length argv)%nat ->
  Bench.env_malloc env 0 (Bench.size_t (Bench.atoll (nth 1 argv ""))) = false \/
  Bench.env_malloc env 1 (Bench.size_t (Bench.atoll (nth 1 argv ""))) = false ->
  Memcpy.main env argv [] =
  Bench.Done 1
    [Bench.Stdout ("Memcpy benchmark: size = " +:+
       pretty (Bench.size_t (Bench.atoll (nth 1 argv ""))) +:+ " bytes (" +:+
       Bench.env_printf_f env 2
         (Bench.u64_to_double (Bench.size_t (Bench.atoll (nth 1 argv ""))) / 1048576)%float +:+
       " MB)" +:+ newline);
     Bench.Malloc (Bench.size_t (Bench.atoll (nth 1 argv "")));
     Bench.Malloc (Bench.size_t (Bench.atoll (nth 1 argv "")));
     Bench.Stderr ("Memory allocation failed" +:+ newline)].
Proof.
  intros Hargc Hfail. unfold Memcpy.main.
  replace (Z.of_nat (length argv) <? 2) with false by (symmetry; apply Z.ltb_ge; lia).
  erewrite bench_bind_done by reflexivity.
  erewrite bench_bind_done by reflexivity. cbn [app Bench.count Bench.is_malloc].
  erewrite bench_bind_done by reflexivity. cbn [app Bench.count Bench.is_malloc].
  destruct Hfail as [-> | ->]; [|destruct (Bench.env_malloc env 0 _)]; reflexivity.
Qed.

Lemma memcpy_main_allocation_failure_witness :
  Memcpy.main Libc.out_of_memory ["memcpy_bench"; "64"] [] =
  Bench.Done 1
    [Bench.Stdout ("Memcpy benchmark: size = 64 bytes (" +:+
       Sample.fixed_text 2 (Bench.u64_to_double 64 / 1048576)%float +:+ " MB)" +:+ newline);
     Bench.Malloc 64; Bench.Malloc 64;
     Bench.Stderr ("Memory allocation failed" +:+ newline)].
Proof.
  apply (memcpy_main_allocation_failure Libc.out_of_memory ["memcpy_bench"; "64"]).
  - cbn. lia.
  - right. reflexivity.
Defined.

(** * Examples *)

Example atoi_100 : atoi "100" = 100.
Proof. reflexivity. Qed.

Example atoi_negative : atoi "  -25ms" = -25.
Proof. reflexivity. Qed.

Example atoi_word : atoi "fast" = 0.
Proof. reflexivity. Qed.

Example wait_exit_7 :
  WIFEXITED (wstatus (ExitedNormally 7)) = true /\
  WEXITSTATUS (wstatus (ExitedNormally 7)) = 7.
Proof. split; reflexivity. Qed.

Example wait_kill_9 :
  WIFEXITED (wstatus (KilledBySignal 9 false)) = false /\
  WIFSIGNALED (wstatus (KilledBySignal 9 false)) = true /\
  WTERMSIG (wstatus (KilledBySignal 9 false)) = 9.
Proof. repeat split; reflexivity. Qed.

Example wait_stopped :
  WIFEXITED (wstatus (Stopped 19)) = false /\
  WIFSIGNALED (wstatus (Stopped 19)) = false /\
  exit_status (wstatus (Stopped 19)) = 0.
Proof. repeat split; reflexivity. Qed.

Example double_of_power : (u32_to_double 150000 / 1000)%float = 150%float.
Proof. by vm_compute. Qed.

Example fixed_text_rounds :
  Sample.fixed_text 3 (1 / 3)%float = "0.333" /\
  Sample.fixed_text 3 (-2.5)%float = "-2.500" /\
  Sample.fixed_text 3 0.0625%float = "0.062" /\
  Sample.fixed_text 3 0.1875%float = "0.188".
Proof. repeat split; by vm_compute. Qed.

(** The sample run: three iterations, two sleeps, and the report that
    replaces the stale file. *)
Example sample_run :
  main Sample.env 3 Sample.argv (initial_world Sample.files) =
  Done (Return 7)
       {| trace :=
            [Fork; NvmlInit; NvmlDeviceGetHandleByIndex 0; SteadyNow;
             Waitpid 4242 true; NvmlQuery Power; NvmlQuery CoreClock; NvmlQuery MemClock;
             NvmlQuery Utilization; NvmlQuery Temperature; SleepFor 100;
             Waitpid 4242 true; NvmlQuery Power; NvmlQuery CoreClock; NvmlQuery MemClock;
             NvmlQuery Utilization; NvmlQuery Temperature; SleepFor 100;
             Waitpid 4242 true; NvmlQuery Power; NvmlQuery CoreClock; NvmlQuery MemClock;
             NvmlQuery Utilization; NvmlQuery Temperature;
             SteadyNow; OpenTrunc "out.txt"; SystemNow; CloseFile "out.txt"; NvmlShutdown];
          fs :=
            {["out.txt" :=
                key_value_lines
                  [("timestamp", "2025-03-01T12:00:00+0100");
                   ("power_avg_w", "151.500");
                   ("gpu_core_clock_MHz", "1500.000");
                   ("gpu_mem_clock_MHz", "3334.000");
                   ("gpu_utilization_pct", "97.000");
                   ("gpu_temp_c", "65.000");
                   ("samples", "3");
                   ("duration_s", "0.250");
                   ("energy_j", "37.875")]]} |}.
Proof. by vm_compute. Qed.

(** With fuel for two iterations only, the loop is still running. *)
Example sample_run_short_of_fuel :
  main Sample.env 2 Sample.argv (initial_world Sample.files) = OutOfFuel.
Proof. by vm_compute. Qed.

Example too_few_arguments :
  main Sample.env 3 ["gpu_monitor"; "100"; "out.txt"] (initial_world Sample.files) =
  Done (Return 2)
       {| trace := [Cerr (usage "gpu_monitor")]; fs := Sample.files |}.
Proof. reflexivity. Qed.

(** The report of the sample run, read back. *)
Example sample_report_keys :
  keys_of
    (key_value_lines
       [("timestamp", "2025-03-01T12:00:00+0100"); ("power_avg_w", "151.500");
        ("gpu_core_clock_MHz", "1500.000"); ("gpu_mem_clock_MHz", "3334.000");
        ("gpu_utilization_pct", "97.000"); ("gpu_temp_c", "65.000");
        ("samples", "3"); ("duration_s", "0.250"); ("energy_j", "37.875")]) =
  ["timestamp"; "power_avg_w"; "gpu_core_clock_MHz"; "gpu_mem_clock_MHz";
   "gpu_utilization_pct"; "gpu_temp_c"; "samples"; "duration_s"; "energy_j"].
Proof. reflexivity. Qed.

(** A fork that fails: exit code 3, nothing else done. *)
Example fork_fails :
  forall env,
    env_fork env = -1 ->
    main env 3 Sample.argv (initial_world Sample.files) =
    Done (Return 3) {| trace := [Fork; Perror "fork"]; fs := Sample.files |}.
Proof. intros env H. by rewrite main_fork_failed by (cbn; lia || done). Qed.
